(** * Pharmacy management: inventory, dispensing and queue logic

    A shallow embedding of the API routes of the pharmacy application and
    the properties its specification states about them.

    - [src/unnamed/part_000]: stock levels ([Stock.GET]) and stock
      adjustment ([Stock.PATCH]);
    - [src/app/api/pharmacist/prescriptions/[prescriptionId]/dispense/route.ts]:
      the dispensing transaction ([Dispense.POST]);
    - [src/app/api/pharmacist/dashboard/route.ts]: the pending-prescription
      list ([Pending.GET]) and the dashboard ([Dashboard.GET]);
    - [src/app/api/drugs/route.ts]: the drug catalogue ([Drugs.GET],
      [Drugs.POST], [Drugs.PUT], [Drugs.DELETE]);
    - [src/app/api/pharmacist/prescriptions/[prescriptionId]/route.ts]: the
      prescription detail ([Detail.GET]);
    - [src/app/users/pharmacist/dispensary/dispense/[prescriptionId]/page.tsx]:
      the state and the handlers of the dispensing page ([DispensePage]).

    Conventions.  A database table is a finite map from the row identifier
    to the row; append-only tables whose identifiers are never looked up are
    lists in creation order.  Integer columns are [Z]; JavaScript numbers
    that hold money or ratios are exact rationals ([Q]), so IEEE rounding is
    not part of the model.  A reading of the clock is an explicit input.
    A request body is taken as parsed and well typed.  The queries of one
    request read one state of the tables. *)

From Stdlib Require Import ZArith QArith Qminmax String Ascii List DecimalString Lia.
From stdpp Require Import gmap strings list sorting.

Local Open Scope string_scope.
Local Open Scope Z_scope.

(** ** JavaScript helpers *)

(** [x || d] on a nullable integer column: [null] and [0] are falsy. *)
Definition or_default (x : option Z) (d : Z) : Z :=
  match x with
  | Some v => if v =? 0 then d else v
  | None => d
  end.

(** Truthiness of a nullable integer, as tested by [x ? a : b]. *)
Definition truthy (x : option Z) : bool :=
  match x with
  | Some v => negb (v =? 0)
  | None => false
  end.

(** Template-literal rendering of an integer. *)
Definition string_of_Z (z : Z) : string := NilZero.string_of_int (Z.to_int z).

(** The value of [parseInt(...)]. *)
Inductive parsed := NaN | Num (n : Z).

(** ASCII lower-casing, for [mode: 'insensitive']. *)
Definition lower (c : ascii) : ascii :=
  let n := nat_of_ascii c in
  if (Nat.leb 65 n && Nat.leb n 90)%bool then ascii_of_nat (n + 32) else c.

Fixpoint starts_with_insensitive (needle hay : string) : bool :=
  match needle, hay with
  | EmptyString, _ => true
  | String _ _, EmptyString => false
  | String a needle', String b hay' =>
      (Ascii.eqb (lower a) (lower b) && starts_with_insensitive needle' hay')%bool
  end.

(** [{ contains: needle, mode: 'insensitive' }] *)
Fixpoint contains_insensitive (needle hay : string) : bool :=
  (starts_with_insensitive needle hay ||
   match hay with
   | EmptyString => false
   | String _ hay' => contains_insensitive needle hay'
   end)%bool.

(** A string is truthy when it is not empty; [null] is falsy. *)
Definition truthy_string (s : option string) : option string :=
  match s with
  | Some "" => None
  | other => other
  end.

(** ** Data model *)

(** One module per table; the fields are the columns the routes touch. *)

Module Product.
Record t := {
  name : string;
  genericName : option string;
  brandName : option string;
  category : string;
  quantity : Z;
  reorderLevel : option Z;
  expiryDate : option Z;
  updatedAt : Z;
  isDeleted : bool;
}.

Definition set_quantity (q : Z) (p : t) : t :=
  {| name := name p; genericName := genericName p; brandName := brandName p;
     category := category p; quantity := q;
     reorderLevel := reorderLevel p; expiryDate := expiryDate p;
     updatedAt := updatedAt p; isDeleted := isDeleted p |}.

Definition set_updatedAt (now : Z) (p : t) : t :=
  {| name := name p; genericName := genericName p; brandName := brandName p;
     category := category p; quantity := quantity p;
     reorderLevel := reorderLevel p; expiryDate := expiryDate p;
     updatedAt := now; isDeleted := isDeleted p |}.
End Product.

Inductive Status := pending | partially_dispensed | dispensed.

Inductive Priority := emergency | urgent | normal.

Global Instance Status_eq_dec : EqDecision Status.
Proof. solve_decision. Defined.

Global Instance Priority_eq_dec : EqDecision Priority.
Proof. solve_decision. Defined.

Module Student.
Record t := {
  firstName : string;
  lastName : string;
  matricNumber : string;
  phone : string;
}.
End Student.

Module Physician.
Record t := {
  firstName : string;
  lastName : string;
  specialization : string;
}.
End Physician.

(** A prescription row.  [student] and [physician] are the rows its required
    relations resolve to (what [include: { student, physician }] joins). *)
Module Prescription.
Record t := {
  prescriptionNo : string;
  studentId : string;
  student : Student.t;
  physician : Physician.t;
  diagnosis : string;
  priority : Priority;
  status : Status;
  totalCost : Q;
  createdAt : Z;
  isDispensed : bool;
  dispensedAt : option Z;
  dispensedBy : option string;
  amountPaid : option Q;
  isDeleted : bool;
}.
End Prescription.

Module PrescriptionItem.
Record t := {
  prescriptionId : string;
  productId : string;
  quantityPrescribed : Z;
  quantityDispensed : Z;
  unitPrice : Q;
  totalPrice : Q;
  isDispensed : bool;
  dispensedAt : option Z;
  dispensedBy : option string;
}.
End PrescriptionItem.

(** Modelled from the spec: the schema that declares the type of the
    [priority] column is not among the sources, so the order in which
    [orderBy: { priority: 'asc' }] ranks its values is taken from the
    specification, emergency < urgent < normal (the comment at line 326 of
    the dashboard route says the same). *)
Definition priority_rank (p : Priority) : Z :=
  match p with
  | emergency => 0
  | urgent => 1
  | normal => 2
  end.

Definition priority_name (p : Priority) : string :=
  match p with
  | emergency => "emergency"
  | urgent => "urgent"
  | normal => "normal"
  end.

(** One line of a dispensing request body, as the dispensing page sends it
    and as [JSON.stringify(dispensedItems)] stores it on the receipt. *)
Module DispensedItem.
Record t := {
  itemId : string;
  quantityDispensed : Z;
  productId : string;
}.
End DispensedItem.

Module DrugDispensal.
Record t := {
  dispensalNo : string;
  prescriptionId : string;
  prescriptionNo : string;
  studentId : string;
  dispensedBy : string;
  dispensedItems : list DispensedItem.t;
  totalAmount : Q;
  notes : string;
}.
End DrugDispensal.

Module BalanceTransaction.
Record t := {
  studentId : string;
  amount : Q;
  type : string;
  description : string;
  paymentMethod : string;
  prescriptionId : string;
  balanceAfter : Q;
}.
End BalanceTransaction.

(** The tables the pharmacist routes read and write. *)
Record DB := {
  products : gmap string Product.t;
  prescriptions : gmap string Prescription.t;
  prescriptionItems : gmap string PrescriptionItem.t;
  drugDispensals : list DrugDispensal.t;
  balanceTransactions : list BalanceTransaction.t;
}.

Definition set_products (m : gmap string Product.t) (db : DB) : DB :=
  {| products := m; prescriptions := prescriptions db;
     prescriptionItems := prescriptionItems db;
     drugDispensals := drugDispensals db;
     balanceTransactions := balanceTransactions db |}.

Definition set_prescriptions (m : gmap string Prescription.t) (db : DB) : DB :=
  {| products := products db; prescriptions := m;
     prescriptionItems := prescriptionItems db;
     drugDispensals := drugDispensals db;
     balanceTransactions := balanceTransactions db |}.

Definition set_prescriptionItems (m : gmap string PrescriptionItem.t) (db : DB) : DB :=
  {| products := products db; prescriptions := prescriptions db;
     prescriptionItems := m;
     drugDispensals := drugDispensals db;
     balanceTransactions := balanceTransactions db |}.

Definition set_drugDispensals (l : list DrugDispensal.t) (db : DB) : DB :=
  {| products := products db; prescriptions := prescriptions db;
     prescriptionItems := prescriptionItems db;
     drugDispensals := l;
     balanceTransactions := balanceTransactions db |}.

Definition set_balanceTransactions (l : list BalanceTransaction.t) (db : DB) : DB :=
  {| products := products db; prescriptions := prescriptions db;
     prescriptionItems := prescriptionItems db;
     drugDispensals := drugDispensals db;
     balanceTransactions := l |}.

(** A reading of the clock: [new Date()], with [getTime()] in epoch
    milliseconds and [getFullYear()]. *)
Record Clock := {
  getTime : Z;
  getFullYear : Z;
}.

(** ** Transactions

    The callback of [prisma.$transaction] runs against the tables and either
    throws or returns a value together with the tables as it left them.  A
    throw discards every write of the callback. *)

Definition Tx (A : Type) : Type := DB → string + (A * DB).

Global Instance Tx_ret : MRet Tx := λ A a db, inr (a, db).

Global Instance Tx_bind : MBind Tx := λ A B f m db,
  match m db with
  | inl e => inl e
  | inr (a, db') => f a db'
  end.

Definition throw {A} (e : string) : Tx A := λ _, inl e.

Definition transaction {A} (callback : Tx A) (db : DB) : DB * (string + A) :=
  match callback db with
  | inl e => (db, inl e)
  | inr (a, db') => (db', inr a)
  end.

(** [for (const x of l) { await f(x) }] *)
Fixpoint forEach {A} (l : list A) (f : A → Tx unit) : Tx unit :=
  match l with
  | [] => mret ()
  | x :: l' => f x ;; forEach l' f
  end.

(** [update({ where: { id }, data })] raises when no row has the id. *)
Definition recordNotFound : string :=
  "An operation failed because it depends on one or more records that were required but not found.".

(** A required relation that resolves to no row makes the query raise. *)
Definition inconsistentResult : string :=
  "Inconsistent query result: Field product is required to return data, got null instead.".

Definition product_update (id : string) (data : Product.t → Product.t) : Tx unit :=
  λ db, match products db !! id with
        | None => inl recordNotFound
        | Some row => inr ((), set_products (<[id := data row]> (products db)) db)
        end.

Definition prescriptionItem_update (id : string)
    (data : PrescriptionItem.t → PrescriptionItem.t) : Tx unit :=
  λ db, match prescriptionItems db !! id with
        | None => inl recordNotFound
        | Some row =>
            inr ((), set_prescriptionItems (<[id := data row]> (prescriptionItems db)) db)
        end.

Definition prescription_update (id : string)
    (data : Prescription.t → Prescription.t) : Tx unit :=
  λ db, match prescriptions db !! id with
        | None => inl recordNotFound
        | Some row =>
            inr ((), set_prescriptions (<[id := data row]> (prescriptions db)) db)
        end.

Definition drugDispensal_create (row : DrugDispensal.t) : Tx DrugDispensal.t :=
  λ db, inr (row, set_drugDispensals (drugDispensals db ++ [row]) db).

Definition balanceTransaction_create (row : BalanceTransaction.t) : Tx unit :=
  λ db, inr ((), set_balanceTransactions (balanceTransactions db ++ [row]) db).

(** [skip] and [take] on the ordered rows of a [findMany].  A negative
    [take] counts from the end of the ordered rows, and so does its [skip]. *)
Definition paginate {A} (skip take_ : Z) (rows : list A) : list A :=
  if 0 <=? take_
  then take (Z.to_nat take_) (drop (Z.to_nat skip) rows)
  else let kept := take (length rows - Z.to_nat skip) rows in
       drop (length kept - Z.to_nat (- take_)) kept.

(** A prescription item with the product its [productId] resolves to
    ([include: { product: true }]). *)
Module ItemWithProduct.
Record t := {
  id : string;
  item : PrescriptionItem.t;
  product : Product.t;
}.
End ItemWithProduct.

Definition include_product (db : DB) (row : string * PrescriptionItem.t)
    : option ItemWithProduct.t :=
  match products db !! PrescriptionItem.productId row.2 with
  | Some p => Some {| ItemWithProduct.id := row.1;
                      ItemWithProduct.item := row.2;
                      ItemWithProduct.product := p |}
  | None => None
  end.

(** The item rows of a prescription. *)
Definition itemsOf (db : DB) (prescriptionId : string)
    : list (string * PrescriptionItem.t) :=
  filter (λ row, PrescriptionItem.prescriptionId row.2 = prescriptionId)
         (map_to_list (prescriptionItems db)).

Inductive StockStatus := out_of_stock | low_stock | healthy.

Global Instance StockStatus_eq_dec : EqDecision StockStatus.
Proof. solve_decision. Defined.

(** ** Stock levels and stock adjustment ([src/unnamed/part_000]) *)

Module Stock.

(** The query string after lines 6-12: [page] and [limit] are the values of
    [parseInt(searchParams.get(...) || default)]. *)
Record Query := {
  category : option string;
  status : option string;
  search : option string;
  page : parsed;
  limit : parsed;
}.

(** [offset = (page - 1) * limit] *)
Definition offset (q : Query) : parsed :=
  match page q, limit q with
  | Num p, Num l => Num ((p - 1) * l)
  | _, _ => NaN
  end.

(** A nullable text column contains the needle. *)
Definition column_contains (needle : string) (column : option string) : Prop :=
  match column with
  | Some text => contains_insensitive needle text = true
  | None => False
  end.

Global Instance column_contains_dec needle column :
  Decision (column_contains needle column).
Proof. destruct column; simpl; apply _. Defined.

(** The [where] clause, lines 15-52. *)
Definition whereClause (q : Query) (row : string * Product.t) : Prop :=
  Product.isDeleted row.2 = false ∧
  match truthy_string (category q) with
  | Some c => if String.eqb c "all" then True else Product.category row.2 = c
  | None => True
  end ∧
  match truthy_string (search q) with
  | Some needle =>
      contains_insensitive needle (Product.name row.2) = true ∨
      column_contains needle (Product.genericName row.2) ∨
      column_contains needle (Product.brandName row.2)
  | None => True
  end ∧
  match status q with
  | Some s => if String.eqb s "out_of_stock" then Product.quantity row.2 = 0
              else if String.eqb s "low_stock" then 0 < Product.quantity row.2
              else True
  | None => True
  end.

Global Instance whereClause_dec q row : Decision (whereClause q row).
Proof.
  unfold whereClause.
  destruct (truthy_string (category q)) as [c|]; [destruct (String.eqb c "all")|];
    destruct (truthy_string (search q));
    (destruct (status q) as [st|];
     [destruct (String.eqb st "out_of_stock"); [|destruct (String.eqb st "low_stock")]|]);
    apply _.
Defined.

(** [orderBy: [{ quantity: 'asc' }, { name: 'asc' }]] *)
Definition orderBy (a b : string * Product.t) : Prop :=
  Product.quantity a.2 < Product.quantity b.2 ∨
  (Product.quantity a.2 = Product.quantity b.2 ∧
   String.leb (Product.name a.2) (Product.name b.2) = true).

Global Instance orderBy_dec a b : Decision (orderBy a b).
Proof. unfold orderBy. apply _. Defined.

Record FormattedProduct := {
  id : string;
  product : Product.t;
  stockStatus : StockStatus;
  stockPercentage : Q;
  isExpiringSoon : bool;
}.

Definition reorderThreshold (p : Product.t) : Z := or_default (Product.reorderLevel p) 10.

(** The body of [products.map(product => ...)], lines 121-155. *)
Definition formatProduct (now : Z) (row : string * Product.t) : FormattedProduct :=
  let product := row.2 in
  let reorderThreshold := reorderThreshold product in
  let stockPercentage :=
    Qmin ((inject_Z (Product.quantity product) / inject_Z reorderThreshold) * 100) 100 in
  let stockStatus :=
    if Product.quantity product =? 0 then out_of_stock
    else if Product.quantity product <=? reorderThreshold then low_stock
    else healthy in
  {| id := row.1;
     product := product;
     stockStatus := stockStatus;
     stockPercentage := stockPercentage;
     isExpiringSoon :=
       match Product.expiryDate product with
       | Some d => d - now <? 30 * 24 * 60 * 60 * 1000
       | None => false
       end |}.

Record Summary := {
  totalDrugs : Z;
  inStock : Z;
  lowStock : Z;
  outOfStock : Z;
}.

(** [prisma.product.findMany({ where })] and [count({ where })] over the
    product table. *)
Definition findMany (P : string * Product.t → Prop) `{!∀ r, Decision (P r)}
    (products : gmap string Product.t) : list (string * Product.t) :=
  filter P (map_to_list products).

Definition count (P : string * Product.t → Prop) `{!∀ r, Decision (P r)}
    (products : gmap string Product.t) : Z :=
  Z.of_nat (length (findMany P products)).

(** The filter of lines 110-112:
    [p.reorderLevel ? p.quantity <= p.reorderLevel : p.quantity <= 10]. *)
Definition isLow (p : Product.t) : bool :=
  if truthy (Product.reorderLevel p)
  then Product.quantity p <=? default 0 (Product.reorderLevel p)
  else Product.quantity p <=? 10.

(** Lines 89-112 and 170-175. *)
Definition summary (products : gmap string Product.t) : Summary :=
  let stockSummary := count (λ r, Product.isDeleted r.2 = false) products in
  let outOfStockCount :=
    count (λ r, Product.quantity r.2 = 0 ∧ Product.isDeleted r.2 = false) products in
  let allProducts :=
    findMany (λ r, Product.isDeleted r.2 = false ∧ 0 < Product.quantity r.2) products in
  let lowStockCount :=
    Z.of_nat (length (filter (λ r : string * Product.t, isLow r.2 = true) allProducts)) in
  {| totalDrugs := stockSummary;
     inStock := stockSummary - outOfStockCount;
     lowStock := lowStockCount;
     outOfStock := outOfStockCount |}.

(** The response body, lines 162-177 (of [pagination], the total). *)
Record Body := {
  products : list FormattedProduct;
  total : Z;
  body_summary : Summary;
  categories : list string;
}.

Inductive Response :=
| Ok (body : Body)
| Error500 (error : string).

(** [GET], lines 4-186.  The query is refused when [skip] or [take] is not
    a number or [skip] is negative. *)
Definition GET (now : Z) (q : Query) (table : gmap string Product.t) : Response :=
  match offset q, limit q with
  | Num skip, Num take_ =>
      if skip <? 0 then Error500 "Failed to fetch stock levels"
      else
        let rows :=
          paginate skip take_ (merge_sort orderBy (findMany (whereClause q) table)) in
        let totalCount := count (whereClause q) table in
        let categoryRows :=
          remove_dups (Product.category <$>
                         (findMany (λ r, Product.isDeleted r.2 = false) table).*2) in
        let formattedProducts := formatProduct now <$> rows in
        let formattedProducts :=
          match status q with
          | Some s => if String.eqb s "low_stock"
                      then filter (λ p, stockStatus p = low_stock) formattedProducts
                      else formattedProducts
          | None => formattedProducts
          end in
        Ok {| products := formattedProducts;
              total := totalCount;
              body_summary := summary table;
              categories := filter (λ c, c ≠ "") categoryRows |}
  | _, _ => Error500 "Failed to fetch stock levels"
  end.

(** [PATCH]: the adjustment transaction, lines 193-229.  The body sets the
    quantity to the number it received; [reason] and [adjustedBy] are read
    from the body and not used. *)
Record Adjustment := {
  oldQuantity : Z;
  newQuantity : Z;
  difference : Z;
}.

Inductive PatchResponse :=
| Adjusted (data : Adjustment)
| PatchError500 (error : string).

Definition PATCH (now : Z) (productId : string) (qty : Z)
    (table : gmap string Product.t) : gmap string Product.t * PatchResponse :=
  match table !! productId with
  | None => (table, PatchError500 "Product not found")
  | Some product =>
      let oldQuantity := Product.quantity product in
      let newQuantity := qty in
      let difference := newQuantity - oldQuantity in
      (<[productId := Product.set_updatedAt now (Product.set_quantity newQuantity product)]> table,
       Adjusted {| oldQuantity := oldQuantity;
                   newQuantity := newQuantity;
                   difference := difference |})
  end.

End Stock.

(** ** The dispensing transaction
    ([src/app/api/pharmacist/prescriptions/[prescriptionId]/dispense/route.ts]) *)

Module Dispense.

(** [s.slice(-n)]: the last [n] characters, or all of [s] when shorter. *)
Definition slice_last (n : nat) (s : string) : string :=
  String.substring (String.length s - n) n s.

Definition generateDispensalNo (now : Clock) : string :=
  let year := getFullYear now in
  let timestamp := slice_last 6 (string_of_Z (getTime now)) in
  "DISP-" +:+ string_of_Z year +:+ "-" +:+ timestamp.

(** The request body, lines 18-25. *)
Record Body := {
  dispensedItems : list DispensedItem.t;
  totalAmount : Q;
  amountPaid : Q;
  paymentMethod : string;
  notes : string;
  dispensedBy : string;
}.

(** [tx.prescription.findUnique({ where: { id, isDeleted: false },
    include: { student, prescriptionItems: { include: { product } } } })] *)
Definition findUnique (prescriptionId : string)
    : Tx (option (Prescription.t * list ItemWithProduct.t)) :=
  λ db, match prescriptions db !! prescriptionId with
        | None => inr (None, db)
        | Some row =>
            if Prescription.isDeleted row then inr (None, db)
            else match mapM (include_product db) (itemsOf db prescriptionId) with
                 | None => inl inconsistentResult
                 | Some items => inr (Some (row, items), db)
                 end
        end.

Definition itemNotFound (dispensedItem : DispensedItem.t) : string :=
  "Prescription item not found: " +:+ DispensedItem.itemId dispensedItem.

Definition insufficientStock (prescriptionItem : ItemWithProduct.t)
    (dispensedItem : DispensedItem.t) : string :=
  "Insufficient stock for "
    +:+ Product.name (ItemWithProduct.product prescriptionItem)
    +:+ ". Available: "
    +:+ string_of_Z (Product.quantity (ItemWithProduct.product prescriptionItem))
    +:+ ", Required: "
    +:+ string_of_Z (DispensedItem.quantityDispensed dispensedItem).

(** The body of the loop of lines 51-65, for one request line. *)
Definition verifyLine (prescriptionItems : list ItemWithProduct.t)
    (dispensedItem : DispensedItem.t) : Tx unit :=
  match List.find (λ item, String.eqb (ItemWithProduct.id item)
                                      (DispensedItem.itemId dispensedItem))
                  prescriptionItems with
  | None => throw (itemNotFound dispensedItem)
  | Some prescriptionItem =>
      if Product.quantity (ItemWithProduct.product prescriptionItem)
           <? DispensedItem.quantityDispensed dispensedItem
      then throw (insufficientStock prescriptionItem dispensedItem)
      else mret ()
  end.

Definition markItem (now : Clock) (dispensedBy : string)
    (dispensedItem : DispensedItem.t) (row : PrescriptionItem.t)
    : PrescriptionItem.t :=
  {| PrescriptionItem.prescriptionId := PrescriptionItem.prescriptionId row;
     PrescriptionItem.productId := PrescriptionItem.productId row;
     PrescriptionItem.quantityPrescribed := PrescriptionItem.quantityPrescribed row;
     PrescriptionItem.quantityDispensed := DispensedItem.quantityDispensed dispensedItem;
     PrescriptionItem.unitPrice := PrescriptionItem.unitPrice row;
     PrescriptionItem.totalPrice := PrescriptionItem.totalPrice row;
     PrescriptionItem.isDispensed := true;
     PrescriptionItem.dispensedAt := Some (getTime now);
     PrescriptionItem.dispensedBy := Some dispensedBy |}.

Definition decrement (n : Z) (row : Product.t) : Product.t :=
  Product.set_quantity (Product.quantity row - n) row.

(** The body of the loop of lines 82-102, for one request line. *)
Definition applyLine (now : Clock) (dispensedBy : string)
    (dispensedItem : DispensedItem.t) : Tx unit :=
  prescriptionItem_update (DispensedItem.itemId dispensedItem)
    (markItem now dispensedBy dispensedItem) ;;
  product_update (DispensedItem.productId dispensedItem)
    (decrement (DispensedItem.quantityDispensed dispensedItem)).

(** The [data] of lines 108-114; a field given as [undefined] is left as
    it is. *)
Definition markPrescription (now : Clock) (body : Body) (allItemsDispensed : bool)
    (row : Prescription.t) : Prescription.t :=
  {| Prescription.prescriptionNo := Prescription.prescriptionNo row;
     Prescription.studentId := Prescription.studentId row;
     Prescription.student := Prescription.student row;
     Prescription.physician := Prescription.physician row;
     Prescription.diagnosis := Prescription.diagnosis row;
     Prescription.priority := Prescription.priority row;
     Prescription.status :=
       if allItemsDispensed then dispensed else partially_dispensed;
     Prescription.totalCost := Prescription.totalCost row;
     Prescription.createdAt := Prescription.createdAt row;
     Prescription.isDispensed := allItemsDispensed;
     Prescription.dispensedAt :=
       if allItemsDispensed then Some (getTime now)
       else Prescription.dispensedAt row;
     Prescription.dispensedBy :=
       if allItemsDispensed then Some (dispensedBy body)
       else Prescription.dispensedBy row;
     Prescription.amountPaid := Some (amountPaid body);
     Prescription.isDeleted := Prescription.isDeleted row |}.

(** [x > 0] on a number. *)
Definition positive (x : Q) : bool :=
  match (0 ?= x)%Q with
  | Lt => true
  | _ => false
  end.

(** What the callback returns, lines 132-138:
    [{ dispensal, prescription: { ...prescription, status } }]. *)
Record Result := {
  dispensal : DrugDispensal.t;
  prescription : Prescription.t;
  status : Status;
}.

(** The callback of [prisma.$transaction], lines 28-139. *)
Definition callback (now : Clock) (prescriptionId : string) (body : Body)
    : Tx Result :=
  (* 1. Verify prescription exists and is pending *)
  found ← findUnique prescriptionId;
  match found with
  | None => throw "Prescription not found"
  | Some (prescription, prescriptionItems) =>
      if negb (bool_decide (Prescription.status prescription = pending))
      then throw "Prescription is not in pending status"
      else
        (* 2. Verify stock availability for all items *)
        forEach (dispensedItems body) (verifyLine prescriptionItems) ;;
        (* 3. Create drug dispensal record *)
        dispensal ← drugDispensal_create
          {| DrugDispensal.dispensalNo := generateDispensalNo now;
             DrugDispensal.prescriptionId := prescriptionId;
             DrugDispensal.prescriptionNo := Prescription.prescriptionNo prescription;
             DrugDispensal.studentId := Prescription.studentId prescription;
             DrugDispensal.dispensedBy := dispensedBy body;
             DrugDispensal.dispensedItems := dispensedItems body;
             DrugDispensal.totalAmount := totalAmount body;
             DrugDispensal.notes := notes body |};
        (* 4. Update prescription items, 5. Deduct from product inventory *)
        forEach (dispensedItems body) (applyLine now (dispensedBy body)) ;;
        (* 6. Update prescription status *)
        let allItemsDispensed :=
          Nat.eqb (length (dispensedItems body)) (length prescriptionItems) in
        prescription_update prescriptionId
          (markPrescription now body allItemsDispensed) ;;
        (* 7. Record payment transaction *)
        (if positive (amountPaid body)
         then balanceTransaction_create
                {| BalanceTransaction.studentId := Prescription.studentId prescription;
                   BalanceTransaction.amount := amountPaid body;
                   BalanceTransaction.type := "DEBIT";
                   BalanceTransaction.description :=
                     "Payment for prescription "
                       +:+ Prescription.prescriptionNo prescription;
                   BalanceTransaction.paymentMethod := paymentMethod body;
                   BalanceTransaction.prescriptionId := prescriptionId;
                   BalanceTransaction.balanceAfter := 0%Q |}
         else mret ()) ;;
        mret {| dispensal := dispensal;
                prescription := prescription;
                status := if allItemsDispensed then dispensed
                          else partially_dispensed |}
  end.

(** The [data] object of the success response, lines 144-151. *)
Record Data := {
  data_dispensalNo : string;
  data_prescriptionNo : string;
  studentName : string;
  data_totalAmount : Q;
  data_amountPaid : Q;
  change : Q;
}.

Inductive Response :=
| Ok (message : string) (data : Data)
| Error500 (error : string).

Definition POST (now : Clock) (prescriptionId : string) (body : Body) (db : DB)
    : DB * Response :=
  match transaction (callback now prescriptionId body) db with
  | (db', inr result) =>
      (db',
       Ok "Prescription dispensed successfully"
          {| data_dispensalNo := DrugDispensal.dispensalNo (dispensal result);
             data_prescriptionNo := Prescription.prescriptionNo (prescription result);
             studentName :=
               Student.firstName (Prescription.student (prescription result))
                 +:+ " "
                 +:+ Student.lastName (Prescription.student (prescription result));
             data_totalAmount := totalAmount body;
             data_amountPaid := amountPaid body;
             change := (amountPaid body - totalAmount body)%Q |})
  | (db', inl error) => (db', Error500 error)
  end.

End Dispense.

(** The prescription table of a database. *)
Definition prescription_rows (db : DB) : gmap string Prescription.t := prescriptions db.

(** ** The pending-prescription list
    ([src/app/api/pharmacist/dashboard/route.ts], lines 239-410) *)

Module Pending.

(** The query string after lines 241-246: [page] and [limit] are the values
    of [parseInt(searchParams.get(...) || default)]. *)
Record Query := {
  priority : option string;
  search : option string;
  page : parsed;
  limit : parsed;
}.

(** [offset = (page - 1) * limit] *)
Definition offset (q : Query) : parsed :=
  match page q, limit q with
  | Num p, Num l => Num ((p - 1) * l)
  | _, _ => NaN
  end.

(** The [where] clause, lines 249-291. *)
Definition whereClause (q : Query) (row : string * Prescription.t) : Prop :=
  Prescription.status row.2 = pending ∧
  Prescription.isDeleted row.2 = false ∧
  match truthy_string (priority q) with
  | Some p => if String.eqb p "all" then True
              else priority_name (Prescription.priority row.2) = p
  | None => True
  end ∧
  match truthy_string (search q) with
  | Some needle =>
      contains_insensitive needle (Prescription.prescriptionNo row.2) = true ∨
      contains_insensitive needle
        (Student.firstName (Prescription.student row.2)) = true ∨
      contains_insensitive needle
        (Student.lastName (Prescription.student row.2)) = true ∨
      contains_insensitive needle
        (Student.matricNumber (Prescription.student row.2)) = true
  | None => True
  end.

Global Instance whereClause_dec q row : Decision (whereClause q row).
Proof.
  unfold whereClause.
  destruct (truthy_string (priority q)) as [p|];
    [destruct (String.eqb p "all")|];
    destruct (truthy_string (search q)); apply _.
Defined.

(** [orderBy: [{ priority: 'asc' }, { createdAt: 'asc' }]] *)
Definition orderBy (a b : string * Prescription.t) : Prop :=
  priority_rank (Prescription.priority a.2) < priority_rank (Prescription.priority b.2) ∨
  (priority_rank (Prescription.priority a.2) = priority_rank (Prescription.priority b.2) ∧
   Prescription.createdAt a.2 ≤ Prescription.createdAt b.2).

Global Instance orderBy_dec a b : Decision (orderBy a b).
Proof. unfold orderBy. apply _. Defined.

(** [prisma.prescription.findMany({ where, orderBy, skip, take })]; the
    query is refused when [skip] or [take] is not a number or [skip] is
    negative. *)
Definition findMany (q : Query) (db : DB) : option (list (string * Prescription.t)) :=
  match offset q, limit q with
  | Num skip, Num take_ =>
      if skip <? 0 then None
      else Some (paginate skip take_
                   (merge_sort orderBy
                      (filter (whereClause q) (map_to_list (prescriptions db)))))
  | _, _ => None
  end.

Record Item := {
  item_id : string;
  drugName : string;
  quantity : Z;
  available : Z;
  hasStock : bool;
  unitPrice : Q;
  totalPrice : Q;
}.

Record Formatted := {
  id : string;
  prescriptionNo : string;
  student_name : string;
  student_matricNumber : string;
  student_phone : string;
  physician_name : string;
  physician_specialization : string;
  diagnosis : string;
  formatted_priority : Priority;
  itemCount : nat;
  totalCost : Q;
  createdAt : Z;
  items : list Item;
  hasStockIssues : bool;
}.

(** Lines 369-377. *)
Definition formatItem (item : ItemWithProduct.t) : Item :=
  {| item_id := ItemWithProduct.id item;
     drugName := Product.name (ItemWithProduct.product item);
     quantity := PrescriptionItem.quantityPrescribed (ItemWithProduct.item item);
     available := Product.quantity (ItemWithProduct.product item);
     hasStock :=
       Product.quantity (ItemWithProduct.product item)
         >=? PrescriptionItem.quantityPrescribed (ItemWithProduct.item item);
     unitPrice := PrescriptionItem.unitPrice (ItemWithProduct.item item);
     totalPrice := PrescriptionItem.totalPrice (ItemWithProduct.item item) |}.

(** Lines 350-381, on a row with its included items. *)
Definition format (row : string * Prescription.t)
    (prescriptionItems : list ItemWithProduct.t) : Formatted :=
  let prescription := row.2 in
  {| id := row.1;
     prescriptionNo := Prescription.prescriptionNo prescription;
     student_name :=
       Student.firstName (Prescription.student prescription) +:+ " "
         +:+ Student.lastName (Prescription.student prescription);
     student_matricNumber := Student.matricNumber (Prescription.student prescription);
     student_phone := Student.phone (Prescription.student prescription);
     physician_name :=
       "Dr. " +:+ Physician.firstName (Prescription.physician prescription) +:+ " "
         +:+ Physician.lastName (Prescription.physician prescription);
     physician_specialization :=
       Physician.specialization (Prescription.physician prescription);
     diagnosis := Prescription.diagnosis prescription;
     formatted_priority := Prescription.priority prescription;
     itemCount := length prescriptionItems;
     totalCost := Prescription.totalCost prescription;
     createdAt := Prescription.createdAt prescription;
     items := formatItem <$> prescriptionItems;
     hasStockIssues :=
       existsb (λ item,
                  Product.quantity (ItemWithProduct.product item)
                    <? PrescriptionItem.quantityPrescribed (ItemWithProduct.item item))
               prescriptionItems |}.

(** A row with [include: { prescriptionItems: { include: { product } } }]. *)
Definition includeItems (db : DB) (row : string * Prescription.t) : option Formatted :=
  format row <$> mapM (include_product db) (itemsOf db row.1).

Record PriorityCounts := {
  all : Z;
  count_emergency : Z;
  count_urgent : Z;
  count_normal : Z;
}.

(** [groupBy({ by: ['priority'], where: { status: 'pending', isDeleted:
    false }, _count })] read at one priority, 0 when the group is absent. *)
Definition countOf (p : Priority) (db : DB) : Z :=
  Z.of_nat (length (filter (λ row : string * Prescription.t,
                              Prescription.status row.2 = pending ∧
                              Prescription.isDeleted row.2 = false ∧
                              Prescription.priority row.2 = p)
                           (map_to_list (prescriptions db)))).

Record Body := {
  prescriptions : list Formatted;
  total : Z;
  priorityCounts : PriorityCounts;
}.

Inductive Response :=
| Ok (body : Body)
| Error500 (error : string).

Definition GET (q : Query) (db : DB) : Response :=
  match findMany q db with
  | None => Error500 "Failed to fetch pending prescriptions"
  | Some rows =>
      match mapM (includeItems db) rows with
      | None => Error500 "Failed to fetch pending prescriptions"
      | Some formattedPrescriptions =>
          let totalCount :=
            Z.of_nat (length (filter (whereClause q)
                                     (map_to_list (prescription_rows db)))) in
          Ok {| prescriptions := formattedPrescriptions;
                total := totalCount;
                priorityCounts :=
                  {| all := totalCount;
                     count_emergency := countOf emergency db;
                     count_urgent := countOf urgent db;
                     count_normal := countOf normal db |} |}
      end
  end.

End Pending.

(** ** The drug catalogue ([src/app/api/drugs/route.ts])

    The free-text columns that the routes copy from the body to the row
    without reading them (manufacturer, description, activeIngredient,
    strength, dosageForm, storageConditions) are left out.  A body is taken
    after the coercions of lines 71-75: its numeric fields are the numbers
    [parseInt], [parseFloat] and [new Date] return. *)

Module Drug.
Record t := {
  code : string;
  name : string;
  category : string;
  quantity : Z;
  reorderLevel : Z;
  price : Q;
  cost : Q;
  expiryDate : Z;
  batchNumber : string;
  unit : string;
  prescriptionRequired : bool;
  createdBy : string;
  sync : bool;
  syncedAt : option Z;
  createdAt : Z;
  updatedAt : Z;
  isDeleted : bool;
}.
End Drug.

Module Drugs.

Record Body := {
  code : string;
  name : string;
  category : string;
  quantity : Z;
  reorderLevel : Z;
  price : Q;
  cost : Q;
  expiryDate : Z;
  batchNumber : string;
  unit : option string;
  prescriptionRequired : option bool;
  createdBy : string;
}.

Inductive Response :=
| Ok200 (drug : string * Drug.t)
| Created201 (drug : string * Drug.t)
| NotFound404 (message : string)
| Conflict409 (message : string).

(** [orderBy: { createdAt: 'desc' }] *)
Definition newestFirst (a b : string * Drug.t) : Prop :=
  Drug.createdAt b.2 ≤ Drug.createdAt a.2.

Global Instance newestFirst_dec a b : Decision (newestFirst a b).
Proof. unfold newestFirst. apply _. Defined.

(** [GET]: the non-deleted drugs, newest first. *)
Definition GET (drugs : gmap string Drug.t) : list (string * Drug.t) :=
  merge_sort newestFirst
    (filter (λ row : string * Drug.t, Drug.isDeleted row.2 = false)
            (map_to_list drugs)).

(** [prisma.drug.findFirst({ where: { code, isDeleted: false } })] *)
Definition findFirst (code : string) (drugs : gmap string Drug.t)
    : option (string * Drug.t) :=
  head (filter (λ row : string * Drug.t,
                  Drug.code row.2 = code ∧ Drug.isDeleted row.2 = false)
               (map_to_list drugs)).

(** [POST], lines 24-93.  The database gives the new row an identifier that
    no row has, and [createdAt] and [updatedAt] the time of creation. *)
Definition POST (now : Z) (data : Body) (drugs : gmap string Drug.t)
    : gmap string Drug.t * Response :=
  match findFirst (code data) drugs with
  | Some existingDrug => (drugs, Conflict409 "Drug code already exists")
  | None =>
      let id := fresh (dom drugs) in
      let drug :=
        {| Drug.code := code data;
           Drug.name := name data;
           Drug.category := category data;
           Drug.quantity := quantity data;
           Drug.reorderLevel := reorderLevel data;
           Drug.price := price data;
           Drug.cost := cost data;
           Drug.expiryDate := expiryDate data;
           Drug.batchNumber := batchNumber data;
           Drug.unit := default "Pieces" (truthy_string (unit data));
           Drug.prescriptionRequired := default false (prescriptionRequired data);
           Drug.createdBy := createdBy data;
           Drug.sync := false;
           Drug.syncedAt := None;
           Drug.createdAt := now;
           Drug.updatedAt := now;
           Drug.isDeleted := false |} in
      (<[id := drug]> drugs, Created201 (id, drug))
  end.

(** [PUT], lines 95-177; [unit] and [prescriptionRequired] left out of the
    body leave the column as it is. *)
Definition PUT (now : Z) (drugId : string) (data : Body) (drugs : gmap string Drug.t)
    : gmap string Drug.t * Response :=
  match drugs !! drugId with
  | None => (drugs, NotFound404 "Drug does not exist")
  | Some existingDrug =>
      if Drug.isDeleted existingDrug
      then (drugs, NotFound404 "Drug does not exist")
      else
        let codeConflict :=
          if String.eqb (code data) (Drug.code existingDrug) then None
          else head (filter (λ row : string * Drug.t,
                               Drug.code row.2 = code data ∧
                               Drug.isDeleted row.2 = false ∧
                               row.1 ≠ drugId)
                            (map_to_list drugs)) in
        match codeConflict with
        | Some _ => (drugs, Conflict409 "Drug code already exists")
        | None =>
            let updatedDrug :=
              {| Drug.code := code data;
                 Drug.name := name data;
                 Drug.category := category data;
                 Drug.quantity := quantity data;
                 Drug.reorderLevel := reorderLevel data;
                 Drug.price := price data;
                 Drug.cost := cost data;
                 Drug.expiryDate := expiryDate data;
                 Drug.batchNumber := batchNumber data;
                 Drug.unit := default (Drug.unit existingDrug) (unit data);
                 Drug.prescriptionRequired :=
                   default (Drug.prescriptionRequired existingDrug)
                           (prescriptionRequired data);
                 Drug.createdBy := Drug.createdBy existingDrug;
                 Drug.sync := false;
                 Drug.syncedAt := None;
                 Drug.createdAt := Drug.createdAt existingDrug;
                 Drug.updatedAt := now;
                 Drug.isDeleted := Drug.isDeleted existingDrug |} in
            (<[drugId := updatedDrug]> drugs, Ok200 (drugId, updatedDrug))
        end
  end.

(** [DELETE], lines 179-208: a soft delete. *)
Definition DELETE (now : Z) (drugId : string) (drugs : gmap string Drug.t)
    : gmap string Drug.t * Response :=
  match drugs !! drugId with
  | None => (drugs, NotFound404 "Drug does not exist")
  | Some drug =>
      let deletedDrug :=
        {| Drug.code := Drug.code drug;
           Drug.name := Drug.name drug;
           Drug.category := Drug.category drug;
           Drug.quantity := Drug.quantity drug;
           Drug.reorderLevel := Drug.reorderLevel drug;
           Drug.price := Drug.price drug;
           Drug.cost := Drug.cost drug;
           Drug.expiryDate := Drug.expiryDate drug;
           Drug.batchNumber := Drug.batchNumber drug;
           Drug.unit := Drug.unit drug;
           Drug.prescriptionRequired := Drug.prescriptionRequired drug;
           Drug.createdBy := Drug.createdBy drug;
           Drug.sync := false;
           Drug.syncedAt := None;
           Drug.createdAt := Drug.createdAt drug;
           Drug.updatedAt := now;
           Drug.isDeleted := true |} in
      (<[drugId := deletedDrug]> drugs, Ok200 (drugId, deletedDrug))
  end.

(** A request to the drugs routes, and a run of requests. *)
Inductive Request :=
| Create (now : Z) (data : Body)
| Update (now : Z) (drugId : string) (data : Body)
| Delete (now : Z) (drugId : string).

Definition handle (r : Request) (drugs : gmap string Drug.t)
    : gmap string Drug.t * Response :=
  match r with
  | Create now data => POST now data drugs
  | Update now drugId data => PUT now drugId data drugs
  | Delete now drugId => DELETE now drugId drugs
  end.

Definition run (rs : list Request) (drugs : gmap string Drug.t) : gmap string Drug.t :=
  fold_left (λ drugs r, (handle r drugs).1) rs drugs.

End Drugs.

(** ** The prescription detail route

    [GET /api/pharmacist/prescriptions/:prescriptionId], which the
    dispensing page reads before it sends a dispensing request. *)

Module Detail.

Record Item := {
  item_id : string;
  drugName : string;
  quantityPrescribed : Z;
  quantityDispensed : Z;
  unitPrice : Q;
  totalPrice : Q;
  isDispensed : bool;
  product_id : string;
  availableStock : Z;
  hasStock : bool;
}.

Record Formatted := {
  id : string;
  prescriptionNo : string;
  student_name : string;
  physician_name : string;
  diagnosis : string;
  priority : Priority;
  status : Status;
  totalCost : Q;
  createdAt : Z;
  items : list Item;
}.

(** Lines 102-126; [item.product.id] is the [productId] the relation
    resolves. *)
Definition formatItem (item : ItemWithProduct.t) : Item :=
  {| item_id := ItemWithProduct.id item;
     drugName := Product.name (ItemWithProduct.product item);
     quantityPrescribed := PrescriptionItem.quantityPrescribed (ItemWithProduct.item item);
     quantityDispensed := PrescriptionItem.quantityDispensed (ItemWithProduct.item item);
     unitPrice := PrescriptionItem.unitPrice (ItemWithProduct.item item);
     totalPrice := PrescriptionItem.totalPrice (ItemWithProduct.item item);
     isDispensed := PrescriptionItem.isDispensed (ItemWithProduct.item item);
     product_id := PrescriptionItem.productId (ItemWithProduct.item item);
     availableStock := Product.quantity (ItemWithProduct.product item);
     hasStock :=
       Product.quantity (ItemWithProduct.product item)
         >=? PrescriptionItem.quantityPrescribed (ItemWithProduct.item item) |}.

(** Lines 74-127. *)
Definition format (prescriptionId : string) (prescription : Prescription.t)
    (prescriptionItems : list ItemWithProduct.t) : Formatted :=
  {| id := prescriptionId;
     prescriptionNo := Prescription.prescriptionNo prescription;
     student_name :=
       Student.firstName (Prescription.student prescription) +:+ " "
         +:+ Student.lastName (Prescription.student prescription);
     physician_name :=
       "Dr. " +:+ Physician.firstName (Prescription.physician prescription) +:+ " "
         +:+ Physician.lastName (Prescription.physician prescription);
     diagnosis := Prescription.diagnosis prescription;
     priority := Prescription.priority prescription;
     status := Prescription.status prescription;
     totalCost := Prescription.totalCost prescription;
     createdAt := Prescription.createdAt prescription;
     items := formatItem <$> prescriptionItems |}.

Inductive Response :=
| Ok (prescription : Formatted)
| NotFound404 (error : string)
| Error500 (error : string).

(** [GET], lines 4-137.  The query is the one the dispensing transaction
    starts with: [findUnique({ where: { id, isDeleted: false }, include })]. *)
Definition GET (prescriptionId : string) (db : DB) : Response :=
  match Dispense.findUnique prescriptionId db with
  | inl _ => Error500 "Failed to fetch prescription details"
  | inr (None, _) => NotFound404 "Prescription not found"
  | inr (Some (prescription, prescriptionItems), _) =>
      Ok (format prescriptionId prescription prescriptionItems)
  end.

End Detail.

(** ** The dispensing page

    The state of the page component and its handlers.  The flag that
    disables the button while a request is under way, and the alerts and
    the redirect after the answer, are left out. *)

(** A JavaScript object used as a map, as the list of its entries in the
    order [Object.values] gives them: the order of insertion, for keys that
    are not array indices. *)
Definition obj_get {A} (k : string) (o : list (string * A)) : option A :=
  snd <$> List.find (λ e : string * A, String.eqb e.1 k) o.

(** [{ ...o, [k]: v }]: an existing key keeps its place. *)
Fixpoint obj_set {A} (k : string) (v : A) (o : list (string * A)) : list (string * A) :=
  match o with
  | [] => [(k, v)]
  | e :: o' => if String.eqb e.1 k then (k, v) :: o' else e :: obj_set k v o'
  end.

(** [delete o[k]] *)
Definition obj_delete {A} (k : string) (o : list (string * A)) : list (string * A) :=
  List.filter (λ e : string * A, negb (String.eqb e.1 k)) o.

Module DispensePage.

(** An entry of [dispensedItems]; a field the object does not have reads
    [undefined], here [None].  The batch number, which the route does not
    read, is left out. *)
Record DispenseItem := {
  itemId : option string;
  productId : option string;
  quantityDispensed : Z;
}.

(** The text of the amount field by what [parseFloat] reads in it: the
    empty text, or a text with its reading, [None] for NaN. *)
Inductive Amount :=
| Blank
| Text (reading : option Q).

(** [parseFloat(amountPaid)] *)
Definition parseFloat (a : Amount) : option Q :=
  match a with
  | Blank => None
  | Text reading => reading
  end.

(** [parseFloat(amountPaid || '0')] *)
Definition parseFloat_or_zero (a : Amount) : option Q :=
  match a with
  | Blank => Some 0%Q
  | Text reading => reading
  end.

Record Checklist := {
  identityVerified : bool;
  itemsChecked : bool;
  dosageExplained : bool;
  studentUnderstands : bool;
}.

Record State := {
  prescription : option Detail.Formatted;
  loading : bool;
  studentVerified : bool;
  dispensedItems : list (string * DispenseItem);
  paymentMethod : string;
  amountPaid : Amount;
  notes : string;
  checklist : Checklist;
}.

(** The state of the first render, lines 104-117. *)
Definition initial : State :=
  {| prescription := None;
     loading := true;
     studentVerified := false;
     dispensedItems := [];
     paymentMethod := "cash";
     amountPaid := Blank;
     notes := "";
     checklist := {| identityVerified := false; itemsChecked := false;
                     dosageExplained := false; studentUnderstands := false |} |}.

Definition setLoading (b : bool) (s : State) : State :=
  {| prescription := prescription s; loading := b;
     studentVerified := studentVerified s; dispensedItems := dispensedItems s;
     paymentMethod := paymentMethod s; amountPaid := amountPaid s;
     notes := notes s; checklist := checklist s |}.

Definition setStudentVerified (b : bool) (s : State) : State :=
  {| prescription := prescription s; loading := loading s;
     studentVerified := b; dispensedItems := dispensedItems s;
     paymentMethod := paymentMethod s; amountPaid := amountPaid s;
     notes := notes s; checklist := checklist s |}.

Definition setDispensedItems (o : list (string * DispenseItem)) (s : State) : State :=
  {| prescription := prescription s; loading := loading s;
     studentVerified := studentVerified s; dispensedItems := o;
     paymentMethod := paymentMethod s; amountPaid := amountPaid s;
     notes := notes s; checklist := checklist s |}.

Definition setPaymentMethod (m : string) (s : State) : State :=
  {| prescription := prescription s; loading := loading s;
     studentVerified := studentVerified s; dispensedItems := dispensedItems s;
     paymentMethod := m; amountPaid := amountPaid s;
     notes := notes s; checklist := checklist s |}.

Definition setAmountPaid (a : Amount) (s : State) : State :=
  {| prescription := prescription s; loading := loading s;
     studentVerified := studentVerified s; dispensedItems := dispensedItems s;
     paymentMethod := paymentMethod s; amountPaid := a;
     notes := notes s; checklist := checklist s |}.

Definition setNotes (n : string) (s : State) : State :=
  {| prescription := prescription s; loading := loading s;
     studentVerified := studentVerified s; dispensedItems := dispensedItems s;
     paymentMethod := paymentMethod s; amountPaid := amountPaid s;
     notes := n; checklist := checklist s |}.

Definition setChecklist (c : Checklist) (s : State) : State :=
  {| prescription := prescription s; loading := loading s;
     studentVerified := studentVerified s; dispensedItems := dispensedItems s;
     paymentMethod := paymentMethod s; amountPaid := amountPaid s;
     notes := notes s; checklist := c |}.

(** The entry of an item at its prescribed quantity, lines 133-138 and
    173-177. *)
Definition entryOf (item : Detail.Item) : DispenseItem :=
  {| itemId := Some (Detail.item_id item);
     productId := Some (Detail.product_id item);
     quantityDispensed := Detail.quantityPrescribed item |}.

(** [fetchPrescriptionDetails], lines 123-148, on the answer of the detail
    route: an answer that is not ok only ends the loading. *)
Definition fetchPrescriptionDetails (response : Detail.Response) (s : State) : State :=
  match response with
  | Detail.Ok data =>
      let initialDispensedItems :=
        fold_left (λ acc item, obj_set (Detail.item_id item) (entryOf item) acc)
                  (Detail.items data) [] in
      {| prescription := Some data;
         loading := false;
         studentVerified := studentVerified s;
         dispensedItems := initialDispensedItems;
         paymentMethod := paymentMethod s;
         amountPaid := Text (Some (Detail.totalCost data));
         notes := notes s;
         checklist := checklist s |}
  | _ => setLoading false s
  end.

(** [handleQuantityChange], lines 150-158. *)
Definition handleQuantityChange (itemId_ : string) (quantity : Z) (s : State) : State :=
  let prev := dispensedItems s in
  let entry :=
    match obj_get itemId_ prev with
    | Some e => {| itemId := itemId e; productId := productId e;
                   quantityDispensed := quantity |}
    | None => {| itemId := None; productId := None; quantityDispensed := quantity |}
    end in
  setDispensedItems (obj_set itemId_ entry prev) s.

(** [prescription.items.find(i => i.id === itemId)] *)
Definition findItem (itemId_ : string) (p : Detail.Formatted) : option Detail.Item :=
  List.find (λ i, String.eqb (Detail.item_id i) itemId_) (Detail.items p).

(** [handleItemDispensed], lines 160-181. *)
Definition handleItemDispensed (itemId_ : string) (dispensed_ : bool) (s : State) : State :=
  if negb dispensed_
  then setDispensedItems (obj_delete itemId_ (dispensedItems s)) s
  else match prescription s with
       | Some p =>
           match findItem itemId_ p with
           | Some item =>
               setDispensedItems (obj_set itemId_ (entryOf item) (dispensedItems s)) s
           | None => s
           end
       | None => s
       end.

Record Totals := {
  subtotal : Q;
  total : Q;
  change : option Q;
}.

(** The price of one entry, line 187-188. *)
Definition lineAmount (p : Detail.Formatted) (dispensedItem : DispenseItem) : Q :=
  match itemId dispensedItem with
  | Some i =>
      match findItem i p with
      | Some item => (Detail.unitPrice item * inject_Z (quantityDispensed dispensedItem))%Q
      | None => 0%Q
      end
  | None => 0%Q
  end.

(** [calculateTotals], lines 183-195; [Math.max] of NaN is NaN. *)
Definition calculateTotals (s : State) : Totals :=
  match prescription s with
  | None => {| subtotal := 0%Q; total := 0%Q; change := Some 0%Q |}
  | Some p =>
      let subtotal :=
        fold_left (λ sum dispensedItem, (sum + lineAmount p dispensedItem)%Q)
                  (dispensedItems s).*2 0%Q in
      let total := subtotal in
      {| subtotal := subtotal;
         total := total;
         change := (λ paid, Qmax 0 (paid - total)) <$> parseFloat_or_zero (amountPaid s) |}
  end.

(** [canDispense], lines 197-203; a comparison with NaN is false. *)
Definition canDispense (s : State) : bool :=
  let hasDispensedItems := (0 <? length (dispensedItems s))%nat in
  let allChecklistComplete :=
    identityVerified (checklist s) && itemsChecked (checklist s)
    && dosageExplained (checklist s) && studentUnderstands (checklist s) in
  let hasPayment :=
    match parseFloat_or_zero (amountPaid s) with
    | Some paid => Qle_bool (total (calculateTotals s)) paid
    | None => false
    end in
  hasDispensedItems && allChecklistComplete && hasPayment && studentVerified s.

(** The body of the request of lines 215-222, before [JSON.stringify]. *)
Record Request := {
  request_dispensedItems : list DispenseItem;
  request_totalAmount : Q;
  request_amountPaid : option Q;
  request_paymentMethod : string;
  request_notes : string;
  request_dispensedBy : string;
}.

(** [handleDispense], lines 205-223: the request sent, if any; [session]
    is the identifier of the user of the session, if there is one. *)
Definition handleDispense (session : option string) (s : State) : option Request :=
  if negb (canDispense s) then None
  else match prescription s, session with
       | Some _, Some user =>
           Some {| request_dispensedItems := (dispensedItems s).*2;
                   request_totalAmount := total (calculateTotals s);
                   request_amountPaid := parseFloat (amountPaid s);
                   request_paymentMethod := paymentMethod s;
                   request_notes := notes s;
                   request_dispensedBy := user |}
       | _, _ => None
       end.

(** The four boxes of the checklist, lines 570-608. *)
Inductive Box := identity_box | items_box | dosage_box | understands_box.

(** [setChecklist(prev => ({ ...prev, [box]: checked }))] *)
Definition tick (box : Box) (checked : bool) (prev : Checklist) : Checklist :=
  match box with
  | identity_box =>
      {| identityVerified := checked; itemsChecked := itemsChecked prev;
         dosageExplained := dosageExplained prev;
         studentUnderstands := studentUnderstands prev |}
  | items_box =>
      {| identityVerified := identityVerified prev; itemsChecked := checked;
         dosageExplained := dosageExplained prev;
         studentUnderstands := studentUnderstands prev |}
  | dosage_box =>
      {| identityVerified := identityVerified prev; itemsChecked := itemsChecked prev;
         dosageExplained := checked;
         studentUnderstands := studentUnderstands prev |}
  | understands_box =>
      {| identityVerified := identityVerified prev; itemsChecked := itemsChecked prev;
         dosageExplained := dosageExplained prev;
         studentUnderstands := checked |}
  end.

(** What happens on the page: the answer of the detail route arrives, or
    one of the controls is used.  [QuantityTyped] carries
    [parseInt(e.target.value) || 0]. *)
Inductive Event :=
| Fetched (response : Detail.Response)
| ItemChecked (itemId_ : string) (checked : bool)
| QuantityTyped (itemId_ : string) (quantity : Z)
| StudentConfirmed
| PaymentChosen (method : string)
| AmountTyped (text : Amount)
| NotesTyped (text : string)
| Ticked (box : Box) (checked : bool).

Definition handle (e : Event) (s : State) : State :=
  match e with
  | Fetched response => fetchPrescriptionDetails response s
  | ItemChecked itemId_ checked => handleItemDispensed itemId_ checked s
  | QuantityTyped itemId_ quantity => handleQuantityChange itemId_ quantity s
  | StudentConfirmed => setStudentVerified true s
  | PaymentChosen method => setPaymentMethod method s
  | AmountTyped text => setAmountPaid text s
  | NotesTyped text => setNotes text s
  | Ticked box checked => setChecklist (tick box checked (checklist s)) s
  end.

End DispensePage.

(** ** The pharmacist dashboard

    [GET /api/pharmacist/dashboard], lines 4-234 of the dashboard route. *)

Module Dashboard.

(** [today = new Date()] and the local midnights before and after it,
    lines 6-8.  The time zone is not in the sources: the two midnights come
    with the reading of the clock. *)
Record Today := {
  today : Z;
  startOfDay : Z;
  endOfDay : Z;
}.

(** [{ status: 'pending', isDeleted: false }] *)
Definition pendingWhere (row : string * Prescription.t) : Prop :=
  Prescription.status row.2 = pending ∧ Prescription.isDeleted row.2 = false.

Global Instance pendingWhere_dec row : Decision (pendingWhere row).
Proof. unfold pendingWhere. apply _. Defined.

(** [{ status: 'dispensed', dispensedAt: { gte: startOfDay, lt: endOfDay },
    isDeleted: false }] *)
Definition dispensedTodayWhere (t : Today) (row : string * Prescription.t) : Prop :=
  Prescription.status row.2 = dispensed ∧
  match Prescription.dispensedAt row.2 with
  | Some at_ => startOfDay t ≤ at_ ∧ at_ < endOfDay t
  | None => False
  end ∧
  Prescription.isDeleted row.2 = false.

Global Instance dispensedTodayWhere_dec t row : Decision (dispensedTodayWhere t row).
Proof.
  unfold dispensedTodayWhere. destruct (Prescription.dispensedAt row.2); apply _.
Defined.

(** [{ status: 'pending', priority: { in: ['emergency', 'urgent'] },
    isDeleted: false }] *)
Definition priorityWhere (row : string * Prescription.t) : Prop :=
  Prescription.status row.2 = pending ∧
  (Prescription.priority row.2 = emergency ∨ Prescription.priority row.2 = urgent) ∧
  Prescription.isDeleted row.2 = false.

Global Instance priorityWhere_dec row : Decision (priorityWhere row).
Proof. unfold priorityWhere. apply _. Defined.

(** [{ quantity: { gt: 0 }, isDeleted: false }] *)
Definition inStockWhere (row : string * Product.t) : Prop :=
  0 < Product.quantity row.2 ∧ Product.isDeleted row.2 = false.

Global Instance inStockWhere_dec row : Decision (inStockWhere row).
Proof. unfold inStockWhere. apply _. Defined.

(** [{ expiryDate: { gte: today, lte: today + 30 days }, isDeleted: false }] *)
Definition expiringWhere (t : Today) (row : string * Product.t) : Prop :=
  match Product.expiryDate row.2 with
  | Some d => today t ≤ d ∧ d ≤ today t + 30 * 24 * 60 * 60 * 1000
  | None => False
  end ∧
  Product.isDeleted row.2 = false.

Global Instance expiringWhere_dec t row : Decision (expiringWhere t row).
Proof. unfold expiringWhere. destruct (Product.expiryDate row.2); apply _. Defined.

(** [orderBy: { quantity: 'asc' }] *)
Definition byQuantity (a b : string * Product.t) : Prop :=
  Product.quantity a.2 ≤ Product.quantity b.2.

Global Instance byQuantity_dec a b : Decision (byQuantity a b).
Proof. unfold byQuantity. apply _. Defined.

(** [orderBy: { expiryDate: 'asc' }]; the rows it orders all have a date. *)
Definition byExpiryDate (a b : string * Product.t) : Prop :=
  match Product.expiryDate a.2, Product.expiryDate b.2 with
  | Some x, Some y => x ≤ y
  | None, _ => True
  | Some _, None => False
  end.

Global Instance byExpiryDate_dec a b : Decision (byExpiryDate a b).
Proof.
  unfold byExpiryDate.
  destruct (Product.expiryDate a.2); destruct (Product.expiryDate b.2); apply _.
Defined.

(** [_sum: { amountPaid: true }]: the sum of the amounts that are not null,
    and null when there is none. *)
Definition sum_amountPaid (rows : list (string * Prescription.t)) : option Q :=
  match omap (λ row : string * Prescription.t, Prescription.amountPaid row.2) rows with
  | [] => None
  | amounts => Some (fold_left Qplus amounts 0%Q)
  end.

(** [x || 0] on a nullable number. *)
Definition or_zero (x : option Q) : Q :=
  match x with
  | Some v => if Qeq_bool v 0 then 0%Q else v
  | None => 0%Q
  end.

Record Statistics := {
  pendingPrescriptions : Z;
  dispensedToday : Z;
  revenue : Q;
  patientsServed : Z;
}.

Record Item := {
  drugName : string;
  quantity : Z;
  available : Z;
  hasStock : bool;
}.

Record Formatted := {
  id : string;
  prescriptionNo : string;
  student_name : string;
  student_matricNumber : string;
  student_phone : string;
  physician_name : string;
  diagnosis : string;
  priority : Priority;
  itemCount : nat;
  totalCost : Q;
  createdAt : Z;
  items : list Item;
}.

Record LowStock := {
  lowStock_name : string;
  current : Z;
  lowStock_reorderLevel : Z;
}.

Record Expiring := {
  expiring_name : string;
  expiring_expiryDate : option Z;
  expiring_quantity : Z;
}.

Record Activity := {
  activity_id : string;
  dispensalNo : string;
  studentName : string;
  activity_prescriptionNo : string;
  amount : Q;
  activity_createdAt : Z;
}.

Record Data := {
  statistics : Statistics;
  priorityPrescriptions : list Formatted;
  lowStock : list LowStock;
  expiring : list Expiring;
  recentActivity : list Activity;
}.

Inductive Response :=
| Ok (data : Data)
| Error500 (error : string).

(** Lines 194-199. *)
Definition formatItem (item : ItemWithProduct.t) : Item :=
  {| drugName := Product.name (ItemWithProduct.product item);
     quantity := PrescriptionItem.quantityPrescribed (ItemWithProduct.item item);
     available := Product.quantity (ItemWithProduct.product item);
     hasStock :=
       Product.quantity (ItemWithProduct.product item)
         >=? PrescriptionItem.quantityPrescribed (ItemWithProduct.item item) |}.

(** Lines 179-200, on a row with its included items. *)
Definition format (row : string * Prescription.t)
    (prescriptionItems : list ItemWithProduct.t) : Formatted :=
  let prescription := row.2 in
  {| id := row.1;
     prescriptionNo := Prescription.prescriptionNo prescription;
     student_name :=
       Student.firstName (Prescription.student prescription) +:+ " "
         +:+ Student.lastName (Prescription.student prescription);
     student_matricNumber := Student.matricNumber (Prescription.student prescription);
     student_phone := Student.phone (Prescription.student prescription);
     physician_name :=
       "Dr. " +:+ Physician.firstName (Prescription.physician prescription) +:+ " "
         +:+ Physician.lastName (Prescription.physician prescription);
     diagnosis := Prescription.diagnosis prescription;
     priority := Prescription.priority prescription;
     itemCount := length prescriptionItems;
     totalCost := Prescription.totalCost prescription;
     createdAt := Prescription.createdAt prescription;
     items := formatItem <$> prescriptionItems |}.

(** A row with [include: { prescriptionItems: { include: { product } } }]. *)
Definition includeItems (db : DB) (row : string * Prescription.t) : option Formatted :=
  format row <$> mapM (include_product db) (itemsOf db row.1).

(** Lines 202-209. *)
Definition lowStockAlerts (lowStockDrugs : list (string * Product.t)) : list LowStock :=
  (λ drug : string * Product.t,
     {| lowStock_name := Product.name drug.2;
        current := Product.quantity drug.2;
        lowStock_reorderLevel := or_default (Product.reorderLevel drug.2) 10 |})
  <$> take 5 (filter (λ drug : string * Product.t,
                        Product.quantity drug.2
                          ≤ or_default (Product.reorderLevel drug.2) 10)
                     lowStockDrugs).

(** [GET], lines 4-234.  The eighth query reads columns of the dispensal
    table that the model of the table does not carry: its rows, as lines
    216-223 format them, are given, [None] when the query fails. *)
Definition GET (t : Today) (recentActivity_ : option (list Activity)) (db : DB)
    : Response :=
  let rows := map_to_list (prescriptions db) in
  let pendingPrescriptions_ := Z.of_nat (length (filter pendingWhere rows)) in
  let dispensedToday_ := Z.of_nat (length (filter (dispensedTodayWhere t) rows)) in
  let totalRevenue := sum_amountPaid (filter (dispensedTodayWhere t) rows) in
  let patientsServed_ :=
    remove_dups ((λ row : string * Prescription.t, Prescription.studentId row.2)
                   <$> filter (dispensedTodayWhere t) rows) in
  let priorityPrescriptions_ :=
    take 5 (merge_sort Pending.orderBy (filter priorityWhere rows)) in
  let lowStockDrugs :=
    take 20 (merge_sort byQuantity (filter inStockWhere (map_to_list (products db)))) in
  let expiringDrugs :=
    take 5 (merge_sort byExpiryDate
              (filter (expiringWhere t) (map_to_list (products db)))) in
  match mapM (includeItems db) priorityPrescriptions_, recentActivity_ with
  | Some formatted, Some activity =>
      Ok {| statistics :=
              {| pendingPrescriptions := pendingPrescriptions_;
                 dispensedToday := dispensedToday_;
                 revenue := or_zero totalRevenue;
                 patientsServed := Z.of_nat (length patientsServed_) |};
            priorityPrescriptions := formatted;
            lowStock := lowStockAlerts lowStockDrugs;
            expiring :=
              (λ drug : string * Product.t,
                 {| expiring_name := Product.name drug.2;
                    expiring_expiryDate := Product.expiryDate drug.2;
                    expiring_quantity := Product.quantity drug.2 |})
              <$> expiringDrugs;
            recentActivity := activity |}
  | _, _ => Error500 "Failed to fetch dashboard data"
  end.

End Dashboard.

(** * The conditions of the specification

    The preconditions of the dispensing transaction as the specification
    words them, stated on the tables. *)

Section Preconditions.
Variables (db : DB) (prescriptionId : string).

(** The prescription does not exist as a live record. *)
Definition not_live : Prop :=
  match prescriptions db !! prescriptionId with
  | Some row => Prescription.isDeleted row = true
  | None => True
  end.

(** Its status is not pending. *)
Definition not_pending : Prop :=
  match prescriptions db !! prescriptionId with
  | Some row => Prescription.status row ≠ pending
  | None => False
  end.

(** The requested item id is not in the prescription's item set. *)
Definition unknown_item (dispensedItem : DispensedItem.t) : Prop :=
  match prescriptionItems db !! DispensedItem.itemId dispensedItem with
  | Some row => PrescriptionItem.prescriptionId row ≠ prescriptionId
  | None => True
  end.

(** The requested item's product has less on hand than requested. *)
Definition insufficient_stock (dispensedItem : DispensedItem.t) : Prop :=
  match prescriptionItems db !! DispensedItem.itemId dispensedItem with
  | Some row =>
      PrescriptionItem.prescriptionId row = prescriptionId ∧
      match products db !! PrescriptionItem.productId row with
      | Some p => Product.quantity p < DispensedItem.quantityDispensed dispensedItem
      | None => False
      end
  | None => False
  end.

Definition precondition_fails (body : Dispense.Body) : Prop :=
  not_live ∨ not_pending ∨
  Exists unknown_item (Dispense.dispensedItems body) ∨
  Exists insufficient_stock (Dispense.dispensedItems body).

Global Instance not_live_dec : Decision not_live.
Proof. unfold not_live. destruct (prescriptions db !! prescriptionId); apply _. Defined.

Global Instance not_pending_dec : Decision not_pending.
Proof. unfold not_pending. destruct (prescriptions db !! prescriptionId); apply _. Defined.

Global Instance unknown_item_dec d : Decision (unknown_item d).
Proof.
  unfold unknown_item.
  destruct (prescriptionItems db !! DispensedItem.itemId d); apply _.
Defined.

Global Instance insufficient_stock_dec d : Decision (insufficient_stock d).
Proof.
  unfold insufficient_stock.
  destruct (prescriptionItems db !! DispensedItem.itemId d) as [row|]; [|apply _].
  destruct (products db !! PrescriptionItem.productId row); apply _.
Defined.

Global Instance precondition_fails_dec body : Decision (precondition_fails body).
Proof. unfold precondition_fails. apply _. Defined.
End Preconditions.

(** Every item row references a product row (the foreign key of the
    [product] relation). *)
Definition fk_integrity (db : DB) : Prop :=
  map_Forall (λ _ row, is_Some (products db !! PrescriptionItem.productId row))
             (prescriptionItems db).

(** The stock classification as the specification words it: the threshold
    is the reorder level, and 10 only when the reorder level is absent. *)
Definition spec_threshold (rl : option Z) : Z := default 10 rl.

Definition spec_stockStatus (q thr : Z) : StockStatus :=
  if q =? 0 then out_of_stock
  else if (0 <? q) && (q <=? thr) then low_stock
  else healthy.

(** The response of a route is an error. *)
Definition is_error (r : Dispense.Response) : Prop :=
  match r with
  | Dispense.Error500 _ => True
  | Dispense.Ok _ _ => False
  end.

Global Instance is_error_dec r : Decision (is_error r).
Proof. destruct r; apply _. Defined.

(** Some request line names a product identifier that no product row has. *)
Definition unknown_product (db : DB) (body : Dispense.Body) : Prop :=
  Exists (λ d, products db !! DispensedItem.productId d = None)
         (Dispense.dispensedItems body).

(** The item identifiers a request names. *)
Definition requested (body : Dispense.Body) : list string :=
  DispensedItem.itemId <$> Dispense.dispensedItems body.

(** The dispensed items are all of the prescription's items. *)
Definition dispenses_all (db : DB) (prescriptionId : string) (body : Dispense.Body)
    : Prop :=
  ∀ i row, prescriptionItems db !! i = Some row →
           PrescriptionItem.prescriptionId row = prescriptionId →
           i ∈ requested body.

(** Some item of the prescription is not among the dispensed items. *)
Definition leaves_item_out (db : DB) (prescriptionId : string) (body : Dispense.Body)
    : Prop :=
  ∃ i row, prescriptionItems db !! i = Some row ∧
           PrescriptionItem.prescriptionId row = prescriptionId ∧
           i ∉ requested body.

(** The order of the queue as the specification words it: by priority
    under emergency < urgent < normal, then by creation time ascending
    within equal priority. *)
Definition before (p1 p2 : Priority) : Prop :=
  match p1, p2 with
  | emergency, (urgent | normal) => True
  | urgent, normal => True
  | _, _ => False
  end.

Definition queue_order (a b : Pending.Formatted) : Prop :=
  before (Pending.formatted_priority a) (Pending.formatted_priority b) ∨
  (Pending.formatted_priority a = Pending.formatted_priority b ∧
   Pending.createdAt a ≤ Pending.createdAt b).

(** The code is present among the non-deleted drugs. *)
Definition code_in_use (code : string) (drugs : gmap string Drug.t) : Prop :=
  ∃ i d, drugs !! i = Some d ∧ Drug.code d = code ∧ Drug.isDeleted d = false.

(** The entries of a drug list that carry the code. *)
Definition entries_with_code (code : string) (l : list (string * Drug.t))
    : list (string * Drug.t) :=
  filter (λ row : string * Drug.t, Drug.code row.2 = code) l.

(** Every product has a non-negative quantity on hand. *)
Definition stock_non_negative (db : DB) : Prop :=
  map_Forall (λ _ p, 0 ≤ Product.quantity p) (products db).

(** A stock adjustment or a dispensing request, and the database after it. *)
Inductive Operation :=
| Adjust (now : Z) (productId : string) (quantity : Z)
| DispenseOp (now : Clock) (prescriptionId : string) (body : Dispense.Body).

Definition step (db : DB) (op : Operation) : DB :=
  match op with
  | Adjust now productId quantity =>
      set_products (Stock.PATCH now productId quantity (products db)).1 db
  | DispenseOp now prescriptionId body =>
      (Dispense.POST now prescriptionId body db).1
  end.

(** The databases after each operation of a run. *)
Fixpoint trace (db : DB) (ops : list Operation) : list DB :=
  match ops with
  | [] => []
  | op :: ops' => step db op :: trace (step db op) ops'
  end.

(** The requests along which the stock stays non-negative: an adjustment
    to a quantity that is not negative; a dispensing whose lines name
    pairwise distinct products, each the product of the line's
    prescription item. *)
Definition admissible (db : DB) (op : Operation) : Prop :=
  match op with
  | Adjust _ _ quantity => 0 ≤ quantity
  | DispenseOp _ _ body =>
      NoDup (DispensedItem.productId <$> Dispense.dispensedItems body) ∧
      Forall (λ d, ∀ row,
                prescriptionItems db !! DispensedItem.itemId d = Some row →
                PrescriptionItem.productId row = DispensedItem.productId d)
             (Dispense.dispensedItems body)
  end.

Fixpoint run_admissible (db : DB) (ops : list Operation) : Prop :=
  match ops with
  | [] => True
  | op :: ops' => admissible db op ∧ run_admissible (step db op) ops'
  end.

(** * Invariants used in the proofs *)

(** The write loop changes item rows and product quantities only, and
    neither adds nor removes a row. *)
Definition frame (db db' : DB) : Prop :=
  prescriptions db' = prescriptions db ∧
  drugDispensals db' = drugDispensals db ∧
  balanceTransactions db' = balanceTransactions db ∧
  (∀ i, is_Some (products db' !! i) ↔ is_Some (products db !! i)) ∧
  (∀ i, is_Some (prescriptionItems db' !! i) ↔ is_Some (prescriptionItems db !! i)).

(** The request line names an item row and a product row that exist. *)
Definition line_resolves (db : DB) (d : DispensedItem.t) : Prop :=
  is_Some (prescriptionItems db !! DispensedItem.itemId d) ∧
  is_Some (products db !! DispensedItem.productId d).

(** The row is soft-deleted. *)
Definition deleted_at (i : string) (drugs : gmap string Drug.t) : Prop :=
  ∃ d, drugs !! i = Some d ∧ Drug.isDeleted d = true.

(** * Quantities read off a request *)

(** The quantity a request dispenses of one product: the sum over the lines
    that name it. *)
Definition dispensed_of (productId : string) (ds : list DispensedItem.t) : Z :=
  foldr (λ d acc, if decide (DispensedItem.productId d = productId)
                  then DispensedItem.quantityDispensed d + acc
                  else acc) 0 ds.

(** The last line of a request that names an item. *)
Fixpoint last_line (itemId : string) (ds : list DispensedItem.t)
    : option DispensedItem.t :=
  match ds with
  | [] => None
  | d :: ds' =>
      match last_line itemId ds' with
      | Some d' => Some d'
      | None => if decide (DispensedItem.itemId d = itemId) then Some d else None
      end
  end.

(** * Orders of the listings *)

(** The order of the stock list: by quantity, then by name. *)
Definition stock_order (a b : Stock.FormattedProduct) : Prop :=
  Product.quantity (Stock.product a) < Product.quantity (Stock.product b) ∨
  (Product.quantity (Stock.product a) = Product.quantity (Stock.product b) ∧
   String.leb (Product.name (Stock.product a)) (Product.name (Stock.product b)) = true).

(** The reorder level of the product is absent or not negative. *)
Definition reorder_level_not_negative (p : Product.t) : Prop :=
  match Product.reorderLevel p with
  | Some v => 0 ≤ v
  | None => True
  end.


(** The prescriptions that are pending and not deleted. *)
Definition pending_rows (db : DB) : list (string * Prescription.t) :=
  filter (λ row : string * Prescription.t,
            Prescription.status row.2 = pending ∧ Prescription.isDeleted row.2 = false)
         (map_to_list (prescriptions db)).

(** No two non-deleted drugs carry the same code. *)
Definition codes_unique (drugs : gmap string Drug.t) : Prop :=
  ∀ i j d e, drugs !! i = Some d → drugs !! j = Some e →
    Drug.isDeleted d = false → Drug.isDeleted e = false →
    Drug.code d = Drug.code e → i = j.

(** The columns of a drug that a request body sets. *)
Definition same_data (d e : Drug.t) : Prop :=
  Drug.code e = Drug.code d ∧ Drug.name e = Drug.name d ∧
  Drug.category e = Drug.category d ∧ Drug.quantity e = Drug.quantity d ∧
  Drug.reorderLevel e = Drug.reorderLevel d ∧ Drug.price e = Drug.price d ∧
  Drug.cost e = Drug.cost d ∧ Drug.expiryDate e = Drug.expiryDate d ∧
  Drug.batchNumber e = Drug.batchNumber d ∧ Drug.unit e = Drug.unit d ∧
  Drug.prescriptionRequired e = Drug.prescriptionRequired d.

(** ** The dispensing page and the routes *)

(** The controls the page shows, lines 391-428: a box for each item of the
    prescription it holds, and the quantity field of an item only while the
    item is selected.  The answer that arrives is an answer of the detail
    route. *)
Definition rendered (s : DispensePage.State) (e : DispensePage.Event) : Prop :=
  match e with
  | DispensePage.Fetched response => ∃ prescriptionId db, response = Detail.GET prescriptionId db
  | DispensePage.ItemChecked i _ =>
      ∃ p, DispensePage.prescription s = Some p ∧
           i ∈ Detail.item_id <$> Detail.items p
  | DispensePage.QuantityTyped i _ =>
      (∃ p, DispensePage.prescription s = Some p ∧
            i ∈ Detail.item_id <$> Detail.items p) ∧
      is_Some (obj_get i (DispensePage.dispensedItems s))
  | _ => True
  end.

(** The states the page reaches from its first render. *)
Inductive reachable : DispensePage.State → Prop :=
| reachable_initial : reachable DispensePage.initial
| reachable_handle s e :
    reachable s → rendered s e → reachable (DispensePage.handle e s).

(** A line of the request as the route reads it after [JSON.stringify],
    which leaves out a field that is undefined: a line the route is
    modelled on has both identifiers. *)
Definition line_of (e : DispensePage.DispenseItem) : option DispensedItem.t :=
  match DispensePage.itemId e, DispensePage.productId e with
  | Some i, Some p =>
      Some {| DispensedItem.itemId := i;
              DispensedItem.quantityDispensed := DispensePage.quantityDispensed e;
              DispensedItem.productId := p |}
  | _, _ => None
  end.

(** The body the route reads from a request of the page, when every line
    has both identifiers and the amount is a number (NaN is sent as
    null). *)
Definition body_of (r : DispensePage.Request) : option Dispense.Body :=
  match mapM line_of (DispensePage.request_dispensedItems r),
        DispensePage.request_amountPaid r with
  | Some lines, Some paid =>
      Some {| Dispense.dispensedItems := lines;
              Dispense.totalAmount := DispensePage.request_totalAmount r;
              Dispense.amountPaid := paid;
              Dispense.paymentMethod := DispensePage.request_paymentMethod r;
              Dispense.notes := DispensePage.request_notes r;
              Dispense.dispensedBy := DispensePage.request_dispensedBy r |}
  | _, _ => None
  end.

(** The entries of the page name items of the prescription it holds, each
    under its own identifier and with the product of the item. *)
Definition entries_of (p : Detail.Formatted)
    (o : list (string * DispensePage.DispenseItem)) : Prop :=
  NoDup o.*1 ∧
  Forall (λ e : string * DispensePage.DispenseItem,
            ∃ item, item ∈ Detail.items p ∧ Detail.item_id item = e.1 ∧
                    DispensePage.itemId e.2 = Some e.1 ∧
                    DispensePage.productId e.2 = Some (Detail.product_id item)) o.

(** The page after a run of events. *)
Definition run_events (es : list DispensePage.Event) (s : DispensePage.State)
    : DispensePage.State :=
  fold_left (λ s e, DispensePage.handle e s) es s.

(** Each event of a run is on a control the page shows when it happens. *)
Fixpoint all_rendered (es : list DispensePage.Event) (s : DispensePage.State) : Prop :=
  match es with
  | [] => True
  | e :: es' => rendered s e ∧ all_rendered es' (DispensePage.handle e s)
  end.

(** The pharmacist opens the page of a prescription, confirms the student
    and ticks the four boxes. *)
Definition confirm_all (prescriptionId : string) (db : DB) : list DispensePage.Event :=
  [DispensePage.Fetched (Detail.GET prescriptionId db);
   DispensePage.StudentConfirmed;
   DispensePage.Ticked DispensePage.identity_box true;
   DispensePage.Ticked DispensePage.items_box true;
   DispensePage.Ticked DispensePage.dosage_box true;
   DispensePage.Ticked DispensePage.understands_box true].


(** ** Orders of the dashboard *)

(** The order of the low-stock alerts: by the quantity on hand. *)
Definition alert_order (a b : Dashboard.LowStock) : Prop :=
  Dashboard.current a ≤ Dashboard.current b.

(** The order of the priority prescriptions of the dashboard, as
    [queue_order] on the pending list. *)
Definition dashboard_order (a b : Dashboard.Formatted) : Prop :=
  before (Dashboard.priority a) (Dashboard.priority b) ∨
  (Dashboard.priority a = Dashboard.priority b ∧
   Dashboard.createdAt a ≤ Dashboard.createdAt b).

(** The products in stock: not deleted, with a positive quantity. *)
Definition in_stock_rows (db : DB) : list (string * Product.t) :=
  filter Dashboard.inStockWhere (map_to_list (products db)).

(** * Sample data *)

Definition mkProduct (nm : string) (q : Z) (rl : option Z) : Product.t :=
  {| Product.name := nm; Product.genericName := None; Product.brandName := None;
     Product.category := "general"; Product.quantity := q;
     Product.reorderLevel := rl; Product.expiryDate := None;
     Product.updatedAt := 0; Product.isDeleted := false |}.

Definition ada : Student.t :=
  {| Student.firstName := "Ada"; Student.lastName := "Obi";
     Student.matricNumber := "MAT/001"; Student.phone := "0800" |}.

Definition dr_eze : Physician.t :=
  {| Physician.firstName := "Joy"; Physician.lastName := "Eze";
     Physician.specialization := "General practice" |}.

Definition mkPrescription (no : string) (pr : Priority) (st : Status) (created : Z)
    : Prescription.t :=
  {| Prescription.prescriptionNo := no; Prescription.studentId := "stu-1";
     Prescription.student := ada; Prescription.physician := dr_eze;
     Prescription.diagnosis := "malaria"; Prescription.priority := pr;
     Prescription.status := st; Prescription.totalCost := 50%Q;
     Prescription.createdAt := created; Prescription.isDispensed := false;
     Prescription.dispensedAt := None; Prescription.dispensedBy := None;
     Prescription.amountPaid := None; Prescription.isDeleted := false |}.

Definition mkItem (rx prod : string) (n : Z) : PrescriptionItem.t :=
  {| PrescriptionItem.prescriptionId := rx; PrescriptionItem.productId := prod;
     PrescriptionItem.quantityPrescribed := n;
     PrescriptionItem.quantityDispensed := 0;
     PrescriptionItem.unitPrice := 10%Q; PrescriptionItem.totalPrice := 10%Q;
     PrescriptionItem.isDispensed := false;
     PrescriptionItem.dispensedAt := None; PrescriptionItem.dispensedBy := None |}.

Definition line (i : string) (q : Z) (p : string) : DispensedItem.t :=
  {| DispensedItem.itemId := i; DispensedItem.quantityDispensed := q;
     DispensedItem.productId := p |}.

Definition mkBody (l : list DispensedItem.t) (total paid : Q) : Dispense.Body :=
  {| Dispense.dispensedItems := l; Dispense.totalAmount := total;
     Dispense.amountPaid := paid; Dispense.paymentMethod := "cash";
     Dispense.notes := ""; Dispense.dispensedBy := "pharm-1" |}.

Definition noon : Clock := {| getTime := 1762000123456; getFullYear := 2026 |}.

(** One pending prescription with two items: item-A asks 3 of product A
    (5 on hand), item-B asks 2 of product B (1 on hand). *)
Definition sample_db : DB :=
  {| products := <["prod-A" := mkProduct "Paracetamol" 5 (Some 10)]>
                 (<["prod-B" := mkProduct "Amoxicillin" 1 None]> ∅);
     prescriptions := <["rx-1" := mkPrescription "RX-001" normal pending 1000]> ∅;
     prescriptionItems := <["item-A" := mkItem "rx-1" "prod-A" 3]>
                          (<["item-B" := mkItem "rx-1" "prod-B" 2]> ∅);
     drugDispensals := [];
     balanceTransactions := [] |}.

(** One pending prescription whose two items are both of product A (5 on
    hand), 3 each. *)
Definition same_product_db : DB :=
  {| products := <["prod-A" := mkProduct "Paracetamol" 5 (Some 10)]> ∅;
     prescriptions := <["rx-1" := mkPrescription "RX-001" normal pending 1000]> ∅;
     prescriptionItems := <["item-A" := mkItem "rx-1" "prod-A" 3]>
                          (<["item-C" := mkItem "rx-1" "prod-A" 3]> ∅);
     drugDispensals := [];
     balanceTransactions := [] |}.

(** Five prescriptions, four of them pending, created in the order rx-1,
    rx-3, rx-4, rx-2, rx-5; item-A and item-B belong to rx-1. *)
Definition queue_db : DB :=
  {| products := products sample_db;
     prescriptions :=
       <["rx-1" := mkPrescription "RX-001" normal pending 1000]>
       (<["rx-2" := mkPrescription "RX-002" emergency pending 3000]>
        (<["rx-3" := mkPrescription "RX-003" urgent pending 2000]>
         (<["rx-4" := mkPrescription "RX-004" emergency pending 2500]>
          (<["rx-5" := mkPrescription "RX-005" emergency dispensed 500]> ∅))));
     prescriptionItems := prescriptionItems sample_db;
     drugDispensals := [];
     balanceTransactions := [] |}.

Definition first_page : Pending.Query :=
  {| Pending.priority := None; Pending.search := None;
     Pending.page := Num 1; Pending.limit := Num 10 |}.

(** Four products: one with a reorder level, one out of stock without a
    reorder level, two with a reorder level of 0. *)
Definition stock_table : gmap string Product.t :=
  <["p1" := mkProduct "Paracetamol" 5 (Some 10)]>
  (<["p2" := mkProduct "Amoxicillin" 0 None]>
   (<["p3" := mkProduct "Ibuprofen" 40 (Some 0)]>
    (<["p4" := mkProduct "Cetirizine" 5 (Some 0)]> ∅))).

Definition all_stock : Stock.Query :=
  {| Stock.category := None; Stock.status := None; Stock.search := None;
     Stock.page := Num 1; Stock.limit := Num 20 |}.

Definition mkDrugBody (c nm : string) : Drugs.Body :=
  {| Drugs.code := c; Drugs.name := nm; Drugs.category := "analgesic";
     Drugs.quantity := 100; Drugs.reorderLevel := 20;
     Drugs.price := 150%Q; Drugs.cost := 90%Q; Drugs.expiryDate := 1800000000000;
     Drugs.batchNumber := "B-7"; Drugs.unit := None;
     Drugs.prescriptionRequired := None; Drugs.createdBy := "admin" |}.

(** The page of rx-1 on a table where both products are in stock, after the
    quantity of item-B is set to 1. *)
Definition stocked_db : DB :=
  set_products (<["prod-B" := mkProduct "Amoxicillin" 4 None]> (products sample_db))
               sample_db.

Definition page_of_rx1 : DispensePage.State :=
  run_events (confirm_all "rx-1" stocked_db ++ [DispensePage.QuantityTyped "item-B" 1])%list
             DispensePage.initial.

(** The day of [noon], in UTC, and the tables after the page of rx-1
    dispensed it at noon. *)
Definition today_noon : Dashboard.Today :=
  {| Dashboard.today := 1762000123456;
     Dashboard.startOfDay := 1761955200000;
     Dashboard.endOfDay := 1762041600000 |}.

Definition dispensed_db : DB :=
  (Dispense.POST noon "rx-1"
     (mkBody [line "item-A" 3 "prod-A"; line "item-B" 2 "prod-B"] 50 50)
     stocked_db).1.

(** * Properties *)

(** ** Stock classification *)

Lemma or_default_spec (x : option Z) (d : Z) :
  or_default x d = match x with
                   | None => d
                   | Some 0 => d
                   | Some v => v
                   end.
Proof.
  destruct x as [v|]; simpl; [|reflexivity].
  destruct (Z.eqb_spec v 0) as [->|Hne]; [reflexivity|].
  destruct v; [congruence|reflexivity|reflexivity].
Qed.

Lemma reorderThreshold_nonzero (p : Product.t) : Stock.reorderThreshold p ≠ 0.
Proof.
  unfold Stock.reorderThreshold, or_default.
  destruct (Product.reorderLevel p) as [v|]; [|lia].
  destruct (Z.eqb_spec v 0); lia.
Qed.

Lemma stock_GET_Ok now q table body :
  Stock.GET now q table = Stock.Ok body →
  Stock.body_summary body = Stock.summary table ∧
  ∀ fp, fp ∈ Stock.products body →
        ∃ row, table !! row.1 = Some row.2 ∧
               Product.isDeleted row.2 = false ∧
               fp = Stock.formatProduct now row.
Proof.
  unfold Stock.GET.
  destruct (Stock.offset q) as [|skip]; [discriminate|].
  destruct (Stock.limit q) as [|take_]; [discriminate|].
  destruct (skip <? 0); [discriminate|].
  intros H. injection H as <-. simpl. split; [reflexivity|].
  intros fp Hin.
  assert (Hin' : fp ∈ Stock.formatProduct now <$>
                   paginate skip take_
                     (merge_sort Stock.orderBy (Stock.findMany (Stock.whereClause q) table))).
  { destruct (Stock.status q) as [st|]; [|exact Hin].
    destruct (String.eqb st "low_stock"); [|exact Hin].
    apply list_elem_of_filter in Hin. tauto. }
  apply list_elem_of_fmap in Hin' as (row & -> & Hrow).
  exists row.
  assert (Hsorted : row ∈ merge_sort Stock.orderBy
                      (Stock.findMany (Stock.whereClause q) table)).
  { revert Hrow. unfold paginate. destruct (0 <=? take_); intros Hrow.
    - eapply elem_of_sublist; [|apply sublist_drop].
      eapply elem_of_sublist; [exact Hrow|apply sublist_take].
    - eapply elem_of_sublist; [|apply sublist_take].
      eapply elem_of_sublist; [exact Hrow|apply sublist_drop]. }
  rewrite merge_sort_Permutation in Hsorted.
  apply list_elem_of_filter in Hsorted as [(Hlive & _) Hmem].
  destruct row as [i p]. apply elem_of_map_to_list in Hmem. auto.
Qed.

(** Scenario of the specification: quantity 5 with reorder level 10 is low
    stock at 50 percent. *)
Example stock_scenario_low :
  let fp := Stock.formatProduct 0 ("p1", mkProduct "Paracetamol" 5 (Some 10)) in
  Stock.stockStatus fp = low_stock ∧ (Stock.stockPercentage fp == 50)%Q.
Proof. split; reflexivity. Qed.

(** C5, as stated, fails: a product whose reorder level is present and equal
    to 0 is classified with the threshold 10, so with quantity 5 the
    stock-levels response says low_stock where the stated rule (0 < 5 <= 0
    is false) gives healthy. *)
Lemma stock_classification_zero_reorder_level :
  ∃ body fp,
    Stock.GET 0 all_stock stock_table = Stock.Ok body ∧
    fp ∈ Stock.products body ∧
    Product.quantity (Stock.product fp) = 5 ∧
    Product.reorderLevel (Stock.product fp) = Some 0 ∧
    Stock.stockStatus fp = low_stock ∧
    spec_stockStatus (Product.quantity (Stock.product fp))
                     (spec_threshold (Product.reorderLevel (Stock.product fp)))
      = healthy ∧
    Stock.stockStatus fp ≠
      spec_stockStatus (Product.quantity (Stock.product fp))
                       (spec_threshold (Product.reorderLevel (Stock.product fp))).
Proof.
  destruct (Stock.GET 0 all_stock stock_table) as [body|e] eqn:H;
    [|vm_compute in H; discriminate H].
  assert (Hfp : ∃ fp, Stock.products body !! 1%nat = Some fp ∧
                      Stock.product fp = mkProduct "Cetirizine" 5 (Some 0) ∧
                      Stock.stockStatus fp = low_stock).
  { vm_compute in H. injection H as <-. eexists. split; [reflexivity|].
    split; reflexivity. }
  destruct Hfp as (fp & Hfp & Hprod & Hst).
  exists body, fp. split; [reflexivity|].
  split; [eapply list_elem_of_lookup_2, Hfp|].
  rewrite Hprod, Hst. repeat split; discriminate.
Qed.

(** C5, amended: for every product of a stock-levels response with a
    non-negative quantity, whatever its reorder level, present or absent,
    the threshold is the reorder level when it is present and not 0 and is
    10 otherwise; the status is out_of_stock when the quantity is 0,
    low_stock when 0 < quantity <= threshold and healthy otherwise; the
    percentage is min(quantity / threshold * 100, 100), with a threshold
    that is never 0. *)
Theorem stock_classification now q table body fp :
  Stock.GET now q table = Stock.Ok body →
  fp ∈ Stock.products body →
  0 ≤ Product.quantity (Stock.product fp) →
  let thr := match Product.reorderLevel (Stock.product fp) with
             | None => 10
             | Some 0 => 10
             | Some v => v
             end in
  table !! Stock.id fp = Some (Stock.product fp) ∧
  thr ≠ 0 ∧
  Stock.stockStatus fp = spec_stockStatus (Product.quantity (Stock.product fp)) thr ∧
  Stock.stockPercentage fp =
    Qmin ((inject_Z (Product.quantity (Stock.product fp)) / inject_Z thr) * 100) 100.
Proof.
  intros H Hin Hq thr.
  destruct (stock_GET_Ok _ _ _ _ H) as [_ Hrows].
  destruct (Hrows fp Hin) as (row & Hrow & _ & ->). simpl in *.
  assert (Hthr : Stock.reorderThreshold row.2 = thr).
  { unfold Stock.reorderThreshold. apply or_default_spec. }
  split; [exact Hrow|].
  split; [rewrite <- Hthr; apply reorderThreshold_nonzero|].
  rewrite Hthr. split; [|reflexivity].
  unfold spec_stockStatus.
  destruct (Z.eqb_spec (Product.quantity row.2) 0) as [|Hne]; [reflexivity|].
  assert (Hpos : (0 <? Product.quantity row.2) = true) by (apply Z.ltb_lt; lia).
  rewrite Hpos. reflexivity.
Qed.

Lemma stock_classification_witness :
  ∃ body fp,
    Stock.GET 0 all_stock stock_table = Stock.Ok body ∧
    fp ∈ Stock.products body ∧
    0 ≤ Product.quantity (Stock.product fp) ∧
    Stock.id fp = "p3" ∧
    Stock.stockStatus fp = spec_stockStatus 40 10.
Proof.
  destruct (Stock.GET 0 all_stock stock_table) as [body|e] eqn:H;
    [|vm_compute in H; discriminate H].
  assert (Hfp : ∃ fp, Stock.products body !! 3%nat = Some fp ∧
                      Stock.id fp = "p3" ∧
                      Stock.product fp = mkProduct "Ibuprofen" 40 (Some 0)).
  { vm_compute in H. injection H as <-. eexists. split; [reflexivity|].
    split; reflexivity. }
  destruct Hfp as (fp & Hfp & Hid & Hprod).
  assert (Hin : fp ∈ Stock.products body) by (eapply list_elem_of_lookup_2, Hfp).
  assert (Hq : 0 ≤ Product.quantity (Stock.product fp)) by (rewrite Hprod; simpl; lia).
  exists body, fp. split; [reflexivity|]. split; [exact Hin|].
  split; [exact Hq|]. split; [exact Hid|].
  destruct (stock_classification 0 all_stock stock_table body fp H Hin Hq)
    as (_ & _ & Hs & _).
  rewrite Hs, Hprod. reflexivity.
Defined.

(** ** The dispensing transaction *)

Ltac tx_unfold :=
  unfold mbind, mret, Tx_bind, Tx_ret, throw in *.

Lemma Forall2_elem_of_l {A B} (P : A → B → Prop) l k x :
  Forall2 P l k → x ∈ l → ∃ y, y ∈ k ∧ P x y.
Proof.
  induction 1 as [|a b l k Hab _ IH]; intros Hin.
  - inversion Hin.
  - apply elem_of_cons in Hin as [->|Hin].
    + exists b. split; [left|exact Hab].
    + destruct (IH Hin) as (y & Hy & HP). exists y. split; [right; exact Hy|exact HP].
Qed.

Lemma Forall2_elem_of_r {A B} (P : A → B → Prop) l k y :
  Forall2 P l k → y ∈ k → ∃ x, x ∈ l ∧ P x y.
Proof.
  induction 1 as [|a b l k Hab _ IH]; intros Hin.
  - inversion Hin.
  - apply elem_of_cons in Hin as [->|Hin].
    + exists a. split; [left|exact Hab].
    + destruct (IH Hin) as (x & Hx & HP). exists x. split; [right; exact Hx|exact HP].
Qed.

Lemma elem_of_itemsOf db pid i row :
  (i, row) ∈ itemsOf db pid ↔
  prescriptionItems db !! i = Some row ∧ PrescriptionItem.prescriptionId row = pid.
Proof.
  unfold itemsOf. rewrite list_elem_of_filter, elem_of_map_to_list. simpl. tauto.
Qed.

(** The joined items are the item rows of the prescription, each with the
    product row its [productId] resolves to. *)
Lemma include_product_rows db rows items :
  mapM (include_product db) rows = Some items →
  Forall2 (λ row it,
             ItemWithProduct.id it = row.1 ∧ ItemWithProduct.item it = row.2 ∧
             products db !! PrescriptionItem.productId row.2
               = Some (ItemWithProduct.product it)) rows items.
Proof.
  intros H. apply mapM_Some in H.
  eapply Forall2_impl; [exact H|].
  intros row it Hi. unfold include_product in Hi.
  destruct (products db !! PrescriptionItem.productId row.2) as [p|] eqn:Hp;
    [|discriminate].
  injection Hi as <-. simpl. auto.
Qed.

Lemma fk_integrity_include db pid :
  fk_integrity db → is_Some (mapM (include_product db) (itemsOf db pid)).
Proof.
  intros Hfk. apply mapM_is_Some. apply Forall_forall.
  intros [i row] Hin. apply elem_of_itemsOf in Hin as [Hrow _].
  destruct (Hfk i row Hrow) as [p Hp].
  unfold include_product. simpl. rewrite Hp. eauto.
Qed.

Section Verify.
Variables (db : DB) (pid : string) (items : list ItemWithProduct.t).
Hypothesis Hitems : mapM (include_product db) (itemsOf db pid) = Some items.

Lemma find_item_spec x :
  match List.find (λ it, String.eqb (ItemWithProduct.id it) x) items with
  | Some it =>
      ItemWithProduct.id it = x ∧
      prescriptionItems db !! x = Some (ItemWithProduct.item it) ∧
      PrescriptionItem.prescriptionId (ItemWithProduct.item it) = pid ∧
      products db !! PrescriptionItem.productId (ItemWithProduct.item it)
        = Some (ItemWithProduct.product it)
  | None =>
      ∀ row, prescriptionItems db !! x = Some row →
             PrescriptionItem.prescriptionId row ≠ pid
  end.
Proof.
  pose proof (include_product_rows _ _ _ Hitems) as HF.
  destruct (List.find _ items) as [it|] eqn:Hfind.
  - apply find_some in Hfind as [Hin Heq].
    apply String.eqb_eq in Heq.
    apply list_elem_of_In in Hin.
    destruct (Forall2_elem_of_r _ _ _ _ HF Hin) as ([i row] & Hrow & Hid & Hitem & Hp).
    simpl in Hid, Hitem, Hp. apply elem_of_itemsOf in Hrow as [Hrow Hpid].
    rewrite Hitem. rewrite <- Heq, Hid. auto.
  - intros row Hrow Hpid.
    assert (Hin : (x, row) ∈ itemsOf db pid) by (apply elem_of_itemsOf; auto).
    destruct (Forall2_elem_of_l _ _ _ _ HF Hin) as (it & Hit & Hid & _).
    simpl in Hid.
    apply list_elem_of_In in Hit.
    pose proof (find_none _ _ Hfind it Hit) as Hne. simpl in Hne.
    rewrite Hid, String.eqb_refl in Hne. discriminate.
Qed.

Lemma verifyLine_unknown d db0 :
  unknown_item db pid d →
  Dispense.verifyLine items d db0 = inl (Dispense.itemNotFound d).
Proof.
  intros Hu. unfold Dispense.verifyLine, unknown_item in *.
  pose proof (find_item_spec (DispensedItem.itemId d)) as Hf.
  destruct (List.find _ items) as [it|]; [|reflexivity].
  destruct Hf as (_ & Hrow & Hpid & _). rewrite Hrow in Hu. contradiction.
Qed.

Lemma verifyLine_insufficient d db0 row p :
  prescriptionItems db !! DispensedItem.itemId d = Some row →
  PrescriptionItem.prescriptionId row = pid →
  products db !! PrescriptionItem.productId row = Some p →
  Product.quantity p < DispensedItem.quantityDispensed d →
  Dispense.verifyLine items d db0 =
    inl ("Insufficient stock for " +:+ Product.name p
           +:+ ". Available: " +:+ string_of_Z (Product.quantity p)
           +:+ ", Required: " +:+ string_of_Z (DispensedItem.quantityDispensed d)).
Proof.
  intros Hrow Hpid Hp Hlt. unfold Dispense.verifyLine.
  pose proof (find_item_spec (DispensedItem.itemId d)) as Hf.
  destruct (List.find _ items) as [it|].
  - destruct Hf as (_ & Hrow' & _ & Hp').
    rewrite Hrow in Hrow'. injection Hrow' as Hrow'. rewrite <- Hrow' in Hp'.
    rewrite Hp in Hp'. injection Hp' as Hp'.
    unfold Dispense.insufficientStock. rewrite <- Hp'.
    destruct (Z.ltb_spec (Product.quantity p) (DispensedItem.quantityDispensed d));
      [reflexivity|lia].
  - exfalso. exact (Hf row Hrow Hpid).
Qed.

Lemma verifyLine_short d db0 :
  insufficient_stock db pid d → ∃ e, Dispense.verifyLine items d db0 = inl e.
Proof.
  unfold insufficient_stock.
  destruct (prescriptionItems db !! DispensedItem.itemId d) as [row|] eqn:Hrow;
    [|tauto].
  destruct (products db !! PrescriptionItem.productId row) as [p|] eqn:Hp;
    [|tauto].
  intros [Hpid Hlt]. eexists. eapply verifyLine_insufficient; eauto.
Qed.

Lemma verifyLine_ok d db0 :
  ¬ unknown_item db pid d → ¬ insufficient_stock db pid d →
  Dispense.verifyLine items d db0 = inr ((), db0).
Proof.
  intros Hu Hs. unfold Dispense.verifyLine, unknown_item, insufficient_stock in *.
  pose proof (find_item_spec (DispensedItem.itemId d)) as Hf.
  destruct (List.find _ items) as [it|].
  - destruct Hf as (_ & Hrow & Hpid & Hp).
    rewrite Hrow in Hs. rewrite Hp in Hs.
    destruct (Z.ltb_spec (Product.quantity (ItemWithProduct.product it))
                         (DispensedItem.quantityDispensed d)); [|reflexivity].
    exfalso. apply Hs. auto.
  - exfalso. apply Hu.
    destruct (prescriptionItems db !! DispensedItem.itemId d) as [row|] eqn:Hrow;
      [|exact I].
    exact (Hf row eq_refl).
Qed.

(** A line either passes and leaves the tables alone, or throws. *)
Lemma verifyLine_cases d db0 :
  (Dispense.verifyLine items d db0 = inr ((), db0) ∧
   ¬ unknown_item db pid d ∧ ¬ insufficient_stock db pid d) ∨
  ((∃ e, Dispense.verifyLine items d db0 = inl e) ∧
   (unknown_item db pid d ∨ insufficient_stock db pid d)).
Proof.
  destruct (decide (unknown_item db pid d)) as [Hu|Hu].
  { right. split; [|auto]. eexists. apply verifyLine_unknown, Hu. }
  destruct (decide (insufficient_stock db pid d)) as [Hs|Hs].
  { right. split; [|auto]. apply verifyLine_short, Hs. }
  left. split; [|auto]. apply verifyLine_ok; assumption.
Qed.

Lemma verify_all_ok ds db0 :
  Forall (λ d, ¬ unknown_item db pid d ∧ ¬ insufficient_stock db pid d) ds →
  forEach ds (Dispense.verifyLine items) db0 = inr ((), db0).
Proof.
  induction 1 as [|d ds [Hu Hs] _ IH]; simpl; [reflexivity|].
  tx_unfold. rewrite (verifyLine_ok d db0 Hu Hs). exact IH.
Qed.

Lemma verify_first_failure pre d post db0 e :
  Forall (λ d, ¬ unknown_item db pid d ∧ ¬ insufficient_stock db pid d) pre →
  Dispense.verifyLine items d db0 = inl e →
  forEach (pre ++ d :: post)%list (Dispense.verifyLine items) db0 = inl e.
Proof.
  intros Hpre He. induction Hpre as [|d' pre [Hu Hs] _ IH]; simpl.
  - tx_unfold. rewrite He. reflexivity.
  - tx_unfold. rewrite (verifyLine_ok d' db0 Hu Hs). exact IH.
Qed.

Lemma verify_cases ds db0 :
  (forEach ds (Dispense.verifyLine items) db0 = inr ((), db0) ∧
   Forall (λ d, ¬ unknown_item db pid d ∧ ¬ insufficient_stock db pid d) ds) ∨
  ((∃ e, forEach ds (Dispense.verifyLine items) db0 = inl e) ∧
   (Exists (unknown_item db pid) ds ∨ Exists (insufficient_stock db pid) ds)).
Proof.
  induction ds as [|d ds IH]; simpl.
  { left. split; [reflexivity|constructor]. }
  tx_unfold.
  destruct (verifyLine_cases d db0) as [(Hok & Hu & Hs)|((e & He) & Hbad)].
  - rewrite Hok. destruct IH as [(Hall & HF)|(He & Hbad)].
    + left. split; [exact Hall|]. constructor; auto.
    + right. split; [exact He|].
      destruct Hbad; [left|right]; apply Exists_cons_tl; assumption.
  - right. rewrite He. split; [eauto|].
    destruct Hbad; [left|right]; apply Exists_cons_hd; assumption.
Qed.
End Verify.

Lemma frame_refl db : frame db db.
Proof. repeat split; auto. Qed.

Lemma frame_trans db1 db2 db3 : frame db1 db2 → frame db2 db3 → frame db1 db3.
Proof.
  intros (H1 & H2 & H3 & H4 & H5) (G1 & G2 & G3 & G4 & G5).
  repeat split; try congruence.
  - intros H. apply H4, G4, H.
  - intros H. apply G4, H4, H.
  - intros H. apply H5, G5, H.
  - intros H. apply G5, H5, H.
Qed.

Lemma is_Some_insert_present {V} (m : gmap string V) k v j :
  is_Some (m !! k) → is_Some (<[k := v]> m !! j) ↔ is_Some (m !! j).
Proof.
  intros Hk. destruct (decide (k = j)) as [->|Hne].
  - rewrite lookup_insert_eq. split; eauto.
  - rewrite lookup_insert_ne by exact Hne. reflexivity.
Qed.

Lemma applyLine_inr now by_ d db u db' :
  Dispense.applyLine now by_ d db = inr (u, db') →
  ∃ row p,
    prescriptionItems db !! DispensedItem.itemId d = Some row ∧
    products db !! DispensedItem.productId d = Some p ∧
    db' = set_products
            (<[DispensedItem.productId d :=
                 Dispense.decrement (DispensedItem.quantityDispensed d) p]> (products db))
            (set_prescriptionItems
               (<[DispensedItem.itemId d := Dispense.markItem now by_ d row]>
                  (prescriptionItems db)) db).
Proof.
  unfold Dispense.applyLine, prescriptionItem_update, product_update. tx_unfold.
  destruct (prescriptionItems db !! DispensedItem.itemId d) as [row|]; [|discriminate].
  simpl.
  destruct (products db !! DispensedItem.productId d) as [p|]; [|discriminate].
  intros H. injection H as _ <-. eauto.
Qed.

Lemma applyLine_total now by_ d db :
  is_Some (prescriptionItems db !! DispensedItem.itemId d) →
  is_Some (products db !! DispensedItem.productId d) →
  ∃ db', Dispense.applyLine now by_ d db = inr ((), db').
Proof.
  intros [row Hrow] [p Hp].
  unfold Dispense.applyLine, prescriptionItem_update, product_update. tx_unfold.
  rewrite Hrow. simpl. rewrite Hp. eauto.
Qed.

Lemma applyLine_frame now by_ d db u db' :
  Dispense.applyLine now by_ d db = inr (u, db') → frame db db'.
Proof.
  intros H. apply applyLine_inr in H as (row & p & Hrow & Hp & ->).
  repeat split; simpl; try reflexivity.
  - apply is_Some_insert_present; eauto.
  - intros H. apply is_Some_insert_present; eauto.
  - apply is_Some_insert_present; eauto.
  - intros H. apply is_Some_insert_present; eauto.
Qed.

Lemma line_resolves_frame db db' d :
  frame db db' → line_resolves db' d ↔ line_resolves db d.
Proof.
  intros (_ & _ & _ & Hp & Hi). unfold line_resolves. rewrite Hp, Hi. reflexivity.
Qed.

Lemma apply_all_inr now by_ ds : ∀ db u db',
  forEach ds (Dispense.applyLine now by_) db = inr (u, db') →
  frame db db' ∧ Forall (line_resolves db) ds.
Proof.
  induction ds as [|d ds IH]; simpl; intros db u db' H.
  - tx_unfold. injection H as _ <-. split; [apply frame_refl|constructor].
  - tx_unfold.
    destruct (Dispense.applyLine now by_ d db) as [e|[u1 db1]] eqn:Hd; [discriminate|].
    pose proof (applyLine_frame _ _ _ _ _ _ Hd) as Hf1.
    apply applyLine_inr in Hd as (row & p & Hrow & Hp & _).
    destruct (IH _ _ _ H) as [Hf2 Hall].
    split; [eapply frame_trans; eassumption|].
    constructor; [split; eauto|].
    eapply Forall_impl; [exact Hall|].
    intros d' Hd'. apply (line_resolves_frame _ _ _ Hf1), Hd'.
Qed.

Lemma apply_all_total now by_ ds : ∀ db,
  Forall (line_resolves db) ds →
  ∃ db', forEach ds (Dispense.applyLine now by_) db = inr ((), db').
Proof.
  induction ds as [|d ds IH]; simpl; intros db Hall.
  - tx_unfold. eauto.
  - apply Forall_cons in Hall as [[Hi Hp] Hall].
    destruct (applyLine_total now by_ d db Hi Hp) as [db1 Hd].
    tx_unfold. rewrite Hd.
    apply IH. eapply Forall_impl; [exact Hall|].
    intros d' Hd'. apply (line_resolves_frame db db1); [|exact Hd'].
    eapply applyLine_frame, Hd.
Qed.

(** What a committed dispensing has done, read off the callback. *)
Lemma callback_inr now pid body db res db' :
  Dispense.callback now pid body db = inr (res, db') →
  ∃ rx items db2,
    prescriptions db !! pid = Some rx ∧
    Prescription.isDeleted rx = false ∧
    Prescription.status rx = pending ∧
    mapM (include_product db) (itemsOf db pid) = Some items ∧
    Forall (λ d, ¬ unknown_item db pid d ∧ ¬ insufficient_stock db pid d)
           (Dispense.dispensedItems body) ∧
    let all := Nat.eqb (length (Dispense.dispensedItems body)) (length items) in
    let receipt :=
      {| DrugDispensal.dispensalNo := Dispense.generateDispensalNo now;
         DrugDispensal.prescriptionId := pid;
         DrugDispensal.prescriptionNo := Prescription.prescriptionNo rx;
         DrugDispensal.studentId := Prescription.studentId rx;
         DrugDispensal.dispensedBy := Dispense.dispensedBy body;
         DrugDispensal.dispensedItems := Dispense.dispensedItems body;
         DrugDispensal.totalAmount := Dispense.totalAmount body;
         DrugDispensal.notes := Dispense.notes body |} in
    forEach (Dispense.dispensedItems body)
            (Dispense.applyLine now (Dispense.dispensedBy body))
            (set_drugDispensals (drugDispensals db ++ [receipt]) db)
      = inr ((), db2) ∧
    products db' = products db2 ∧
    prescriptionItems db' = prescriptionItems db2 ∧
    prescriptions db' =
      <[pid := Dispense.markPrescription now body all rx]> (prescriptions db) ∧
    drugDispensals db' = (drugDispensals db ++ [receipt])%list ∧
    (if Dispense.positive (Dispense.amountPaid body)
     then ∃ payment, balanceTransactions db' = (balanceTransactions db ++ [payment])%list ∧
                     BalanceTransaction.amount payment = Dispense.amountPaid body ∧
                     BalanceTransaction.prescriptionId payment = pid
     else balanceTransactions db' = balanceTransactions db) ∧
    Dispense.dispensal res = receipt ∧
    Dispense.prescription res = rx ∧
    Dispense.status res = (if all then dispensed else partially_dispensed).
Proof.
  unfold Dispense.callback, Dispense.findUnique. tx_unfold.
  destruct (prescriptions db !! pid) as [rx|] eqn:Hrx; [|discriminate].
  destruct (Prescription.isDeleted rx) eqn:Hdel; [discriminate|].
  destruct (mapM (include_product db) (itemsOf db pid)) as [items|] eqn:Hitems;
    [|discriminate].
  destruct (bool_decide (Prescription.status rx = pending)) eqn:Hst;
    simpl; [|discriminate].
  apply bool_decide_eq_true in Hst.
  destruct (verify_cases db pid items Hitems (Dispense.dispensedItems body) db)
    as [(Hv & Hall)|((e & He) & _)]; [|rewrite He; discriminate].
  rewrite Hv. unfold drugDispensal_create.
  match goal with
  | |- context [forEach ?ds ?f ?d] => destruct (forEach ds f d) as [e|[[] db2]] eqn:Hloop
  end; [discriminate|].
  destruct (apply_all_inr _ _ _ _ _ _ Hloop) as [(Hf1 & Hf2 & Hf3 & _ & _) _].
  simpl in Hf1, Hf2, Hf3.
  unfold prescription_update. rewrite Hf1, Hrx.
  unfold balanceTransaction_create.
  intros H. exists rx, items, db2.
  do 5 (split; [first [assumption|reflexivity]|]).
  split; [exact Hloop|].
  destruct (Dispense.positive (Dispense.amountPaid body));
    injection H as <- <-; simpl; rewrite ?Hf1, ?Hf2, ?Hf3;
    repeat split; eauto.
Qed.

(** When every check passes and every request line names an existing
    product row, the transaction commits. *)
Lemma callback_total now pid body db rx :
  prescriptions db !! pid = Some rx →
  Prescription.isDeleted rx = false →
  Prescription.status rx = pending →
  is_Some (mapM (include_product db) (itemsOf db pid)) →
  Forall (λ d, ¬ unknown_item db pid d ∧ ¬ insufficient_stock db pid d)
         (Dispense.dispensedItems body) →
  Forall (λ d, is_Some (products db !! DispensedItem.productId d))
         (Dispense.dispensedItems body) →
  ∃ res db', Dispense.callback now pid body db = inr (res, db').
Proof.
  intros Hrx Hdel Hst [items Hitems] Hok Hprod.
  unfold Dispense.callback, Dispense.findUnique. tx_unfold.
  rewrite Hrx, Hdel, Hitems.
  rewrite (bool_decide_eq_true_2 _ Hst). simpl.
  rewrite (verify_all_ok db pid items Hitems _ db Hok).
  unfold drugDispensal_create.
  match goal with
  | |- context [forEach ?ds ?f ?d] =>
      destruct (apply_all_total now (Dispense.dispensedBy body) ds d) as [db2 Hloop]
  end.
  { rewrite Forall_forall in Hok, Hprod. apply Forall_forall. intros d Hd.
    split; [|apply Hprod, Hd]. simpl.
    destruct (Hok d Hd) as [Hu _]. unfold unknown_item in Hu.
    destruct (prescriptionItems db !! DispensedItem.itemId d); [eauto|].
    exfalso. apply Hu. exact I. }
  rewrite Hloop.
  destruct (apply_all_inr _ _ _ _ _ _ Hloop) as [(Hf1 & _) _]. simpl in Hf1.
  unfold prescription_update. rewrite Hf1, Hrx.
  unfold balanceTransaction_create.
  destruct (Dispense.positive (Dispense.amountPaid body)); eauto.
Qed.

(** A failed precondition makes the callback throw. *)
Lemma callback_precondition now pid body db :
  precondition_fails db pid body →
  ∃ e, Dispense.callback now pid body db = inl e.
Proof.
  intros Hpre.
  destruct (Dispense.callback now pid body db) as [e|[res db']] eqn:Hcb; [eauto|].
  exfalso.
  apply callback_inr in Hcb
    as (rx & items & db2 & Hrx & Hdel & Hst & _ & Hok & _).
  destruct Hpre as [Hl|[Hp|[Hu|Hs]]].
  - unfold not_live in Hl. rewrite Hrx in Hl. congruence.
  - unfold not_pending in Hp. rewrite Hrx in Hp. congruence.
  - apply Exists_exists in Hu as (d & Hd & Hu).
    rewrite Forall_forall in Hok. destruct (Hok d Hd) as [Hnu _]. contradiction.
  - apply Exists_exists in Hs as (d & Hd & Hs).
    rewrite Forall_forall in Hok. destruct (Hok d Hd) as [_ Hns]. contradiction.
Qed.

Lemma POST_error now pid body db e :
  Dispense.callback now pid body db = inl e →
  Dispense.POST now pid body db = (db, Dispense.Error500 e).
Proof. intros H. unfold Dispense.POST, transaction. rewrite H. reflexivity. Qed.

Lemma POST_cases now pid body db :
  (∃ e, Dispense.callback now pid body db = inl e ∧
        Dispense.POST now pid body db = (db, Dispense.Error500 e)) ∨
  (∃ res db' data,
        Dispense.callback now pid body db = inr (res, db') ∧
        Dispense.POST now pid body db
          = (db', Dispense.Ok "Prescription dispensed successfully" data) ∧
        Dispense.data_dispensalNo data
          = DrugDispensal.dispensalNo (Dispense.dispensal res) ∧
        Dispense.data_prescriptionNo data
          = Prescription.prescriptionNo (Dispense.prescription res) ∧
        Dispense.studentName data
          = Student.firstName (Prescription.student (Dispense.prescription res))
              +:+ " "
              +:+ Student.lastName (Prescription.student (Dispense.prescription res)) ∧
        Dispense.data_totalAmount data = Dispense.totalAmount body ∧
        Dispense.data_amountPaid data = Dispense.amountPaid body ∧
        Dispense.change data
          = (Dispense.amountPaid body - Dispense.totalAmount body)%Q).
Proof.
  unfold Dispense.POST, transaction.
  destruct (Dispense.callback now pid body db) as [e|[res db']].
  - left. eauto.
  - right. do 3 eexists. split; [reflexivity|]. split; [reflexivity|].
    simpl. repeat split; reflexivity.
Qed.

(** C1: when a precondition of the dispensing fails (the prescription is not
    found or is soft-deleted, its status is not pending, a requested item id
    does not belong to the prescription, or the stock of a requested item's
    product is insufficient), the route answers with an error and the
    database after it is the database before it: the prescription status,
    every prescription item row and every product quantity are unchanged,
    and no DrugDispensal and no BalanceTransaction row is created. *)
Theorem dispense_failure_changes_nothing now pid body db :
  precondition_fails db pid body →
  (∃ error, Dispense.POST now pid body db = (db, Dispense.Error500 error)) ∧
  let db' := (Dispense.POST now pid body db).1 in
  prescriptions db' = prescriptions db ∧
  prescriptionItems db' = prescriptionItems db ∧
  products db' = products db ∧
  drugDispensals db' = drugDispensals db ∧
  balanceTransactions db' = balanceTransactions db.
Proof.
  intros Hpre.
  destruct (callback_precondition now pid body db Hpre) as [e He].
  rewrite (POST_error _ _ _ _ _ He). simpl.
  split; [eauto|]. repeat split; reflexivity.
Qed.

Lemma dispense_failure_changes_nothing_witness :
  let body := mkBody [line "item-A" 3 "prod-A"; line "item-B" 2 "prod-B"] 50 50 in
  precondition_fails sample_db "rx-1" body ∧
  ∃ error, Dispense.POST noon "rx-1" body sample_db
           = (sample_db, Dispense.Error500 error).
Proof.
  assert (H : precondition_fails sample_db "rx-1"
                (mkBody [line "item-A" 3 "prod-A"; line "item-B" 2 "prod-B"] 50 50)).
  { apply (bool_decide_unpack _). vm_compute. exact I. }
  split; [exact H|].
  exact (proj1 (dispense_failure_changes_nothing noon "rx-1" _ sample_db H)).
Defined.

(** The scenario of the specification: both items requested, the second
    short of stock; the request is rejected with the message naming the
    product, product A keeps 5 and the prescription stays pending. *)
Example dispense_scenario_rejected :
  let body := mkBody [line "item-A" 3 "prod-A"; line "item-B" 2 "prod-B"] 50 50 in
  Dispense.POST noon "rx-1" body sample_db =
    (sample_db,
     Dispense.Error500 "Insufficient stock for Amoxicillin. Available: 1, Required: 2").
Proof. vm_compute. reflexivity. Qed.

Lemma not_precondition_fails db pid body :
  ¬ precondition_fails db pid body →
  ∃ rx, prescriptions db !! pid = Some rx ∧
        Prescription.isDeleted rx = false ∧
        Prescription.status rx = pending ∧
        Forall (λ d, ¬ unknown_item db pid d ∧ ¬ insufficient_stock db pid d)
               (Dispense.dispensedItems body).
Proof.
  intros Hn. unfold precondition_fails, not_live, not_pending in Hn.
  destruct (prescriptions db !! pid) as [rx|]; [|tauto].
  exists rx. split; [reflexivity|].
  split; [destruct (Prescription.isDeleted rx); tauto|].
  split; [destruct (decide (Prescription.status rx = pending)); tauto|].
  apply Forall_forall. intros d Hd. split; intros Hbad; apply Hn.
  - right. right. left. apply Exists_exists. eauto.
  - right. right. right. apply Exists_exists. eauto.
Qed.

(** C2, as stated, fails: the request below names item-A of the pending
    prescription with 3 of 5 on hand, so none of the four conditions holds,
    and the transaction still fails, because the line's productId names no
    product row and the update of that row raises. *)
Lemma dispense_fails_on_unknown_product :
  let body := mkBody [line "item-A" 3 "ghost"] 30 30 in
  Dispense.POST noon "rx-1" body sample_db
    = (sample_db, Dispense.Error500 recordNotFound) ∧
  ¬ precondition_fails sample_db "rx-1" body ∧
  ¬ (is_error (Dispense.POST noon "rx-1" body sample_db).2 ↔
     precondition_fails sample_db "rx-1" body).
Proof.
  assert (Hn : ¬ precondition_fails sample_db "rx-1"
                   (mkBody [line "item-A" 3 "ghost"] 30 30)).
  { apply (bool_decide_unpack _). vm_compute. exact I. }
  split; [vm_compute; reflexivity|].
  split; [exact Hn|].
  intros [H _]. apply Hn, H. vm_compute. exact I.
Qed.

(** C2, amended: in a database where every item row references a product
    row, the dispensing transaction fails if and only if the prescription
    does not exist as a live record, or its status is not pending, or some
    requested item id is not in the prescription's item set, or some
    requested item's product has less on hand than the requested quantity,
    or some request line's productId names no product row.  When the first
    request line that fails a check fails the stock check, the error is
    "Insufficient stock for <name>. Available: <on hand>, Required:
    <requested>". *)
Theorem dispense_fails_iff now pid body db :
  fk_integrity db →
  (is_error (Dispense.POST now pid body db).2 ↔
     precondition_fails db pid body ∨ unknown_product db body) ∧
  (∀ rx pre d post row p,
     prescriptions db !! pid = Some rx →
     Prescription.isDeleted rx = false →
     Prescription.status rx = pending →
     Dispense.dispensedItems body = (pre ++ d :: post)%list →
     Forall (λ d, ¬ unknown_item db pid d ∧ ¬ insufficient_stock db pid d) pre →
     prescriptionItems db !! DispensedItem.itemId d = Some row →
     PrescriptionItem.prescriptionId row = pid →
     products db !! PrescriptionItem.productId row = Some p →
     Product.quantity p < DispensedItem.quantityDispensed d →
     Dispense.POST now pid body db =
       (db, Dispense.Error500
              ("Insufficient stock for " +:+ Product.name p
                 +:+ ". Available: " +:+ string_of_Z (Product.quantity p)
                 +:+ ", Required: "
                 +:+ string_of_Z (DispensedItem.quantityDispensed d)))).
Proof.
  intros Hfk. split.
  - split.
    + intros Herr.
      destruct (decide (precondition_fails db pid body)) as [Hpre|Hpre]; [auto|].
      destruct (decide (unknown_product db body)) as [Hup|Hup]; [auto|].
      exfalso.
      destruct (not_precondition_fails _ _ _ Hpre) as (rx & Hrx & Hdel & Hst & Hok).
      destruct (callback_total now pid body db rx Hrx Hdel Hst
                  (fk_integrity_include db pid Hfk) Hok) as (res & db' & Hcb).
      { apply Forall_forall. intros d Hd.
        destruct (products db !! DispensedItem.productId d) eqn:Hp; [eauto|].
        exfalso. apply Hup. apply Exists_exists. eauto. }
      destruct (POST_cases now pid body db)
        as [(e & He & _)|(res' & db'' & data & _ & Hpost & _)]; [congruence|].
      rewrite Hpost in Herr. exact Herr.
    + intros Hbad.
      destruct (POST_cases now pid body db)
        as [(e & _ & Hpost)|(res & db' & data & Hcb & _)].
      { rewrite Hpost. exact I. }
      exfalso. destruct Hbad as [Hpre|Hup].
      * destruct (callback_precondition now pid body db Hpre) as [e He]. congruence.
      * apply callback_inr in Hcb
          as (rx & items & db2 & _ & _ & _ & _ & _ & Hloop & _).
        apply apply_all_inr in Hloop as [_ Hall].
        apply Exists_exists in Hup as (d & Hd & Hnone).
        rewrite Forall_forall in Hall. destruct (Hall d Hd) as [_ [p Hp]].
        simpl in Hp. congruence.
  - intros rx pre d post row p Hrx Hdel Hst Hds Hpre Hrow Hpid Hp Hlt.
    apply POST_error.
    destruct (fk_integrity_include db pid Hfk) as [items Hitems].
    unfold Dispense.callback, Dispense.findUnique. tx_unfold.
    rewrite Hrx, Hdel, Hitems, (bool_decide_eq_true_2 _ Hst). simpl.
    rewrite Hds.
    rewrite (verify_first_failure db pid items Hitems pre d post db _ Hpre
               (verifyLine_insufficient db pid items Hitems d db row p
                  Hrow Hpid Hp Hlt)).
    reflexivity.
Qed.

Lemma dispense_fails_iff_witness :
  let body := mkBody [line "item-A" 3 "prod-A"; line "item-B" 2 "prod-B"] 50 50 in
  fk_integrity sample_db ∧
  is_error (Dispense.POST noon "rx-1" body sample_db).2 ∧
  Dispense.POST noon "rx-1" body sample_db =
    (sample_db,
     Dispense.Error500
       ("Insufficient stock for " +:+ "Amoxicillin"
          +:+ ". Available: " +:+ string_of_Z 1
          +:+ ", Required: " +:+ string_of_Z 2)).
Proof.
  assert (Hfk : fk_integrity sample_db).
  { apply (bool_decide_unpack _). vm_compute. exact I. }
  pose proof (dispense_fails_iff noon "rx-1"
                (mkBody [line "item-A" 3 "prod-A"; line "item-B" 2 "prod-B"] 50 50)
                sample_db Hfk) as [Hiff Hmsg].
  split; [exact Hfk|]. split.
  - apply Hiff. left. apply (bool_decide_unpack _). vm_compute. exact I.
  - apply (Hmsg (mkPrescription "RX-001" normal pending 1000)
                [line "item-A" 3 "prod-A"] (line "item-B" 2 "prod-B") []
                (mkItem "rx-1" "prod-B" 2) (mkProduct "Amoxicillin" 1 None));
      try reflexivity.
    repeat constructor; apply (bool_decide_unpack _); vm_compute; exact I.
Defined.

(** C7, as stated, fails: dispensing item-A for a total of 30 with nothing
    paid succeeds, and the change in the response is -30, not 0. *)
Lemma dispense_change_negative :
  let body := mkBody [line "item-A" 3 "prod-A"] 30 0 in
  ∃ db' message data,
    Dispense.POST noon "rx-1" body sample_db = (db', Dispense.Ok message data) ∧
    (Dispense.change data < 0)%Q ∧
    ¬ (Dispense.change data ==
       Qmax 0 (Dispense.amountPaid body - Dispense.totalAmount body))%Q.
Proof.
  simpl. do 3 eexists. split; [vm_compute; reflexivity|].
  simpl. split; [reflexivity|]. intros H. vm_compute in H. discriminate H.
Qed.

(** C7, amended: the response of a successful dispensing carries the receipt
    number of the DrugDispensal row it created, the prescription number, the
    student's name, the total and the amount paid as received, and a change
    equal to amountPaid - totalAmount, which is negative when less than the
    total was paid.  The new status of the prescription is stored on the
    prescription row and is not a field of the response. *)
Theorem dispense_response now pid body db db' message data :
  Dispense.POST now pid body db = (db', Dispense.Ok message data) →
  ∃ receipt rx rx',
    drugDispensals db' = (drugDispensals db ++ [receipt])%list ∧
    DrugDispensal.prescriptionId receipt = pid ∧
    Dispense.data_dispensalNo data = DrugDispensal.dispensalNo receipt ∧
    DrugDispensal.dispensalNo receipt = Dispense.generateDispensalNo now ∧
    prescriptions db !! pid = Some rx ∧
    Dispense.data_prescriptionNo data = Prescription.prescriptionNo rx ∧
    Dispense.studentName data
      = Student.firstName (Prescription.student rx) +:+ " "
          +:+ Student.lastName (Prescription.student rx) ∧
    Dispense.data_totalAmount data = Dispense.totalAmount body ∧
    Dispense.data_amountPaid data = Dispense.amountPaid body ∧
    Dispense.change data = (Dispense.amountPaid body - Dispense.totalAmount body)%Q ∧
    prescriptions db' !! pid = Some rx' ∧
    Prescription.status rx' ≠ pending.
Proof.
  intros Hpost.
  destruct (POST_cases now pid body db)
    as [(e & _ & He)|(res & db2 & data' & Hcb & Hok & Hno & Hpn & Hname & Ht & Hp & Hc)];
    [congruence|].
  rewrite Hok in Hpost. injection Hpost as <- <- <-.
  apply callback_inr in Hcb
    as (rx & items & db3 & Hrx & _ & _ & _ & _ & _ & _ & _ & Hrxs & Hdd & _
        & Hres & Hresrx & _).
  eexists _, rx, _.
  split; [exact Hdd|].
  rewrite Hno, Hpn, Hname, Hres, Hresrx, Hrxs, lookup_insert_eq. simpl.
  repeat split; try assumption; try reflexivity.
  destruct (_ =? _)%nat; discriminate.
Qed.

Lemma dispense_response_witness :
  let body := mkBody [line "item-A" 3 "prod-A"] 30 50 in
  ∃ db' message data,
    Dispense.POST noon "rx-1" body sample_db = (db', Dispense.Ok message data) ∧
    Dispense.data_dispensalNo data = "DISP-2026-123456" ∧
    Dispense.change data = (50 - 30)%Q.
Proof.
  simpl. do 3 eexists.
  assert (Hpost : Dispense.POST noon "rx-1" (mkBody [line "item-A" 3 "prod-A"] 30 50)
                    sample_db
                  = ((Dispense.POST noon "rx-1" (mkBody [line "item-A" 3 "prod-A"] 30 50)
                        sample_db).1,
                     Dispense.Ok "Prescription dispensed successfully"
                       {| Dispense.data_dispensalNo := "DISP-2026-123456";
                          Dispense.data_prescriptionNo := "RX-001";
                          Dispense.studentName := "Ada Obi";
                          Dispense.data_totalAmount := 30;
                          Dispense.data_amountPaid := 50;
                          Dispense.change := (50 - 30)%Q |})).
  { vm_compute. reflexivity. }
  split; [exact Hpost|].
  destruct (dispense_response _ _ _ _ _ _ _ Hpost)
    as (receipt & rx & rx' & _ & _ & Hno & Hgen & _ & _ & _ & _ & _ & Hc & _).
  split; [rewrite Hno, Hgen; reflexivity|exact Hc].
Defined.

(** The scenario of the specification: dispensing only item-A (3 of 5 on
    hand) of the two-item pending prescription succeeds, product A is left
    with 2, the prescription becomes partially_dispensed and one receipt
    with one line is created. *)
Example dispense_scenario_partial :
  let body := mkBody [line "item-A" 3 "prod-A"] 30 30 in
  let db' := (Dispense.POST noon "rx-1" body sample_db).1 in
  ¬ is_error (Dispense.POST noon "rx-1" body sample_db).2 ∧
  Product.quantity <$> products db' !! "prod-A" = Some 2 ∧
  Prescription.status <$> prescriptions db' !! "rx-1" = Some partially_dispensed ∧
  DrugDispensal.dispensedItems <$> drugDispensals db'
    = [[line "item-A" 3 "prod-A"]].
Proof. vm_compute. repeat split; auto. Qed.

(** ** Status transition *)

Lemma NoDup_itemsOf db pid : NoDup (itemsOf db pid).*1.
Proof.
  unfold itemsOf.
  eapply sublist_NoDup; [apply (NoDup_fst_map_to_list (prescriptionItems db))|].
  apply fmap_sublist, sublist_filter.
Qed.

Lemma elem_of_itemsOf_fst db pid i :
  i ∈ (itemsOf db pid).*1 ↔
  ∃ row, prescriptionItems db !! i = Some row ∧
         PrescriptionItem.prescriptionId row = pid.
Proof.
  rewrite list_elem_of_fmap. split.
  - intros ([j row] & -> & Hin). apply elem_of_itemsOf in Hin. eauto.
  - intros (row & Hrow & Hpid). exists (i, row). split; [reflexivity|].
    apply elem_of_itemsOf. auto.
Qed.

(** With no item named twice, the count comparison of line 105 decides
    whether every item of the prescription is dispensed. *)
Lemma allItemsDispensed_iff db pid body items :
  mapM (include_product db) (itemsOf db pid) = Some items →
  Forall (λ d, ¬ unknown_item db pid d ∧ ¬ insufficient_stock db pid d)
         (Dispense.dispensedItems body) →
  NoDup (requested body) →
  Nat.eqb (length (Dispense.dispensedItems body)) (length items) = true ↔
  dispenses_all db pid body.
Proof.
  intros Hitems Hok Hnd.
  assert (Hlen : length items = length (itemsOf db pid).*1).
  { rewrite length_fmap. symmetry. eapply length_mapM, Hitems. }
  assert (Hreq : length (Dispense.dispensedItems body) = length (requested body)).
  { unfold requested. rewrite length_fmap. reflexivity. }
  assert (Hsub : requested body ⊆+ (itemsOf db pid).*1).
  { apply NoDup_submseteq; [exact Hnd|].
    intros i Hi. unfold requested in Hi.
    apply list_elem_of_fmap in Hi as (d & -> & Hd).
    rewrite Forall_forall in Hok. destruct (Hok d Hd) as [Hu _].
    apply elem_of_itemsOf_fst. unfold unknown_item in Hu.
    destruct (prescriptionItems db !! DispensedItem.itemId d) as [row|];
      [|exfalso; apply Hu; exact I].
    exists row. split; [reflexivity|].
    destruct (decide (PrescriptionItem.prescriptionId row = pid)); tauto. }
  rewrite Nat.eqb_eq, Hlen, Hreq. split.
  - intros Heq i row Hrow Hpid.
    assert (Hperm : requested body ≡ₚ (itemsOf db pid).*1).
    { apply submseteq_length_Permutation; [exact Hsub|lia]. }
    rewrite Hperm. apply elem_of_itemsOf_fst. eauto.
  - intros Hall. apply Nat.le_antisymm; [apply submseteq_length, Hsub|].
    apply submseteq_length, NoDup_submseteq; [apply NoDup_itemsOf|].
    intros i Hi. apply elem_of_itemsOf_fst in Hi as (row & Hrow & Hpid).
    eapply Hall; eassumption.
Qed.

(** C4, as stated, fails: the request names item-A twice, so the dispensed
    items are a strict subset of the two items of the prescription (item-B
    is left out and stays undispensed), yet the two request lines equal the
    item count and the prescription becomes dispensed. *)
Lemma dispense_duplicate_line_marks_dispensed :
  let body := mkBody [line "item-A" 2 "prod-A"; line "item-A" 2 "prod-A"] 40 40 in
  let r := Dispense.POST noon "rx-1" body sample_db in
  ¬ is_error r.2 ∧
  leaves_item_out sample_db "rx-1" body ∧
  Prescription.status <$> prescriptions r.1 !! "rx-1" = Some dispensed ∧
  PrescriptionItem.isDispensed <$> prescriptionItems r.1 !! "item-B" = Some false.
Proof.
  simpl. split; [vm_compute; auto|].
  split.
  - exists "item-B", (mkItem "rx-1" "prod-B" 2).
    split; [reflexivity|]. split; [reflexivity|].
    intros Hin. vm_compute in Hin.
    apply elem_of_cons in Hin as [Heq|Hin]; [discriminate|].
    apply elem_of_cons in Hin as [Heq|Hin]; [discriminate|].
    inversion Hin.
  - split; vm_compute; reflexivity.
Qed.

(** C4, amended: no request moves a prescription back to pending (a
    prescription that is pending afterwards is the row it was before), and
    for every successful dispensing whose request names no item twice: the
    prescription was pending; if the dispensed items are all of its items,
    its status becomes dispensed and dispensedAt and dispensedBy are set on
    it; if some item is left out, its status becomes partially_dispensed and
    dispensedAt and dispensedBy are left as they were. *)
Theorem dispense_status_transition now pid body db db' resp :
  Dispense.POST now pid body db = (db', resp) →
  (∀ q rx', prescriptions db' !! q = Some rx' →
            Prescription.status rx' = pending →
            prescriptions db !! q = Some rx') ∧
  (¬ is_error resp → NoDup (requested body) →
   ∃ rx rx',
     prescriptions db !! pid = Some rx ∧
     Prescription.status rx = pending ∧
     prescriptions db' !! pid = Some rx' ∧
     (dispenses_all db pid body →
        Prescription.status rx' = dispensed ∧
        Prescription.dispensedAt rx' = Some (getTime now) ∧
        Prescription.dispensedBy rx' = Some (Dispense.dispensedBy body)) ∧
     (leaves_item_out db pid body →
        Prescription.status rx' = partially_dispensed ∧
        Prescription.dispensedAt rx' = Prescription.dispensedAt rx ∧
        Prescription.dispensedBy rx' = Prescription.dispensedBy rx)).
Proof.
  intros Hpost.
  destruct (POST_cases now pid body db)
    as [(e & _ & He)|(res & db2 & data & Hcb & Hok & _)];
    rewrite Hpost in *.
  { injection He as -> ->. split; [auto|]. intros Hne. exfalso. apply Hne. exact I. }
  injection Hok as -> ->.
  apply callback_inr in Hcb
    as (rx & items & db3 & Hrx & _ & Hst & Hitems & Hlines & _ & _ & _ & Hrxs & _).
  split.
  - intros q rx' Hq Hpend. rewrite Hrxs in Hq.
    destruct (decide (pid = q)) as [->|Hne].
    + rewrite lookup_insert_eq in Hq. injection Hq as <-. simpl in Hpend.
      destruct (_ =? _)%nat; discriminate.
    + rewrite lookup_insert_ne in Hq by exact Hne. exact Hq.
  - intros _ Hnd. eexists rx, _. split; [exact Hrx|]. split; [exact Hst|].
    rewrite Hrxs, lookup_insert_eq. split; [reflexivity|].
    pose proof (allItemsDispensed_iff db pid body items Hitems Hlines Hnd) as Hiff.
    split.
    + intros Hall. apply Hiff in Hall. simpl. rewrite Hall. auto.
    + intros (i & row & Hrow & Hpid & Hout). simpl.
      destruct (_ =? _)%nat eqn:Hcount; [|auto].
      exfalso. apply Hout. eapply (proj1 Hiff); eauto.
Qed.

Lemma dispense_status_transition_witness :
  let body := mkBody [line "item-A" 3 "prod-A"] 30 30 in
  let r := Dispense.POST noon "rx-1" body sample_db in
  ¬ is_error r.2 ∧ NoDup (requested body) ∧ leaves_item_out sample_db "rx-1" body ∧
  Prescription.status <$> prescriptions r.1 !! "rx-1" = Some partially_dispensed.
Proof.
  simpl.
  assert (Herr : ¬ is_error (Dispense.POST noon "rx-1"
                    (mkBody [line "item-A" 3 "prod-A"] 30 30) sample_db).2).
  { vm_compute. auto. }
  assert (Hnd : NoDup (requested (mkBody [line "item-A" 3 "prod-A"] 30 30))).
  { apply (bool_decide_unpack _). vm_compute. exact I. }
  assert (Hout : leaves_item_out sample_db "rx-1"
                   (mkBody [line "item-A" 3 "prod-A"] 30 30)).
  { exists "item-B", (mkItem "rx-1" "prod-B" 2).
    split; [reflexivity|]. split; [reflexivity|].
    intros Hin. vm_compute in Hin.
    apply elem_of_cons in Hin as [Heq|Hin]; [discriminate|inversion Hin]. }
  do 3 (split; [assumption|]).
  destruct (dispense_status_transition noon "rx-1"
              (mkBody [line "item-A" 3 "prod-A"] 30 30) sample_db _ _
              (surjective_pairing _)) as [_ H].
  destruct (H Herr Hnd) as (rx & rx' & _ & _ & Hrx' & _ & Hpart).
  rewrite Hrx'. simpl. f_equal. exact (proj1 (Hpart Hout)).
Defined.

(** ** Stock summary *)

Lemma isLow_threshold (p : Product.t) :
  Stock.isLow p = true ↔ Product.quantity p ≤ Stock.reorderThreshold p.
Proof.
  unfold Stock.isLow, Stock.reorderThreshold, truthy, or_default.
  destruct (Product.reorderLevel p) as [v|]; simpl.
  - destruct (Z.eqb_spec v 0); simpl; apply Z.leb_le.
  - apply Z.leb_le.
Qed.

Lemma length_filter_split {A} (P P0 P1 : A → Prop)
    `{!∀ x, Decision (P x)} `{!∀ x, Decision (P0 x)} `{!∀ x, Decision (P1 x)}
    (l : list A) :
  (∀ x, P x ↔ P0 x ∨ P1 x) → (∀ x, ¬ (P0 x ∧ P1 x)) →
  length (filter P l) = (length (filter P0 l) + length (filter P1 l))%nat.
Proof.
  intros Hor Hdisj. induction l as [|x l IH]; [reflexivity|].
  rewrite !filter_cons. specialize (Hor x). specialize (Hdisj x).
  destruct (decide (P x)); destruct (decide (P0 x)); destruct (decide (P1 x));
    simpl; try lia; tauto.
Qed.

Lemma length_filter_le {A} (P Q : A → Prop)
    `{!∀ x, Decision (P x)} `{!∀ x, Decision (Q x)} (l : list A) :
  (∀ x, P x → Q x) → (length (filter P l) ≤ length (filter Q l))%nat.
Proof.
  intros Himp. induction l as [|x l IH]; [reflexivity|].
  rewrite !filter_cons.
  destruct (decide (P x)) as [HP|HP]; destruct (decide (Q x)) as [HQ|HQ];
    simpl; try lia.
  exfalso. auto.
Qed.

(** C9, as stated, fails in its last part: with the threshold read as the
    reorder level, and 10 when it is absent, a product with quantity 5 and
    reorder level 0 is not low stock, and the response counts it (its
    threshold is 10): lowStock is 2 where that rule counts 1. *)
Lemma stock_summary_zero_reorder_level :
  ∃ body,
    Stock.GET 0 all_stock stock_table = Stock.Ok body ∧
    Stock.lowStock (Stock.body_summary body) = 2 ∧
    Stock.count (λ r, Product.isDeleted r.2 = false ∧
                      0 < Product.quantity r.2
                        ≤ spec_threshold (Product.reorderLevel r.2))
                stock_table = 1 ∧
    Stock.lowStock (Stock.body_summary body) ≠
    Stock.count (λ r, Product.isDeleted r.2 = false ∧
                      0 < Product.quantity r.2
                        ≤ spec_threshold (Product.reorderLevel r.2))
                stock_table.
Proof.
  destruct (Stock.GET 0 all_stock stock_table) as [body|e] eqn:H;
    [|vm_compute in H; discriminate H].
  exists body. split; [reflexivity|].
  assert (Hlow : Stock.lowStock (Stock.body_summary body) = 2).
  { vm_compute in H. injection H as <-. reflexivity. }
  assert (Hspec : Stock.count (λ r, Product.isDeleted r.2 = false ∧
                      0 < Product.quantity r.2
                        ≤ spec_threshold (Product.reorderLevel r.2))
                    stock_table = 1).
  { vm_compute. reflexivity. }
  split; [exact Hlow|]. split; [exact Hspec|].
  rewrite Hlow, Hspec. discriminate.
Qed.

(** C9, amended: in every stock-levels response, inStock + outOfStock = totalDrugs
    and lowStock <= inStock; totalDrugs counts the non-deleted products,
    outOfStock those with quantity 0, inStock is totalDrugs - outOfStock
    (the non-deleted products whose quantity is not 0, low stock included),
    and lowStock counts the non-deleted products with 0 < quantity <=
    threshold, the threshold being the reorder level when it is present and
    not 0, and 10 when it is absent or 0. *)
Theorem stock_summary now q (table : gmap string Product.t) body :
  Stock.GET now q table = Stock.Ok body →
  let s := Stock.body_summary body in
  Stock.inStock s + Stock.outOfStock s = Stock.totalDrugs s ∧
  Stock.lowStock s ≤ Stock.inStock s ∧
  Stock.totalDrugs s = Stock.count (λ r, Product.isDeleted r.2 = false) table ∧
  Stock.outOfStock s =
    Stock.count (λ r, Product.isDeleted r.2 = false ∧ Product.quantity r.2 = 0)
                table ∧
  Stock.inStock s = Stock.totalDrugs s - Stock.outOfStock s ∧
  Stock.inStock s =
    Stock.count (λ r, Product.isDeleted r.2 = false ∧ Product.quantity r.2 ≠ 0)
                table ∧
  Stock.lowStock s =
    Stock.count (λ r, Product.isDeleted r.2 = false ∧
                      0 < Product.quantity r.2 ≤ Stock.reorderThreshold r.2)
                table.
Proof.
  intros H. apply stock_GET_Ok in H as [-> _].
  unfold Stock.summary, Stock.count, Stock.findMany. simpl.
  set (l := map_to_list table).
  assert (Hout : length (filter (λ r : string * Product.t,
                           Product.quantity r.2 = 0 ∧ Product.isDeleted r.2 = false) l)
                 = length (filter (λ r : string * Product.t,
                           Product.isDeleted r.2 = false ∧ Product.quantity r.2 = 0) l)).
  { f_equal. apply list_filter_iff. intros r. tauto. }
  assert (Hlow : length (filter (λ r : string * Product.t, Stock.isLow r.2 = true)
                   (filter (λ r : string * Product.t,
                              Product.isDeleted r.2 = false ∧ 0 < Product.quantity r.2) l))
                 = length (filter (λ r : string * Product.t,
                             Product.isDeleted r.2 = false ∧
                             0 < Product.quantity r.2 ≤ Stock.reorderThreshold r.2) l)).
  { f_equal. rewrite list_filter_filter. apply list_filter_iff. intros r.
    rewrite isLow_threshold. tauto. }
  assert (Hsplit : length (filter (λ r : string * Product.t,
                                     Product.isDeleted r.2 = false) l)
                   = Nat.add
                       (length (filter (λ r : string * Product.t,
                           Product.isDeleted r.2 = false ∧ Product.quantity r.2 = 0) l))
                       (length (filter (λ r : string * Product.t,
                           Product.isDeleted r.2 = false ∧ Product.quantity r.2 ≠ 0) l))).
  { apply length_filter_split; intros r; [|tauto].
    destruct (decide (Product.quantity r.2 = 0)); tauto. }
  assert (Hle : Nat.le
                  (length (filter (λ r : string * Product.t,
                     Product.isDeleted r.2 = false ∧
                     0 < Product.quantity r.2 ≤ Stock.reorderThreshold r.2) l))
                  (length (filter (λ r : string * Product.t,
                     Product.isDeleted r.2 = false ∧ Product.quantity r.2 ≠ 0) l))).
  { apply length_filter_le. intros r [Hd [Hq _]]. split; [exact Hd|lia]. }
  rewrite Hout, Hlow.
  repeat split; lia.
Qed.

Lemma stock_summary_witness :
  ∃ body,
    Stock.GET 0 all_stock stock_table = Stock.Ok body ∧
    Stock.body_summary body
      = {| Stock.totalDrugs := 4; Stock.inStock := 3; Stock.lowStock := 2;
           Stock.outOfStock := 1 |} ∧
    Stock.inStock (Stock.body_summary body) + Stock.outOfStock (Stock.body_summary body)
      = Stock.totalDrugs (Stock.body_summary body).
Proof.
  destruct (Stock.GET 0 all_stock stock_table) as [body|e] eqn:H;
    [|vm_compute in H; discriminate H].
  exists body. split; [reflexivity|]. split.
  - vm_compute in H. injection H as <-. reflexivity.
  - exact (proj1 (stock_summary 0 all_stock stock_table body H)).
Defined.

(** ** The pending-prescription queue *)

Global Instance orderBy_transitive : Transitive Pending.orderBy.
Proof. intros a b c. unfold Pending.orderBy. lia. Qed.

Global Instance orderBy_total : Total Pending.orderBy.
Proof. intros a b. unfold Pending.orderBy. lia. Qed.

Lemma priority_rank_before p1 p2 :
  priority_rank p1 < priority_rank p2 ↔ before p1 p2.
Proof. destruct p1, p2; simpl; split; (lia || tauto). Qed.

Lemma priority_rank_inj p1 p2 : priority_rank p1 = priority_rank p2 → p1 = p2.
Proof. destruct p1, p2; simpl; intros H; (reflexivity || lia). Qed.

Lemma StronglySorted_take {A} (R : relation A) n l :
  StronglySorted R l → StronglySorted R (take n l).
Proof.
  intros H. rewrite <- (take_drop n l) in H. eapply StronglySorted_app_1_l, H.
Qed.

Lemma StronglySorted_drop {A} (R : relation A) n l :
  StronglySorted R l → StronglySorted R (drop n l).
Proof.
  intros H. rewrite <- (take_drop n l) in H. eapply StronglySorted_app_1_r, H.
Qed.

Lemma StronglySorted_paginate {A} (R : relation A) skip take_ l :
  StronglySorted R l → StronglySorted R (paginate skip take_ l).
Proof.
  intros H. unfold paginate. destruct (0 <=? take_).
  - apply StronglySorted_take, StronglySorted_drop, H.
  - apply StronglySorted_drop, StronglySorted_take, H.
Qed.

Lemma StronglySorted_Forall2 {A B} (R1 : relation A) (R2 : relation B)
    (P : A → B → Prop) l k :
  (∀ x y x' y', P x x' → P y y' → R1 x y → R2 x' y') →
  Forall2 P l k → StronglySorted R1 l → StronglySorted R2 k.
Proof.
  intros Hrel HF. induction HF as [|x x' l k Hx HF IH]; intros Hs.
  - constructor.
  - apply StronglySorted_inv in Hs as [Hs Hall]. constructor; [apply IH, Hs|].
    clear IH Hs. induction HF as [|y y' l k Hy _ IH]; [constructor|].
    apply Forall_cons in Hall as [Hxy Hall]. constructor; [|apply IH, Hall].
    eapply Hrel; eassumption.
Qed.

Lemma findMany_sorted q db rows :
  Pending.findMany q db = Some rows → StronglySorted Pending.orderBy rows.
Proof.
  unfold Pending.findMany.
  destruct (Pending.offset q) as [|skip]; [discriminate|].
  destruct (Pending.limit q) as [|take_]; [discriminate|].
  destruct (skip <? 0); [discriminate|].
  intros H. injection H as <-.
  apply StronglySorted_paginate, StronglySorted_merge_sort; apply _.
Qed.

Lemma includeItems_Some db row f :
  Pending.includeItems db row = Some f →
  ∃ items, mapM (include_product db) (itemsOf db row.1) = Some items ∧
           f = Pending.format row items.
Proof.
  unfold Pending.includeItems.
  destruct (mapM (include_product db) (itemsOf db row.1)) as [items|];
    [|discriminate].
  simpl. intros H. injection H as <-. eauto.
Qed.

Lemma GET_Ok q db body :
  Pending.GET q db = Pending.Ok body →
  ∃ rows, Pending.findMany q db = Some rows ∧
          Forall2 (λ row f, Pending.includeItems db row = Some f)
                  rows (Pending.prescriptions body).
Proof.
  unfold Pending.GET.
  destruct (Pending.findMany q db) as [rows|]; [|discriminate].
  destruct (mapM (Pending.includeItems db) rows) as [fs|] eqn:Hfs; [|discriminate].
  intros H. injection H as <-. simpl.
  exists rows. split; [reflexivity|]. apply mapM_Some, Hfs.
Qed.

Lemma findMany_rows q db rows row :
  Pending.findMany q db = Some rows → row ∈ rows →
  prescriptions db !! row.1 = Some row.2 ∧
  Prescription.status row.2 = pending ∧
  Prescription.isDeleted row.2 = false.
Proof.
  unfold Pending.findMany.
  destruct (Pending.offset q) as [|skip]; [discriminate|].
  destruct (Pending.limit q) as [|take_]; [discriminate|].
  destruct (skip <? 0); [discriminate|].
  intros H Hin. injection H as <-.
  assert (Hin' : row ∈ merge_sort Pending.orderBy
                   (filter (Pending.whereClause q) (map_to_list (prescriptions db)))).
  { revert Hin. unfold paginate. destruct (0 <=? take_); intros Hin.
    - eapply elem_of_sublist; [|apply sublist_drop].
      eapply elem_of_sublist; [exact Hin|apply sublist_take].
    - eapply elem_of_sublist; [|apply sublist_take].
      eapply elem_of_sublist; [exact Hin|apply sublist_drop]. }
  rewrite merge_sort_Permutation in Hin'.
  apply list_elem_of_filter in Hin' as [(Hst & Hdel & _) Hrow].
  destruct row as [i rx]. apply elem_of_map_to_list in Hrow. auto.
Qed.

(** C6: for every database state and query, the prescriptions of a
    pending-list response are ordered by priority under
    emergency < urgent < normal and by creation time ascending within equal
    priority: each entry stands in that order to every later entry. *)
Theorem pending_ordered q db body :
  Pending.GET q db = Pending.Ok body →
  StronglySorted queue_order (Pending.prescriptions body).
Proof.
  intros H. apply GET_Ok in H as (rows & Hrows & HF).
  eapply StronglySorted_Forall2; [|exact HF|eapply findMany_sorted, Hrows].
  intros x y x' y' Hx Hy Hxy.
  apply includeItems_Some in Hx as (ix & _ & ->).
  apply includeItems_Some in Hy as (iy & _ & ->).
  unfold queue_order, Pending.orderBy in *. simpl.
  destruct Hxy as [Hlt|[Heq Hle]].
  - left. apply priority_rank_before, Hlt.
  - right. split; [apply priority_rank_inj, Heq|exact Hle].
Qed.

Lemma pending_ordered_witness :
  ∃ body,
    Pending.GET first_page queue_db = Pending.Ok body ∧
    Pending.id <$> Pending.prescriptions body = ["rx-4"; "rx-2"; "rx-3"; "rx-1"] ∧
    StronglySorted queue_order (Pending.prescriptions body).
Proof.
  destruct (Pending.GET first_page queue_db) as [body|e] eqn:H;
    [|vm_compute in H; discriminate H].
  exists body. split; [reflexivity|]. split.
  - vm_compute in H. injection H as <-. reflexivity.
  - exact (pending_ordered first_page queue_db body H).
Defined.

(** C10: for every prescription of a pending-list response, the entry is a
    live pending prescription row, its items are the item rows of that
    prescription, each with hasStock true exactly when the referenced
    product's quantity on hand is at least the item's quantityPrescribed,
    and hasStockIssues is true exactly when some item has hasStock false. *)
Theorem pending_stock_flags q db body f :
  Pending.GET q db = Pending.Ok body →
  f ∈ Pending.prescriptions body →
  (∃ rx, prescriptions db !! Pending.id f = Some rx ∧
         Prescription.status rx = pending) ∧
  Forall2 (λ (row : string * PrescriptionItem.t) (it : Pending.Item),
             Pending.item_id it = row.1 ∧
             Pending.quantity it = PrescriptionItem.quantityPrescribed row.2 ∧
             ∃ p, products db !! PrescriptionItem.productId row.2 = Some p ∧
                  Pending.available it = Product.quantity p ∧
                  (Pending.hasStock it = true ↔
                   (Product.quantity p >= PrescriptionItem.quantityPrescribed row.2)%Z))
          (itemsOf db (Pending.id f)) (Pending.items f) ∧
  (Pending.hasStockIssues f = true ↔
   ∃ it, it ∈ Pending.items f ∧ Pending.hasStock it = false).
Proof.
  intros H Hf. apply GET_Ok in H as (rows & Hrows & HF).
  destruct (Forall2_elem_of_r _ _ _ _ HF Hf) as (row & Hrow & Hinc).
  apply includeItems_Some in Hinc as (items & Hitems & ->).
  destruct (findMany_rows _ _ _ _ Hrows Hrow) as (Hrx & Hst & _).
  split; [simpl; eauto|]. simpl. split.
  - apply include_product_rows in Hitems.
    apply Forall2_fmap_r. eapply Forall2_impl; [exact Hitems|].
    intros r it (Hid & Hit & Hp). simpl. rewrite Hit.
    split; [exact Hid|]. split; [reflexivity|].
    eexists. split; [exact Hp|]. split; [reflexivity|].
    rewrite Z.geb_le. lia.
  - rewrite existsb_exists. split.
    + intros (it & Hin & Hlt). exists (Pending.formatItem it).
      split; [apply list_elem_of_fmap; exists it; split;
              [reflexivity|apply list_elem_of_In, Hin]|].
      simpl. apply Z.ltb_lt in Hlt.
      destruct (Z.geb_spec (Product.quantity (ItemWithProduct.product it))
                  (PrescriptionItem.quantityPrescribed (ItemWithProduct.item it)));
        [lia|reflexivity].
    + intros (fi & Hin & Hno).
      apply list_elem_of_fmap in Hin as (it & -> & Hin).
      exists it. split; [apply list_elem_of_In, Hin|].
      simpl in Hno. apply Z.ltb_lt.
      destruct (Z.geb_spec (Product.quantity (ItemWithProduct.product it))
                  (PrescriptionItem.quantityPrescribed (ItemWithProduct.item it)));
        [discriminate|lia].
Qed.

Lemma pending_stock_flags_witness :
  ∃ body f,
    Pending.GET first_page queue_db = Pending.Ok body ∧
    f ∈ Pending.prescriptions body ∧
    Pending.id f = "rx-1" ∧
    Pending.hasStock <$> Pending.items f = [true; false] ∧
    (Pending.hasStockIssues f = true ↔
     ∃ it, it ∈ Pending.items f ∧ Pending.hasStock it = false).
Proof.
  destruct (Pending.GET first_page queue_db) as [body|e] eqn:H;
    [|vm_compute in H; discriminate H].
  assert (Hlast : ∃ f, Pending.prescriptions body !! 3%nat = Some f ∧
                       Pending.id f = "rx-1" ∧
                       Pending.hasStock <$> Pending.items f = [true; false]).
  { vm_compute in H. injection H as <-. eexists. split; [reflexivity|].
    split; reflexivity. }
  destruct Hlast as (f & Hf & Hid & Hflags).
  exists body, f. split; [reflexivity|].
  assert (Hin : f ∈ Pending.prescriptions body)
    by (eapply list_elem_of_lookup_2, Hf).
  split; [exact Hin|]. split; [exact Hid|]. split; [exact Hflags|].
  exact (proj2 (proj2 (pending_stock_flags first_page queue_db body f H Hin))).
Defined.

(** ** The drug catalogue *)

Lemma findFirst_None code drugs :
  Drugs.findFirst code drugs = None ↔ ¬ code_in_use code drugs.
Proof.
  unfold Drugs.findFirst, code_in_use. rewrite head_None. split.
  - intros Hnil (i & d & Hd & Hc & Hl).
    assert (Hin : (i, d) ∈ filter (λ row : string * Drug.t,
                                    Drug.code row.2 = code ∧ Drug.isDeleted row.2 = false)
                                 (map_to_list drugs)).
    { apply list_elem_of_filter. split; [auto|]. apply elem_of_map_to_list, Hd. }
    rewrite Hnil in Hin. inversion Hin.
  - intros Hno.
    destruct (filter _ (map_to_list drugs)) as [|[i d] l] eqn:Hf; [reflexivity|].
    exfalso. apply Hno. exists i, d.
    assert (Hin : (i, d) ∈ filter (λ row : string * Drug.t,
                                    Drug.code row.2 = code ∧ Drug.isDeleted row.2 = false)
                                 (map_to_list drugs)).
    { rewrite Hf. left. }
    apply list_elem_of_filter in Hin as [[Hc Hl] Hin].
    apply elem_of_map_to_list in Hin. auto.
Qed.

Lemma fresh_id_unused (drugs : gmap string Drug.t) : drugs !! fresh (dom drugs) = None.
Proof. apply not_elem_of_dom, is_fresh. Qed.

Lemma elem_of_GET drugs row :
  row ∈ Drugs.GET drugs ↔ drugs !! row.1 = Some row.2 ∧ Drug.isDeleted row.2 = false.
Proof.
  unfold Drugs.GET. rewrite merge_sort_Permutation, list_elem_of_filter.
  destruct row as [i d]. rewrite elem_of_map_to_list. simpl. tauto.
Qed.

(** After a row with a code that was not in use is inserted, the list has
    one entry with that code. *)
Lemma GET_insert_one drugs i d :
  drugs !! i = None → Drug.isDeleted d = false →
  ¬ code_in_use (Drug.code d) drugs →
  entries_with_code (Drug.code d) (Drugs.GET (<[i := d]> drugs)) ≡ₚ [(i, d)].
Proof.
  intros Hi Hlive Hfree.
  unfold entries_with_code, Drugs.GET.
  rewrite merge_sort_Permutation, (map_to_list_insert drugs i d Hi).
  rewrite !filter_cons. simpl.
  destruct (decide (Drug.isDeleted d = false)) as [_|Hn]; [|contradiction].
  rewrite filter_cons. simpl.
  destruct (decide (Drug.code d = Drug.code d)) as [_|Hn]; [|contradiction].
  apply Permutation_skip.
  match goal with
  | |- ?l ≡ₚ [] => destruct l as [|[j e] l'] eqn:Hl; [reflexivity|]
  end.
  exfalso. apply Hfree. exists j, e.
  assert (Hin : (j, e) ∈ filter (λ row : string * Drug.t, Drug.code row.2 = Drug.code d)
                  (filter (λ row : string * Drug.t, Drug.isDeleted row.2 = false)
                          (map_to_list drugs))).
  { rewrite Hl. left. }
  apply list_elem_of_filter in Hin as [Hc Hin].
  apply list_elem_of_filter in Hin as [Hd Hin].
  apply elem_of_map_to_list in Hin. auto.
Qed.

Lemma deleted_not_listed i drugs row :
  deleted_at i drugs → row ∈ Drugs.GET drugs → row.1 ≠ i.
Proof.
  intros (d & Hd & Hdel) Hin Heq. apply elem_of_GET in Hin as [Hrow Hlive].
  rewrite Heq, Hd in Hrow. injection Hrow as Hrow. congruence.
Qed.

Lemma handle_deleted r drugs i :
  deleted_at i drugs → deleted_at i (Drugs.handle r drugs).1.
Proof.
  intros (d & Hd & Hdel). unfold deleted_at.
  destruct r as [now data|now drugId data|now drugId]; simpl.
  - unfold Drugs.POST. destruct (Drugs.findFirst _ drugs); simpl; [eauto|].
    rewrite lookup_insert_ne; [eauto|].
    intros Heq. pose proof (fresh_id_unused drugs) as Hf. congruence.
  - unfold Drugs.PUT.
    destruct (drugs !! drugId) as [existing|] eqn:He; simpl; [|eauto].
    destruct (Drug.isDeleted existing) eqn:Hex; simpl; [eauto|].
    match goal with
    | |- context [match ?c with Some _ => _ | None => _ end] => destruct c
    end; simpl; [eauto|].
    destruct (decide (drugId = i)) as [->|Hne]; [congruence|].
    rewrite lookup_insert_ne by exact Hne. eauto.
  - unfold Drugs.DELETE.
    destruct (drugs !! drugId) as [drug|] eqn:He; simpl; [|eauto].
    destruct (decide (drugId = i)) as [->|Hne].
    + rewrite lookup_insert_eq. eauto.
    + rewrite lookup_insert_ne by exact Hne. eauto.
Qed.

Lemma run_deleted rs : ∀ drugs i,
  deleted_at i drugs → deleted_at i (Drugs.run rs drugs).
Proof.
  induction rs as [|r rs IH]; intros drugs i H; [exact H|].
  unfold Drugs.run. simpl. apply IH, handle_deleted, H.
Qed.

(** C8: creating a drug whose code is not among the non-deleted drugs
    succeeds, and the drug list then has exactly one entry with that code,
    the drug created; creating a drug with a code that a non-deleted drug
    carries is rejected with a conflict and changes nothing; soft-deleting
    the created drug keeps its row, with isDeleted = true, and after any
    further requests to the drugs routes the row is still there with
    isDeleted = true and no drug list contains it. *)
Theorem drugs_round_trip now data drugs :
  ¬ code_in_use (Drugs.code data) drugs →
  ∃ i d drugs1,
    Drugs.POST now data drugs = (drugs1, Drugs.Created201 (i, d)) ∧
    Drug.code d = Drugs.code data ∧
    entries_with_code (Drugs.code data) (Drugs.GET drugs1) = [(i, d)] ∧
    (∀ now' data', Drugs.code data' = Drugs.code data →
       Drugs.POST now' data' drugs1
         = (drugs1, Drugs.Conflict409 "Drug code already exists")) ∧
    (∀ now2, ∃ d' drugs2,
       Drugs.DELETE now2 i drugs1 = (drugs2, Drugs.Ok200 (i, d')) ∧
       ∀ rs,
         (∃ d'', Drugs.run rs drugs2 !! i = Some d'' ∧ Drug.isDeleted d'' = true) ∧
         (∀ row, row ∈ Drugs.GET (Drugs.run rs drugs2) → row.1 ≠ i)).
Proof.
  intros Hfree.
  pose proof (proj2 (findFirst_None _ _) Hfree) as Hnone.
  unfold Drugs.POST at 1. rewrite Hnone.
  eexists _, _, _. split; [reflexivity|]. split; [reflexivity|].
  set (i := fresh (dom drugs)).
  match goal with
  | |- context [<[i := ?row]> drugs] => set (d := row)
  end.
  split; [|split].
  - apply Permutation_singleton_r.
    exact (GET_insert_one drugs i d (fresh_id_unused drugs) eq_refl Hfree).
  - intros now' data' Hcode. unfold Drugs.POST.
    destruct (Drugs.findFirst (Drugs.code data') (<[i := d]> drugs)) eqn:Hf;
      [reflexivity|].
    exfalso. apply findFirst_None in Hf. apply Hf.
    exists i, d. rewrite lookup_insert_eq. rewrite Hcode. auto.
  - intros now2. unfold Drugs.DELETE. rewrite lookup_insert_eq.
    eexists _, _. split; [reflexivity|]. intros rs.
    match goal with
    | |- context [Drugs.run rs ?m] =>
        assert (Hdel : deleted_at i (Drugs.run rs m))
    end.
    { apply run_deleted. eexists. rewrite lookup_insert_eq. split; reflexivity. }
    split; [exact Hdel|].
    intros row Hin. eapply deleted_not_listed; eassumption.
Qed.

Lemma drugs_round_trip_witness :
  ¬ code_in_use "X1" (∅ : gmap string Drug.t) ∧
  ∃ i d drugs1,
    Drugs.POST 10 (mkDrugBody "X1" "Paracetamol") ∅ = (drugs1, Drugs.Created201 (i, d)) ∧
    entries_with_code "X1" (Drugs.GET drugs1) = [(i, d)].
Proof.
  assert (H : ¬ code_in_use (Drugs.code (mkDrugBody "X1" "Paracetamol"))
                (∅ : gmap string Drug.t)).
  { intros (i & d & Hd & _). rewrite lookup_empty in Hd. discriminate Hd. }
  split; [exact H|].
  destruct (drugs_round_trip 10 (mkDrugBody "X1" "Paracetamol") ∅ H)
    as (i & d & drugs1 & Hpost & _ & Hone & _).
  exists i, d, drugs1. split; [exact Hpost|exact Hone].
Defined.

(** The round trip of the specification on an empty catalogue. *)
Example drugs_scenario :
  let created := Drugs.POST 10 (mkDrugBody "X1" "Paracetamol") ∅ in
  let again := Drugs.POST 20 (mkDrugBody "X1" "Paracetamol forte") created.1 in
  let deleted := Drugs.DELETE 30 "0" created.1 in
  fst <$> Drugs.GET created.1 = ["0"] ∧
  again = (created.1, Drugs.Conflict409 "Drug code already exists") ∧
  Drugs.GET deleted.1 = [] ∧
  Drug.isDeleted <$> deleted.1 !! "0" = Some true.
Proof. vm_compute. repeat split; reflexivity. Qed.

(** ** Stock never below zero *)

(** With pairwise distinct products, the write loop either leaves a product
    row alone or decrements it once, by the quantity of the line naming it. *)
Lemma apply_all_products now by_ ds : ∀ db u db2,
  forEach ds (Dispense.applyLine now by_) db = inr (u, db2) →
  NoDup (DispensedItem.productId <$> ds) →
  ∀ k p2, products db2 !! k = Some p2 →
  ∃ p, products db !! k = Some p ∧
       (p2 = p ∨
        ∃ d, d ∈ ds ∧ DispensedItem.productId d = k ∧
             p2 = Dispense.decrement (DispensedItem.quantityDispensed d) p).
Proof.
  induction ds as [|d ds IH]; simpl; intros db u db2 H Hnd k p2 Hk.
  - tx_unfold. injection H as _ <-. eauto.
  - tx_unfold.
    destruct (Dispense.applyLine now by_ d db) as [e|[u1 db1]] eqn:Hd; [discriminate|].
    apply applyLine_inr in Hd as (row & p & Hrow & Hp & ->).
    apply NoDup_cons in Hnd as [Hfresh Hnd].
    destruct (IH _ _ _ H Hnd k p2 Hk) as (p1 & Hp1 & Hcase). simpl in Hp1.
    destruct (decide (DispensedItem.productId d = k)) as [Heq|Hne].
    + subst k. rewrite lookup_insert_eq in Hp1. injection Hp1 as <-.
      exists p. split; [exact Hp|]. right. exists d. split; [left|].
      split; [reflexivity|].
      destruct Hcase as [->|(d' & Hd' & Hid & _)]; [reflexivity|].
      exfalso. apply Hfresh. apply list_elem_of_fmap. eauto.
    + rewrite lookup_insert_ne in Hp1 by exact Hne.
      exists p1. split; [exact Hp1|].
      destruct Hcase as [->|(d' & Hd' & Hid & ->)]; [left; reflexivity|].
      right. exists d'. split; [right; exact Hd'|]. auto.
Qed.

Lemma patch_keeps_stock_non_negative now productId q db :
  stock_non_negative db → 0 ≤ q →
  stock_non_negative (step db (Adjust now productId q)).
Proof.
  intros Hdb Hq. unfold stock_non_negative, step, Stock.PATCH. simpl.
  destruct (products db !! productId) as [p|] eqn:Hp; simpl; [|exact Hdb].
  apply map_Forall_insert_2; [simpl; exact Hq|exact Hdb].
Qed.

Lemma dispense_keeps_stock_non_negative now pid body db :
  stock_non_negative db →
  admissible db (DispenseOp now pid body) →
  stock_non_negative (step db (DispenseOp now pid body)).
Proof.
  intros Hdb [Hnd Hmatch]. simpl.
  destruct (POST_cases now pid body db)
    as [(e & _ & He)|(res & db' & data & Hcb & Hok & _)].
  { rewrite He. exact Hdb. }
  rewrite Hok. simpl.
  apply callback_inr in Hcb
    as (rx & items & db2 & _ & _ & _ & _ & Hlines & Hloop & Hprod & _).
  intros k p2 Hk. rewrite Hprod in Hk.
  destruct (apply_all_products _ _ _ _ _ _ Hloop Hnd k p2 Hk)
    as (p & Hp & [->|(d & Hd & Hid & ->)]); simpl in Hp.
  - exact (Hdb k p Hp).
  - simpl. rewrite Forall_forall in Hlines, Hmatch.
    destruct (Hlines d Hd) as [Hu Hs]. specialize (Hmatch d Hd).
    unfold unknown_item, insufficient_stock in Hu, Hs.
    destruct (prescriptionItems db !! DispensedItem.itemId d) as [row|];
      [|exfalso; apply Hu; exact I].
    rewrite (Hmatch row eq_refl), Hid, Hp in Hs.
    destruct (decide (PrescriptionItem.prescriptionId row = pid)) as [Hpid|Hpid];
      [|contradiction].
    assert (¬ Product.quantity p < DispensedItem.quantityDispensed d) by tauto.
    lia.
Qed.

(** A line that names the product of another row: the check reads the
    item's product, the decrement goes to the line's productId. *)
Example dispense_other_product_goes_negative :
  let body := mkBody [line "item-A" 3 "prod-B"] 30 30 in
  let r := Dispense.POST noon "rx-1" body sample_db in
  ¬ is_error r.2 ∧
  Product.quantity <$> products r.1 !! "prod-A" = Some 5 ∧
  Product.quantity <$> products r.1 !! "prod-B" = Some (-2).
Proof. vm_compute. repeat split; auto. Qed.

(** An adjustment stores the quantity it is given, whatever its sign. *)
Example patch_negative_quantity :
  Product.quantity <$>
    (Stock.PATCH 0 "prod-A" (-4) (products sample_db)).1 !! "prod-A" = Some (-4).
Proof. vm_compute. reflexivity. Qed.

(** C3, as stated, fails, in two ways.  An adjustment stores the quantity
    of its body whatever its sign: from 5 on hand, the adjustment to -4
    leaves -4.  And a dispensing whose two lines are two items of the same
    product, 3 each with 5 on hand, passes both stock checks against the
    quantity read at the start, commits, and leaves -1. *)
Lemma stock_goes_negative :
  (stock_non_negative sample_db ∧
   ¬ stock_non_negative (step sample_db (Adjust 0 "prod-A" (-4)))) ∧
  (let body := mkBody [line "item-A" 3 "prod-A"; line "item-C" 3 "prod-A"] 60 60 in
   stock_non_negative same_product_db ∧
   ¬ is_error (Dispense.POST noon "rx-1" body same_product_db).2 ∧
   ¬ stock_non_negative (step same_product_db (DispenseOp noon "rx-1" body))).
Proof.
  split; [split|simpl; split; [|split]].
  - apply (bool_decide_unpack _). vm_compute. exact I.
  - intros H. specialize (H "prod-A" _ eq_refl). vm_compute in H. apply H. reflexivity.
  - apply (bool_decide_unpack _). vm_compute. exact I.
  - vm_compute. auto.
  - intros H. specialize (H "prod-A" _ eq_refl). vm_compute in H. apply H. reflexivity.
Qed.

(** C3, amended: starting from a state where all quantities are
    non-negative, along every run of stock adjustments to a quantity that
    is not negative and of dispensing requests whose lines name pairwise
    distinct products, each the product of the line's prescription item,
    every product's quantity on hand is non-negative after each operation;
    a dispensing request that is rejected changes no row; an adjustment of
    an existing product stores the quantity of its body as it is. *)
Theorem stock_stays_non_negative (ops : list Operation) : ∀ db,
  stock_non_negative db →
  run_admissible db ops →
  Forall stock_non_negative (trace db ops) ∧
  (∀ now pid body, is_error (Dispense.POST now pid body db).2 →
                   step db (DispenseOp now pid body) = db) ∧
  (∀ now productId q, is_Some (products db !! productId) →
     Product.quantity <$> products (step db (Adjust now productId q)) !! productId
       = Some q).
Proof.
  intros db Hdb Hrun. split; [|split].
  - revert db Hdb Hrun. induction ops as [|op ops IH]; intros db Hdb Hrun.
    { constructor. }
    destruct Hrun as [Hop Hrun]. simpl.
    assert (Hstep : stock_non_negative (step db op)).
    { destruct op as [now productId q|now pid body].
      - apply patch_keeps_stock_non_negative; assumption.
      - apply dispense_keeps_stock_non_negative; assumption. }
    constructor; [exact Hstep|]. apply (IH _ Hstep Hrun).
  - intros now pid body Herr. simpl.
    destruct (POST_cases now pid body db)
      as [(e & _ & He)|(res & db' & data & _ & Hok & _)].
    + rewrite He. reflexivity.
    + rewrite Hok in Herr. contradiction.
  - intros now productId q [p Hp]. unfold step, Stock.PATCH. rewrite Hp. simpl.
    rewrite lookup_insert_eq. reflexivity.
Qed.

Lemma stock_stays_non_negative_witness :
  let ops := [Adjust 0 "prod-B" 4;
              DispenseOp noon "rx-1"
                (mkBody [line "item-A" 3 "prod-A"; line "item-B" 2 "prod-B"] 50 50)] in
  stock_non_negative sample_db ∧
  run_admissible sample_db ops ∧
  Forall stock_non_negative (trace sample_db ops) ∧
  (λ db, Product.quantity <$> products db !! "prod-B") <$> trace sample_db ops
    = [Some 4; Some 2].
Proof.
  simpl.
  assert (H0 : stock_non_negative sample_db).
  { apply (bool_decide_unpack _). vm_compute. exact I. }
  assert (Hrun : run_admissible sample_db
            [Adjust 0 "prod-B" 4;
             DispenseOp noon "rx-1"
               (mkBody [line "item-A" 3 "prod-A"; line "item-B" 2 "prod-B"] 50 50)]).
  { simpl. split; [lia|]. split; [|exact I]. split.
    - apply (bool_decide_unpack _). vm_compute. exact I.
    - repeat constructor; intros row Hrow; vm_compute in Hrow;
        injection Hrow as <-; reflexivity. }
  split; [exact H0|]. split; [exact Hrun|].
  split; [exact (proj1 (stock_stays_non_negative _ sample_db H0 Hrun))|].
  vm_compute. reflexivity.
Defined.

(** * Further properties of the routes *)

(** ** What a committed dispensing writes *)

Lemma decrement_zero p : Dispense.decrement 0 p = p.
Proof.
  destruct p. unfold Dispense.decrement, Product.set_quantity. simpl.
  f_equal. lia.
Qed.

Lemma decrement_decrement a b p :
  Dispense.decrement a (Dispense.decrement b p) = Dispense.decrement (b + a) p.
Proof.
  destruct p. unfold Dispense.decrement, Product.set_quantity. simpl.
  f_equal. lia.
Qed.

Lemma markItem_markItem now by_ d d' row :
  Dispense.markItem now by_ d' (Dispense.markItem now by_ d row)
  = Dispense.markItem now by_ d' row.
Proof. reflexivity. Qed.

(** The write loop leaves each product with its quantity less the total of
    the lines naming it, and every other column as it was. *)
Lemma apply_all_quantity now by_ ds : ∀ db u db2,
  forEach ds (Dispense.applyLine now by_) db = inr (u, db2) →
  ∀ k, products db2 !! k
       = Dispense.decrement (dispensed_of k ds) <$> products db !! k.
Proof.
  induction ds as [|d ds IH]; simpl; intros db u db2 H k.
  - tx_unfold. injection H as _ <-.
    destruct (products db !! k) as [p|]; simpl; [|reflexivity].
    rewrite decrement_zero. reflexivity.
  - tx_unfold.
    destruct (Dispense.applyLine now by_ d db) as [e|[u1 db1]] eqn:Hd; [discriminate|].
    apply applyLine_inr in Hd as (row & p & Hrow & Hp & ->).
    rewrite (IH _ _ _ H k). simpl.
    destruct (decide (DispensedItem.productId d = k)) as [<-|Hne].
    + rewrite lookup_insert_eq, Hp. simpl. rewrite decrement_decrement. reflexivity.
    + rewrite lookup_insert_ne by exact Hne. reflexivity.
Qed.

(** The write loop leaves each item row as the last line naming it marks
    it, and a row that no line names as it was. *)
Lemma apply_all_items now by_ ds : ∀ db u db2,
  forEach ds (Dispense.applyLine now by_) db = inr (u, db2) →
  ∀ i, prescriptionItems db2 !! i
       = match last_line i ds with
         | Some d => Dispense.markItem now by_ d <$> prescriptionItems db !! i
         | None => prescriptionItems db !! i
         end.
Proof.
  induction ds as [|d ds IH]; simpl; intros db u db2 H i.
  - tx_unfold. injection H as _ <-. reflexivity.
  - tx_unfold.
    destruct (Dispense.applyLine now by_ d db) as [e|[u1 db1]] eqn:Hd; [discriminate|].
    apply applyLine_inr in Hd as (row & p & Hrow & Hp & ->).
    rewrite (IH _ _ _ H i). simpl.
    destruct (decide (DispensedItem.itemId d = i)) as [<-|Hne].
    + rewrite lookup_insert_eq, Hrow.
      destruct (last_line (DispensedItem.itemId d) ds); reflexivity.
    + rewrite lookup_insert_ne by exact Hne.
      destruct (last_line i ds); reflexivity.
Qed.

Lemma POST_Ok now pid body db db' resp :
  Dispense.POST now pid body db = (db', resp) → ¬ is_error resp →
  ∃ res, Dispense.callback now pid body db = inr (res, db').
Proof.
  intros Hpost Hok.
  destruct (POST_cases now pid body db)
    as [(e & _ & He)|(res & db2 & data & Hcb & Hpost' & _)];
    rewrite Hpost in *.
  - injection He as -> ->. exfalso. apply Hok. exact I.
  - injection Hpost' as -> _. eauto.
Qed.

(** X1: after a dispensing that commits, every product row is the row it
    was with its quantity lowered by the total of the request lines that
    name it (lines of either sign, and however many name the same product);
    no product row appears or disappears. *)
Theorem dispense_stock_conservation now pid body db db' resp :
  Dispense.POST now pid body db = (db', resp) → ¬ is_error resp →
  ∀ k, products db' !! k
       = Dispense.decrement (dispensed_of k (Dispense.dispensedItems body))
           <$> products db !! k.
Proof.
  intros Hpost Hok k.
  destruct (POST_Ok _ _ _ _ _ _ Hpost Hok) as [res Hcb].
  apply callback_inr in Hcb
    as (rx & items & db2 & _ & _ & _ & _ & _ & Hloop & Hprod & _).
  rewrite Hprod, (apply_all_quantity _ _ _ _ _ _ Hloop k). reflexivity.
Qed.

Lemma dispense_stock_conservation_witness :
  let body := mkBody [line "item-A" 3 "prod-A"; line "item-C" 3 "prod-A"] 60 60 in
  ¬ is_error (Dispense.POST noon "rx-1" body same_product_db).2 ∧
  dispensed_of "prod-A" (Dispense.dispensedItems body) = 6 ∧
  Product.quantity <$>
    products (Dispense.POST noon "rx-1" body same_product_db).1 !! "prod-A"
    = Some (5 - 6).
Proof.
  simpl.
  assert (Hok : ¬ is_error (Dispense.POST noon "rx-1"
                  (mkBody [line "item-A" 3 "prod-A"; line "item-C" 3 "prod-A"] 60 60)
                  same_product_db).2) by (vm_compute; auto).
  split; [exact Hok|]. split; [reflexivity|].
  rewrite (dispense_stock_conservation noon "rx-1" _ same_product_db _ _
             (surjective_pairing _) Hok "prod-A").
  reflexivity.
Defined.

(** X2: after a dispensing that commits, an item row named by the request
    is the row it was, marked dispensed with the quantity of the last line
    naming it, the time and the operator; an item row that no line names is
    unchanged. *)
Theorem dispense_item_rows now pid body db db' resp :
  Dispense.POST now pid body db = (db', resp) → ¬ is_error resp →
  ∀ i, prescriptionItems db' !! i
       = match last_line i (Dispense.dispensedItems body) with
         | Some d =>
             Dispense.markItem now (Dispense.dispensedBy body) d
               <$> prescriptionItems db !! i
         | None => prescriptionItems db !! i
         end.
Proof.
  intros Hpost Hok i.
  destruct (POST_Ok _ _ _ _ _ _ Hpost Hok) as [res Hcb].
  apply callback_inr in Hcb
    as (rx & items & db2 & _ & _ & _ & _ & _ & Hloop & _ & Hitems & _).
  rewrite Hitems, (apply_all_items _ _ _ _ _ _ Hloop i). reflexivity.
Qed.

Lemma dispense_item_rows_witness :
  let body := mkBody [line "item-A" 1 "prod-A"; line "item-A" 2 "prod-A"] 30 30 in
  let db' := (Dispense.POST noon "rx-1" body sample_db).1 in
  ¬ is_error (Dispense.POST noon "rx-1" body sample_db).2 ∧
  PrescriptionItem.quantityDispensed <$> prescriptionItems db' !! "item-A" = Some 2 ∧
  prescriptionItems db' !! "item-B" = prescriptionItems sample_db !! "item-B".
Proof.
  simpl.
  assert (Hok : ¬ is_error (Dispense.POST noon "rx-1"
                  (mkBody [line "item-A" 1 "prod-A"; line "item-A" 2 "prod-A"] 30 30)
                  sample_db).2) by (vm_compute; auto).
  split; [exact Hok|].
  pose proof (dispense_item_rows noon "rx-1" _ sample_db _ _
                (surjective_pairing _) Hok) as H.
  split; [rewrite (H "item-A")|rewrite (H "item-B")]; reflexivity.
Defined.

(** The receipt and the payment a committed dispensing appends. *)
Lemma callback_ledger now pid body db res db' :
  Dispense.callback now pid body db = inr (res, db') →
  ∃ rx,
    prescriptions db !! pid = Some rx ∧
    drugDispensals db' =
      (drugDispensals db ++
       [{| DrugDispensal.dispensalNo := Dispense.generateDispensalNo now;
           DrugDispensal.prescriptionId := pid;
           DrugDispensal.prescriptionNo := Prescription.prescriptionNo rx;
           DrugDispensal.studentId := Prescription.studentId rx;
           DrugDispensal.dispensedBy := Dispense.dispensedBy body;
           DrugDispensal.dispensedItems := Dispense.dispensedItems body;
           DrugDispensal.totalAmount := Dispense.totalAmount body;
           DrugDispensal.notes := Dispense.notes body |}])%list ∧
    balanceTransactions db' =
      if Dispense.positive (Dispense.amountPaid body)
      then (balanceTransactions db ++
            [{| BalanceTransaction.studentId := Prescription.studentId rx;
                BalanceTransaction.amount := Dispense.amountPaid body;
                BalanceTransaction.type := "DEBIT";
                BalanceTransaction.description :=
                  "Payment for prescription " +:+ Prescription.prescriptionNo rx;
                BalanceTransaction.paymentMethod := Dispense.paymentMethod body;
                BalanceTransaction.prescriptionId := pid;
                BalanceTransaction.balanceAfter := 0%Q |}])%list
      else balanceTransactions db.
Proof.
  intros Hcb.
  pose proof (callback_inr _ _ _ _ _ _ Hcb)
    as (rx & items & db2 & Hrx & _ & _ & Hitems & Hall & Hloop & _ & _ & _ & Hdd & _).
  exists rx. split; [exact Hrx|]. split; [exact Hdd|].
  revert Hcb. unfold Dispense.callback, Dispense.findUnique. tx_unfold.
  destruct (prescriptions db !! pid) as [rx0|]; [|discriminate].
  injection Hrx as ->.
  destruct (Prescription.isDeleted rx); [discriminate|].
  rewrite Hitems.
  destruct (bool_decide (Prescription.status rx = pending)); simpl; [|discriminate].
  rewrite (verify_all_ok db pid items Hitems _ db Hall).
  unfold drugDispensal_create. rewrite Hloop.
  destruct (apply_all_inr _ _ _ _ _ _ Hloop) as [(Hf1 & _ & Hf3 & _) _].
  simpl in Hf1, Hf3.
  unfold prescription_update. rewrite Hf1.
  destruct (prescriptions db !! pid); [|discriminate].
  unfold balanceTransaction_create.
  destruct (Dispense.positive (Dispense.amountPaid body));
    intros H; injection H as _ <-; simpl; rewrite Hf3; reflexivity.
Qed.

(** X3: a dispensing that commits appends exactly one receipt, carrying the
    generated number, the request lines, the total and the notes as
    received; it appends exactly one payment, a DEBIT of amountPaid with
    balanceAfter 0, when amountPaid > 0, and no payment otherwise. *)
Theorem dispense_ledger now pid body db db' resp :
  Dispense.POST now pid body db = (db', resp) → ¬ is_error resp →
  ∃ rx receipt,
    prescriptions db !! pid = Some rx ∧
    drugDispensals db' = (drugDispensals db ++ [receipt])%list ∧
    DrugDispensal.dispensalNo receipt = Dispense.generateDispensalNo now ∧
    DrugDispensal.prescriptionId receipt = pid ∧
    DrugDispensal.studentId receipt = Prescription.studentId rx ∧
    DrugDispensal.dispensedItems receipt = Dispense.dispensedItems body ∧
    DrugDispensal.totalAmount receipt = Dispense.totalAmount body ∧
    ((0 < Dispense.amountPaid body)%Q →
       ∃ payment,
         balanceTransactions db' = (balanceTransactions db ++ [payment])%list ∧
         BalanceTransaction.type payment = "DEBIT" ∧
         BalanceTransaction.amount payment = Dispense.amountPaid body ∧
         BalanceTransaction.studentId payment = Prescription.studentId rx ∧
         BalanceTransaction.prescriptionId payment = pid ∧
         BalanceTransaction.balanceAfter payment = 0%Q) ∧
    ((Dispense.amountPaid body <= 0)%Q →
       balanceTransactions db' = balanceTransactions db).
Proof.
  intros Hpost Hok.
  destruct (POST_Ok _ _ _ _ _ _ Hpost Hok) as [res Hcb].
  apply callback_ledger in Hcb as (rx & Hrx & Hdd & Hbt).
  eexists rx, _. split; [exact Hrx|]. split; [exact Hdd|]. simpl.
  do 5 (split; [reflexivity|]).
  unfold Dispense.positive in Hbt.
  destruct (0 ?= Dispense.amountPaid body)%Q eqn:Hcmp; split; intros Hsign.
  - apply Qeq_alt in Hcmp. rewrite <- Hcmp in Hsign.
    exfalso. exact (Qlt_irrefl _ Hsign).
  - exact Hbt.
  - eexists. split; [exact Hbt|]. simpl. repeat split; reflexivity.
  - apply Qlt_alt in Hcmp. exfalso. exact (Qlt_not_le _ _ Hcmp Hsign).
  - apply Qgt_alt in Hcmp. exfalso. exact (Qlt_irrefl _ (Qlt_trans _ _ _ Hsign Hcmp)).
  - exact Hbt.
Qed.

Lemma dispense_ledger_witness :
  let paid := mkBody [line "item-A" 3 "prod-A"] 30 30 in
  let unpaid := mkBody [line "item-A" 3 "prod-A"] 30 0 in
  ¬ is_error (Dispense.POST noon "rx-1" paid sample_db).2 ∧
  length (balanceTransactions (Dispense.POST noon "rx-1" paid sample_db).1) = 1%nat ∧
  length (drugDispensals (Dispense.POST noon "rx-1" paid sample_db).1) = 1%nat ∧
  balanceTransactions (Dispense.POST noon "rx-1" unpaid sample_db).1 = [].
Proof.
  simpl.
  assert (Hok : ¬ is_error (Dispense.POST noon "rx-1"
                  (mkBody [line "item-A" 3 "prod-A"] 30 30) sample_db).2)
    by (vm_compute; auto).
  assert (Hok0 : ¬ is_error (Dispense.POST noon "rx-1"
                  (mkBody [line "item-A" 3 "prod-A"] 30 0) sample_db).2)
    by (vm_compute; auto).
  split; [exact Hok|].
  destruct (dispense_ledger noon "rx-1" _ sample_db _ _ (surjective_pairing _) Hok)
    as (rx & receipt & _ & Hdd & _ & _ & _ & _ & _ & Hpaid & _).
  destruct (dispense_ledger noon "rx-1" _ sample_db _ _ (surjective_pairing _) Hok0)
    as (rx0 & receipt0 & _ & _ & _ & _ & _ & _ & _ & _ & Hunpaid).
  destruct Hpaid as (payment & Hbt & _); [reflexivity|].
  split; [rewrite Hbt; reflexivity|].
  split; [rewrite Hdd; reflexivity|].
  apply Hunpaid. discriminate.
Defined.

(** After a commit the prescription row is live and no longer pending, and
    its items still resolve their products. *)
Lemma committed_state now pid body db res db' :
  Dispense.callback now pid body db = inr (res, db') →
  (∃ rx', prescriptions db' !! pid = Some rx' ∧
          Prescription.isDeleted rx' = false ∧
          Prescription.status rx' ≠ pending) ∧
  is_Some (mapM (include_product db') (itemsOf db' pid)).
Proof.
  intros Hcb.
  pose proof (callback_inr _ _ _ _ _ _ Hcb)
    as (rx & items & db2 & Hrx & Hdel & _ & Hitems & _ & Hloop & Hprod & Hit & Hrxs & _).
  split.
  - eexists. rewrite Hrxs, lookup_insert_eq. split; [reflexivity|]. simpl.
    split; [exact Hdel|]. destruct (_ =? _)%nat; discriminate.
  - apply mapM_is_Some, Forall_forall. intros [i row'] Hin.
    apply elem_of_itemsOf in Hin as [Hrow' Hpid].
    rewrite Hit, (apply_all_items _ _ _ _ _ _ Hloop i) in Hrow'. simpl in Hrow'.
    assert (Hold : ∃ row, prescriptionItems db !! i = Some row ∧
                          PrescriptionItem.prescriptionId row = pid ∧
                          PrescriptionItem.productId row
                            = PrescriptionItem.productId row').
    { destruct (last_line i (Dispense.dispensedItems body)) as [d|].
      - destruct (prescriptionItems db !! i) as [row|]; [|discriminate].
        simpl in Hrow'. injection Hrow' as <-. simpl in Hpid. eauto.
      - eauto. }
    destruct Hold as (row & Hrow & Hpid0 & Hprodid).
    assert (Hin : (i, row) ∈ itemsOf db pid) by (apply elem_of_itemsOf; auto).
    destruct (Forall2_elem_of_l _ _ _ _ (include_product_rows _ _ _ Hitems) Hin)
      as (it & _ & _ & _ & Hp).
    simpl in Hp. unfold include_product. simpl.
    rewrite <- Hprodid, Hprod, (apply_all_quantity _ _ _ _ _ _ Hloop). simpl.
    rewrite Hp. simpl. eauto.
Qed.

(** X4: a prescription is dispensed at most once: after a dispensing that
    commits, fully or partially, every further dispensing request on the
    same prescription is answered "Prescription is not in pending status"
    and changes nothing. *)
Theorem dispense_at_most_once now pid body db db' resp :
  Dispense.POST now pid body db = (db', resp) → ¬ is_error resp →
  ∀ now' body',
    Dispense.POST now' pid body' db'
      = (db', Dispense.Error500 "Prescription is not in pending status").
Proof.
  intros Hpost Hok now' body'.
  destruct (POST_Ok _ _ _ _ _ _ Hpost Hok) as [res Hcb].
  destruct (committed_state _ _ _ _ _ _ Hcb)
    as [(rx' & Hrx' & Hdel & Hst) [items Hitems]].
  apply POST_error.
  unfold Dispense.callback, Dispense.findUnique. tx_unfold.
  rewrite Hrx', Hdel, Hitems.
  rewrite (bool_decide_eq_false_2 _ Hst). reflexivity.
Qed.

Lemma dispense_at_most_once_witness :
  let partial := mkBody [line "item-A" 3 "prod-A"] 30 30 in
  let rest := mkBody [line "item-B" 1 "prod-B"] 10 10 in
  let db' := (Dispense.POST noon "rx-1" partial sample_db).1 in
  ¬ is_error (Dispense.POST noon "rx-1" partial sample_db).2 ∧
  Dispense.POST noon "rx-1" rest db'
    = (db', Dispense.Error500 "Prescription is not in pending status").
Proof.
  simpl.
  assert (Hok : ¬ is_error (Dispense.POST noon "rx-1"
                  (mkBody [line "item-A" 3 "prod-A"] 30 30) sample_db).2)
    by (vm_compute; auto).
  split; [exact Hok|].
  exact (dispense_at_most_once noon "rx-1" _ sample_db _ _
           (surjective_pairing _) Hok noon _).
Defined.

(** X5: the checks run in a fixed order and the error names the first that
    fails: a missing or soft-deleted prescription is "Prescription not
    found"; a live prescription that is not pending is "Prescription is not
    in pending status"; on a live pending prescription, when the first
    request line that fails a check names an item that is not of the
    prescription, the error is "Prescription item not found: <item id>". *)
Theorem dispense_error_messages now pid body db :
  fk_integrity db →
  (not_live db pid →
   Dispense.POST now pid body db = (db, Dispense.Error500 "Prescription not found")) ∧
  (¬ not_live db pid → not_pending db pid →
   Dispense.POST now pid body db
     = (db, Dispense.Error500 "Prescription is not in pending status")) ∧
  (¬ not_live db pid → ¬ not_pending db pid →
   ∀ pre d post,
     Dispense.dispensedItems body = (pre ++ d :: post)%list →
     Forall (λ d, ¬ unknown_item db pid d ∧ ¬ insufficient_stock db pid d) pre →
     unknown_item db pid d →
     Dispense.POST now pid body db
       = (db, Dispense.Error500
                ("Prescription item not found: " +:+ DispensedItem.itemId d))).
Proof.
  intros Hfk.
  destruct (fk_integrity_include db pid Hfk) as [items Hitems].
  unfold not_live, not_pending.
  split; [|split].
  - intros Hl. apply POST_error.
    unfold Dispense.callback, Dispense.findUnique. tx_unfold.
    destruct (prescriptions db !! pid) as [rx|]; [|reflexivity].
    rewrite Hl. reflexivity.
  - intros Hl Hp. apply POST_error.
    unfold Dispense.callback, Dispense.findUnique. tx_unfold.
    destruct (prescriptions db !! pid) as [rx|]; [|contradiction].
    destruct (Prescription.isDeleted rx); [exfalso; apply Hl; reflexivity|].
    rewrite Hitems, (bool_decide_eq_false_2 _ Hp). reflexivity.
  - intros Hl Hp pre d post Hds Hpre Hu. apply POST_error.
    unfold Dispense.callback, Dispense.findUnique. tx_unfold.
    destruct (prescriptions db !! pid) as [rx|]; [|exfalso; apply Hl; exact I].
    destruct (Prescription.isDeleted rx); [exfalso; apply Hl; reflexivity|].
    rewrite Hitems.
    destruct (decide (Prescription.status rx = pending)) as [Hst|Hst];
      [|contradiction].
    rewrite (bool_decide_eq_true_2 _ Hst). simpl. rewrite Hds.
    rewrite (verify_first_failure db pid items Hitems pre d post db _ Hpre
               (verifyLine_unknown db pid items Hitems d db Hu)).
    reflexivity.
Qed.

Lemma dispense_error_messages_witness :
  fk_integrity sample_db ∧
  Dispense.POST noon "rx-9" (mkBody [] 0 0) sample_db
    = (sample_db, Dispense.Error500 "Prescription not found") ∧
  Dispense.POST noon "rx-1" (mkBody [line "item-A" 1 "prod-A"; line "item-Z" 1 "prod-A"] 0 0)
    sample_db
    = (sample_db, Dispense.Error500 "Prescription item not found: item-Z").
Proof.
  assert (Hfk : fk_integrity sample_db).
  { apply (bool_decide_unpack _). vm_compute. exact I. }
  split; [exact Hfk|]. split.
  - apply (dispense_error_messages noon "rx-9" (mkBody [] 0 0) sample_db Hfk).
    apply (bool_decide_unpack _). vm_compute. exact I.
  - apply (proj2 (proj2 (dispense_error_messages noon "rx-1"
             (mkBody [line "item-A" 1 "prod-A"; line "item-Z" 1 "prod-A"] 0 0)
             sample_db Hfk))) with (pre := [line "item-A" 1 "prod-A"])
                                   (d := line "item-Z" 1 "prod-A") (post := []).
    + apply (bool_decide_unpack _). vm_compute. exact I.
    + apply (bool_decide_unpack _). vm_compute. exact I.
    + reflexivity.
    + repeat constructor; apply (bool_decide_unpack _); vm_compute; exact I.
    + apply (bool_decide_unpack _). vm_compute. exact I.
Defined.

(** X6: a request with no lines on a live pending prescription is accepted:
    no product and no item row changes, a receipt without lines is
    appended, and the prescription leaves the pending status, as
    partially_dispensed when it has items and as dispensed when it has
    none. *)
Theorem dispense_empty_request now pid body db rx :
  fk_integrity db →
  prescriptions db !! pid = Some rx →
  Prescription.isDeleted rx = false →
  Prescription.status rx = pending →
  Dispense.dispensedItems body = [] →
  ∃ db' message data receipt,
    Dispense.POST now pid body db = (db', Dispense.Ok message data) ∧
    products db' = products db ∧
    prescriptionItems db' = prescriptionItems db ∧
    drugDispensals db' = (drugDispensals db ++ [receipt])%list ∧
    DrugDispensal.dispensedItems receipt = [] ∧
    Prescription.status <$> prescriptions db' !! pid
      = Some (match itemsOf db pid with
              | [] => dispensed
              | _ :: _ => partially_dispensed
              end).
Proof.
  intros Hfk Hrx Hdel Hst Hnil.
  destruct (callback_total now pid body db rx Hrx Hdel Hst
              (fk_integrity_include db pid Hfk)) as (res & db' & Hcb).
  { rewrite Hnil. constructor. }
  { rewrite Hnil. constructor. }
  destruct (POST_cases now pid body db)
    as [(e & He & _)|(res' & db2 & data & Hcb' & Hpost & _)]; [congruence|].
  rewrite Hcb in Hcb'. injection Hcb' as <- <-.
  pose proof (callback_inr _ _ _ _ _ _ Hcb)
    as (rx0 & items & db3 & Hrx0 & _ & _ & Hitems & _ & Hloop & Hprod & Hit
        & Hrxs & Hdd & _).
  rewrite Hrx in Hrx0. injection Hrx0 as <-.
  rewrite Hnil in Hloop. simpl in Hloop. tx_unfold. injection Hloop as <-.
  eexists db', _, data, _. split; [exact Hpost|].
  split; [exact Hprod|]. split; [exact Hit|]. split; [exact Hdd|].
  split; [exact Hnil|].
  rewrite Hrxs, lookup_insert_eq. simpl. rewrite Hnil. simpl.
  apply length_mapM in Hitems.
  destruct (itemsOf db pid), items; simpl in *; try discriminate; reflexivity.
Qed.

Lemma dispense_empty_request_witness :
  ∃ db' message data,
    Dispense.POST noon "rx-1" (mkBody [] 0 0) sample_db
      = (db', Dispense.Ok message data) ∧
    products db' = products sample_db ∧
    Prescription.status <$> prescriptions db' !! "rx-1" = Some partially_dispensed.
Proof.
  assert (Hfk : fk_integrity sample_db).
  { apply (bool_decide_unpack _). vm_compute. exact I. }
  destruct (dispense_empty_request noon "rx-1" (mkBody [] 0 0) sample_db
              (mkPrescription "RX-001" normal pending 1000) Hfk
              eq_refl eq_refl eq_refl eq_refl)
    as (db' & message & data & receipt & Hpost & Hprod & _ & _ & _ & Hst).
  exists db', message, data. split; [exact Hpost|]. split; [exact Hprod|].
  rewrite Hst. vm_compute. reflexivity.
Defined.

(** X7: a prescription that has been dispensed, fully or partially, is on no
    page of the pending list, whatever the query. *)
Theorem dispensed_leaves_pending_list now pid body db db' resp :
  Dispense.POST now pid body db = (db', resp) → ¬ is_error resp →
  ∀ q listing f,
    Pending.GET q db' = Pending.Ok listing →
    f ∈ Pending.prescriptions listing →
    Pending.id f ≠ pid.
Proof.
  intros Hpost Hok q listing f Hget Hf Hid.
  destruct (POST_Ok _ _ _ _ _ _ Hpost Hok) as [res Hcb].
  destruct (committed_state _ _ _ _ _ _ Hcb) as [(rx' & Hrx' & _ & Hst) _].
  apply GET_Ok in Hget as (rows & Hrows & HF).
  destruct (Forall2_elem_of_r _ _ _ _ HF Hf) as (row & Hrow & Hinc).
  apply includeItems_Some in Hinc as (items & _ & ->). simpl in Hid.
  destruct (findMany_rows _ _ _ _ Hrows Hrow) as (Hlook & Hpend & _).
  rewrite Hid, Hrx' in Hlook. injection Hlook as Hlook.
  rewrite <- Hlook in Hpend. contradiction.
Qed.

Lemma dispensed_leaves_pending_list_witness :
  let body := mkBody [line "item-A" 3 "prod-A"] 30 30 in
  let db' := (Dispense.POST noon "rx-1" body queue_db).1 in
  ¬ is_error (Dispense.POST noon "rx-1" body queue_db).2 ∧
  ∃ listing,
    Pending.GET first_page db' = Pending.Ok listing ∧
    Pending.id <$> Pending.prescriptions listing = ["rx-4"; "rx-2"; "rx-3"] ∧
    ∀ f, f ∈ Pending.prescriptions listing → Pending.id f ≠ "rx-1".
Proof.
  simpl.
  assert (Hok : ¬ is_error (Dispense.POST noon "rx-1"
                  (mkBody [line "item-A" 3 "prod-A"] 30 30) queue_db).2)
    by (vm_compute; auto).
  split; [exact Hok|].
  destruct (Pending.GET first_page
              (Dispense.POST noon "rx-1" (mkBody [line "item-A" 3 "prod-A"] 30 30)
                 queue_db).1) as [listing|e] eqn:H;
    [|vm_compute in H; discriminate H].
  exists listing. split; [reflexivity|]. split.
  - vm_compute in H. injection H as <-. reflexivity.
  - intros f Hf.
    exact (dispensed_leaves_pending_list noon "rx-1" _ queue_db _ _
             (surjective_pairing _) Hok first_page listing f H Hf).
Defined.

(** ** The stock list *)

Lemma string_compare_trans : ∀ s1 s2 s3,
  String.compare s1 s2 ≠ Gt → String.compare s2 s3 ≠ Gt →
  String.compare s1 s3 ≠ Gt.
Proof.
  induction s1 as [|c1 s1 IH]; intros [|c2 s2] [|c3 s3]; simpl;
    try congruence.
  unfold Ascii.compare.
  destruct (N.compare_spec (N_of_ascii c1) (N_of_ascii c2)) as [H12|H12|H12];
    destruct (N.compare_spec (N_of_ascii c2) (N_of_ascii c3)) as [H23|H23|H23];
    try congruence; intros Ha Hb.
  - rewrite H12, H23, N.compare_refl. apply (IH s2 s3); assumption.
  - rewrite H12. apply N.compare_lt_iff in H23. rewrite H23. discriminate.
  - rewrite <- H23. apply N.compare_lt_iff in H12. rewrite H12. discriminate.
  - assert (Hlt : (N_of_ascii c1 < N_of_ascii c3)%N) by (eapply N.lt_trans; eassumption).
    apply N.compare_lt_iff in Hlt. rewrite Hlt. discriminate.
Qed.

Lemma string_leb_trans s1 s2 s3 :
  String.leb s1 s2 = true → String.leb s2 s3 = true → String.leb s1 s3 = true.
Proof.
  unfold String.leb. intros H12 H23.
  pose proof (string_compare_trans s1 s2 s3) as H.
  destruct (String.compare s1 s2); destruct (String.compare s2 s3);
    try discriminate; destruct (String.compare s1 s3); try reflexivity;
    exfalso; apply H; congruence.
Qed.

Global Instance stock_orderBy_transitive : Transitive Stock.orderBy.
Proof.
  intros a b c. unfold Stock.orderBy.
  intros [Hab|[Hab Lab]] [Hbc|[Hbc Lbc]]; try (left; lia).
  right. split; [lia|]. eapply string_leb_trans; eassumption.
Qed.

Global Instance stock_orderBy_total : Total Stock.orderBy.
Proof.
  intros a b. unfold Stock.orderBy.
  destruct (Z.lt_trichotomy (Product.quantity a.2) (Product.quantity b.2))
    as [H|[H|H]]; [left; left; exact H| |right; left; exact H].
  destruct (String.leb_total (Product.name a.2) (Product.name b.2)) as [L|L].
  - left. right. auto.
  - right. right. auto.
Qed.

Lemma StronglySorted_filter {A} (R : relation A) (P : A → Prop)
    `{!∀ x, Decision (P x)} l :
  StronglySorted R l → StronglySorted R (filter P l).
Proof.
  induction 1 as [|x l Hs IH Hall]; [constructor|].
  rewrite filter_cons. destruct (decide (P x)); [|exact IH].
  constructor; [exact IH|].
  apply Forall_forall. intros y Hy. apply list_elem_of_filter in Hy as [_ Hy].
  rewrite Forall_forall in Hall. apply Hall, Hy.
Qed.

Lemma elem_of_paginate {A} skip take_ (l : list A) x :
  x ∈ paginate skip take_ l → x ∈ l.
Proof.
  unfold paginate. destruct (0 <=? take_); intros Hin.
  - eapply elem_of_sublist; [|apply sublist_drop].
    eapply elem_of_sublist; [exact Hin|apply sublist_take].
  - eapply elem_of_sublist; [|apply sublist_take].
    eapply elem_of_sublist; [exact Hin|apply sublist_drop].
Qed.

Lemma length_paginate {A} skip take_ (l : list A) :
  Z.of_nat (length (paginate skip take_ l)) ≤ Z.abs take_ ∧
  (length (paginate skip take_ l) ≤ length l)%nat.
Proof.
  unfold paginate. destruct (Z.leb_spec 0 take_) as [Hpos|Hneg].
  - rewrite length_take, length_drop. lia.
  - rewrite length_drop, !length_take. lia.
Qed.

(** The rows behind a stock-levels response. *)
Lemma stock_GET_rows now q table body :
  Stock.GET now q table = Stock.Ok body →
  ∃ skip take_ rows,
    Stock.offset q = Num skip ∧ Stock.limit q = Num take_ ∧
    rows = paginate skip take_
             (merge_sort Stock.orderBy (Stock.findMany (Stock.whereClause q) table)) ∧
    Stock.total body = Stock.count (Stock.whereClause q) table ∧
    Stock.products body =
      match Stock.status q with
      | Some s => if String.eqb s "low_stock"
                  then filter (λ p, Stock.stockStatus p = low_stock)
                              (Stock.formatProduct now <$> rows)
                  else Stock.formatProduct now <$> rows
      | None => Stock.formatProduct now <$> rows
      end.
Proof.
  unfold Stock.GET.
  destruct (Stock.offset q) as [|skip]; [discriminate|].
  destruct (Stock.limit q) as [|take_]; [discriminate|].
  destruct (skip <? 0); [discriminate|].
  intros H. injection H as <-. simpl.
  exists skip, take_. eexists. repeat split; reflexivity.
Qed.

Lemma stock_products_sublist now q rows :
  match Stock.status q with
  | Some s => if String.eqb s "low_stock"
              then filter (λ p, Stock.stockStatus p = low_stock)
                          (Stock.formatProduct now <$> rows)
              else Stock.formatProduct now <$> rows
  | None => Stock.formatProduct now <$> rows
  end `sublist_of` (Stock.formatProduct now <$> rows).
Proof.
  destruct (Stock.status q) as [s|]; [|reflexivity].
  destruct (String.eqb s "low_stock"); [apply sublist_filter|reflexivity].
Qed.

(** X8: the products of a stock-levels response are in ascending order of
    quantity, and of name among equal quantities: each entry stands in that
    order to every later entry, on any page and under any filter. *)
Theorem stock_ordered now q table body :
  Stock.GET now q table = Stock.Ok body →
  StronglySorted stock_order (Stock.products body).
Proof.
  intros H. apply stock_GET_rows in H as (skip & take_ & rows & _ & _ & -> & _ & ->).
  assert (Hs : StronglySorted stock_order
                 (Stock.formatProduct now <$>
                    paginate skip take_
                      (merge_sort Stock.orderBy
                         (Stock.findMany (Stock.whereClause q) table)))).
  { eapply StronglySorted_fmap;
      [|apply StronglySorted_paginate, StronglySorted_merge_sort; apply _].
    intros a b Hab. exact Hab. }
  destruct (Stock.status q) as [s|]; [|exact Hs].
  destruct (String.eqb s "low_stock"); [|exact Hs].
  apply StronglySorted_filter, Hs.
Qed.

Lemma stock_ordered_witness :
  ∃ body,
    Stock.GET 0 all_stock stock_table = Stock.Ok body ∧
    Stock.id <$> Stock.products body = ["p2"; "p4"; "p1"; "p3"] ∧
    StronglySorted stock_order (Stock.products body).
Proof.
  destruct (Stock.GET 0 all_stock stock_table) as [body|e] eqn:H;
    [|vm_compute in H; discriminate H].
  exists body. split; [reflexivity|]. split.
  - vm_compute in H. injection H as <-. reflexivity.
  - exact (stock_ordered 0 all_stock stock_table body H).
Defined.

Lemma stock_product_origin now q table body fp :
  Stock.GET now q table = Stock.Ok body → fp ∈ Stock.products body →
  ∃ row, table !! row.1 = Some row.2 ∧ Stock.whereClause q row ∧
         fp = Stock.formatProduct now row ∧
         (Stock.status q = Some "low_stock" → Stock.stockStatus fp = low_stock).
Proof.
  intros H Hin.
  apply stock_GET_rows in H as (skip & take_ & rows & _ & _ & -> & _ & Hprod).
  rewrite Hprod in Hin.
  assert (Hlow : Stock.status q = Some "low_stock" → Stock.stockStatus fp = low_stock).
  { intros Hst. rewrite Hst in Hin. simpl in Hin.
    apply list_elem_of_filter in Hin. tauto. }
  pose proof (elem_of_sublist _ _ _ Hin (stock_products_sublist now q _)) as Hin'.
  apply list_elem_of_fmap in Hin' as (row & -> & Hrow).
  apply elem_of_paginate in Hrow.
  rewrite merge_sort_Permutation in Hrow.
  apply list_elem_of_filter in Hrow as [Hwhere Hmem].
  exists row. destruct row as [i p]. apply elem_of_map_to_list in Hmem. auto.
Qed.

(** X9: every product of a stock-levels response passes the filters of the
    query: it is not deleted; it is of the requested category (when one
    other than all is given); with status out_of_stock it has quantity 0
    and is classified out_of_stock; with status low_stock it has a positive
    quantity and is classified low_stock. *)
Theorem stock_filters now q table body fp :
  Stock.GET now q table = Stock.Ok body → fp ∈ Stock.products body →
  Product.isDeleted (Stock.product fp) = false ∧
  (∀ c, Stock.category q = Some c → c ≠ "" → c ≠ "all" →
        Product.category (Stock.product fp) = c) ∧
  (Stock.status q = Some "out_of_stock" →
     Product.quantity (Stock.product fp) = 0 ∧ Stock.stockStatus fp = out_of_stock) ∧
  (Stock.status q = Some "low_stock" →
     0 < Product.quantity (Stock.product fp) ∧ Stock.stockStatus fp = low_stock).
Proof.
  intros H Hin.
  destruct (stock_product_origin _ _ _ _ _ H Hin)
    as (row & _ & (Hlive & Hcat & _ & Hst) & -> & Hlow).
  simpl. split; [exact Hlive|]. split; [|split].
  - intros c Hc Hne Hall. rewrite Hc in Hcat.
    destruct c as [|a c']; [contradiction|].
    change (truthy_string (Some (String a c'))) with (Some (String a c')) in Hcat.
    cbv beta iota in Hcat.
    destruct (String.eqb_spec (String a c') "all"); [contradiction|exact Hcat].
  - intros Hs. rewrite Hs in Hst. simpl in Hst. split; [exact Hst|].
    rewrite Hst. reflexivity.
  - intros Hs. split; [|exact (Hlow Hs)].
    rewrite Hs in Hst. simpl in Hst. exact Hst.
Qed.

Lemma stock_filters_witness :
  let q := {| Stock.category := None; Stock.status := Some "low_stock";
              Stock.search := None; Stock.page := Num 1; Stock.limit := Num 20 |} in
  ∃ body,
    Stock.GET 0 q stock_table = Stock.Ok body ∧
    Stock.id <$> Stock.products body = ["p4"; "p1"] ∧
    Forall (λ fp, Stock.stockStatus fp = low_stock) (Stock.products body).
Proof.
  simpl.
  destruct (Stock.GET 0 {| Stock.category := None; Stock.status := Some "low_stock";
              Stock.search := None; Stock.page := Num 1; Stock.limit := Num 20 |}
              stock_table) as [body|e] eqn:H;
    [|vm_compute in H; discriminate H].
  exists body. split; [reflexivity|]. split.
  - vm_compute in H. injection H as <-. reflexivity.
  - apply Forall_forall. intros fp Hfp.
    exact (proj2 (proj2 (proj2 (proj2 (stock_filters 0 _ stock_table body fp H Hfp)))
                    eq_refl)).
Defined.

(** X10: a page of the stock list holds at most |limit| products and at
    most as many as the total it reports, and that total is the number of
    rows that pass the database filter (with status low_stock: all products
    with a positive quantity, the low-stock filter being applied to the
    page afterwards). *)
Theorem stock_page_bounds now q table body :
  Stock.GET now q table = Stock.Ok body →
  ∃ l, Stock.limit q = Num l ∧
       Z.of_nat (length (Stock.products body)) ≤ Z.abs l ∧
       Z.of_nat (length (Stock.products body)) ≤ Stock.total body ∧
       Stock.total body = Stock.count (Stock.whereClause q) table.
Proof.
  intros H. apply stock_GET_rows in H as (skip & take_ & rows & _ & Hl & -> & Htot & ->).
  exists take_. split; [exact Hl|].
  pose proof (sublist_length _ _ (stock_products_sublist now q
                (paginate skip take_
                   (merge_sort Stock.orderBy
                      (Stock.findMany (Stock.whereClause q) table))))) as Hsub.
  rewrite length_fmap in Hsub.
  destruct (length_paginate skip take_
              (merge_sort Stock.orderBy (Stock.findMany (Stock.whereClause q) table)))
    as [Habs Hlen].
  rewrite (Permutation_length (merge_sort_Permutation Stock.orderBy _)) in Hlen.
  rewrite Htot. unfold Stock.count. repeat split; lia.
Qed.

Lemma stock_page_bounds_witness :
  let q := {| Stock.category := None; Stock.status := Some "low_stock";
              Stock.search := None; Stock.page := Num 1; Stock.limit := Num 20 |} in
  ∃ body,
    Stock.GET 0 q stock_table = Stock.Ok body ∧
    length (Stock.products body) = 2%nat ∧ Stock.total body = 3.
Proof.
  simpl.
  destruct (Stock.GET 0 {| Stock.category := None; Stock.status := Some "low_stock";
              Stock.search := None; Stock.page := Num 1; Stock.limit := Num 20 |}
              stock_table) as [body|e] eqn:H;
    [|vm_compute in H; discriminate H].
  exists body. split; [reflexivity|].
  destruct (stock_page_bounds 0 _ stock_table body H) as (l & _ & _ & _ & Htot).
  split; [|rewrite Htot; vm_compute; reflexivity].
  vm_compute in H. injection H as <-. reflexivity.
Defined.

(** X11: the categories of a stock-levels response are pairwise distinct,
    none is empty, and they are exactly the non-empty categories of the
    products that are not deleted, whatever the filters of the query. *)
Theorem stock_categories now q table body :
  Stock.GET now q table = Stock.Ok body →
  NoDup (Stock.categories body) ∧
  ∀ c, c ∈ Stock.categories body ↔
       c ≠ "" ∧ ∃ i p, table !! i = Some p ∧ Product.isDeleted p = false ∧
                       Product.category p = c.
Proof.
  unfold Stock.GET.
  destruct (Stock.offset q) as [|skip]; [discriminate|].
  destruct (Stock.limit q) as [|take_]; [discriminate|].
  destruct (skip <? 0); [discriminate|].
  intros H. injection H as <-. simpl. split.
  - apply NoDup_filter, NoDup_remove_dups.
  - intros c. rewrite list_elem_of_filter, elem_of_remove_dups, list_elem_of_fmap.
    split.
    + intros [Hne (p & -> & Hp)]. split; [exact Hne|].
      apply list_elem_of_fmap in Hp as ([i p'] & -> & Hin).
      unfold Stock.findMany in Hin. apply list_elem_of_filter in Hin as [Hlive Hin].
      apply elem_of_map_to_list in Hin. exists i, p'. auto.
    + intros [Hne (i & p & Hp & Hlive & <-)]. split; [exact Hne|].
      exists p. split; [reflexivity|].
      apply list_elem_of_fmap. exists (i, p). split; [reflexivity|].
      unfold Stock.findMany. apply list_elem_of_filter. split; [exact Hlive|].
      apply elem_of_map_to_list, Hp.
Qed.

Lemma stock_categories_witness :
  ∃ body,
    Stock.GET 0 all_stock stock_table = Stock.Ok body ∧
    Stock.categories body = ["general"] ∧ NoDup (Stock.categories body).
Proof.
  destruct (Stock.GET 0 all_stock stock_table) as [body|e] eqn:H;
    [|vm_compute in H; discriminate H].
  exists body. split; [reflexivity|]. split.
  - vm_compute in H. injection H as <-. reflexivity.
  - exact (proj1 (stock_categories 0 all_stock stock_table body H)).
Defined.

(** The ratio of line 123 for a positive threshold. *)
Lemma ratio_bounds (q thr : Z) :
  0 < thr →
  let x := (inject_Z q / inject_Z thr * 100)%Q in
  (0 ≤ q → (0 <= x)%Q) ∧ (0 < q → (0 < x)%Q) ∧
  (thr ≤ q → (100 <= x)%Q) ∧ (q = 0 → (x == 0)%Q).
Proof.
  intros Hthr. destruct thr as [|p|p]; try lia.
  unfold Qle, Qlt, Qeq, Qdiv, Qmult, Qinv, inject_Z. simpl.
  rewrite ?Pos2Z.inj_mul, ?Pos.mul_1_r, ?Pos.mul_1_l.
  repeat split; intros; lia.
Qed.

(** X12: for a product of a stock-levels response with a non-negative
    quantity and a reorder level that is absent or not negative, the
    percentage lies between 0 and 100; it is 0 for an out_of_stock product,
    100 for a healthy one and positive for a low_stock one. *)
Theorem stock_percentage now q table body fp :
  Stock.GET now q table = Stock.Ok body → fp ∈ Stock.products body →
  0 ≤ Product.quantity (Stock.product fp) →
  reorder_level_not_negative (Stock.product fp) →
  (0 <= Stock.stockPercentage fp)%Q ∧ (Stock.stockPercentage fp <= 100)%Q ∧
  (Stock.stockStatus fp = out_of_stock → (Stock.stockPercentage fp == 0)%Q) ∧
  (Stock.stockStatus fp = healthy → (Stock.stockPercentage fp == 100)%Q) ∧
  (Stock.stockStatus fp = low_stock → (0 < Stock.stockPercentage fp)%Q).
Proof.
  intros H Hin Hq Hrl.
  destruct (stock_product_origin _ _ _ _ _ H Hin) as (row & _ & _ & -> & _).
  simpl in *.
  assert (Hthr : 0 < Stock.reorderThreshold row.2).
  { unfold Stock.reorderThreshold, or_default, reorder_level_not_negative in *.
    destruct (Product.reorderLevel row.2) as [v|]; [|lia].
    destruct (Z.eqb_spec v 0); lia. }
  destruct (ratio_bounds (Product.quantity row.2) (Stock.reorderThreshold row.2) Hthr)
    as (H0 & Hpos & Hfull & Hzero).
  split; [apply Q.min_glb; [apply H0, Hq|discriminate]|].
  split; [apply Q.le_min_r|].
  split; [|split].
  - destruct (Z.eqb_spec (Product.quantity row.2) 0) as [Hz|Hz].
    + intros _. rewrite Q.min_l; [apply Hzero, Hz|].
      rewrite (Hzero Hz). discriminate.
    + destruct (Product.quantity row.2 <=? Stock.reorderThreshold row.2);
        discriminate.
  - destruct (Z.eqb_spec (Product.quantity row.2) 0) as [Hz|Hz]; [discriminate|].
    destruct (Z.leb_spec (Product.quantity row.2) (Stock.reorderThreshold row.2));
      [discriminate|].
    intros _. apply Q.min_r, Hfull. lia.
  - destruct (Z.eqb_spec (Product.quantity row.2) 0) as [Hz|Hz]; [discriminate|].
    intros _. apply Q.min_glb_lt; [apply Hpos; lia|reflexivity].
Qed.

Lemma stock_percentage_witness :
  ∃ body fp,
    Stock.GET 0 all_stock stock_table = Stock.Ok body ∧
    fp ∈ Stock.products body ∧ Stock.id fp = "p1" ∧
    (0 <= Stock.stockPercentage fp)%Q ∧ (Stock.stockPercentage fp <= 100)%Q ∧
    (Stock.stockPercentage fp == 50)%Q.
Proof.
  destruct (Stock.GET 0 all_stock stock_table) as [body|e] eqn:H;
    [|vm_compute in H; discriminate H].
  assert (Hfp : ∃ fp, Stock.products body !! 2%nat = Some fp ∧
                      Stock.id fp = "p1" ∧
                      Stock.product fp = mkProduct "Paracetamol" 5 (Some 10) ∧
                      (Stock.stockPercentage fp == 50)%Q).
  { vm_compute in H. injection H as <-. eexists. split; [reflexivity|].
    repeat split; reflexivity. }
  destruct Hfp as (fp & Hfp & Hid & Hprod & Hpct).
  assert (Hin : fp ∈ Stock.products body) by (eapply list_elem_of_lookup_2, Hfp).
  exists body, fp. split; [reflexivity|]. split; [exact Hin|]. split; [exact Hid|].
  destruct (stock_percentage 0 all_stock stock_table body fp H Hin)
    as (Hlo & Hhi & _).
  - rewrite Hprod. simpl. lia.
  - rewrite Hprod. unfold reorder_level_not_negative. simpl. lia.
  - auto.
Defined.

(** ** Stock adjustment *)

(** Counting the rows that satisfy a predicate, before and after one row is
    replaced. *)
Lemma length_filter_replace {V} (P : string * V → Prop) `{!∀ r, Decision (P r)}
    (m : gmap string V) i x y :
  m !! i = Some x →
  (length (filter P (map_to_list (<[i := y]> m)))
     + (if decide (P (i, x)) then 1 else 0)
   = length (filter P (map_to_list m))
     + (if decide (P (i, y)) then 1 else 0))%nat.
Proof.
  intros Hx.
  assert (Hold : map_to_list m ≡ₚ (i, x) :: map_to_list (delete i m)).
  { symmetry. apply map_to_list_delete, Hx. }
  assert (Hnew : map_to_list (<[i := y]> m) ≡ₚ (i, y) :: map_to_list (delete i m)).
  { rewrite <- insert_delete_eq. apply map_to_list_insert, lookup_delete_eq. }
  rewrite (Permutation_length (filter_Permutation P _ _ Hold)).
  rewrite (Permutation_length (filter_Permutation P _ _ Hnew)).
  rewrite !filter_cons.
  destruct (decide (P (i, x))); destruct (decide (P (i, y))); simpl; lia.
Qed.

Lemma patch_found now pid q table p :
  table !! pid = Some p →
  Stock.PATCH now pid q table
  = (<[pid := Product.set_updatedAt now (Product.set_quantity q p)]> table,
     Stock.Adjusted {| Stock.oldQuantity := Product.quantity p;
                       Stock.newQuantity := q;
                       Stock.difference := q - Product.quantity p |}).
Proof. intros Hp. unfold Stock.PATCH. rewrite Hp. reflexivity. Qed.

(** X13: an adjustment and the summary.  Adjusting a product that is not
    deleted leaves totalDrugs as it was and moves one unit between inStock
    and outOfStock exactly when the quantity reaches or leaves 0; adjusting
    a soft-deleted product, which the route accepts, leaves the whole
    summary as it was. *)
Theorem patch_summary now pid q table p :
  table !! pid = Some p →
  let s := Stock.summary table in
  let s' := Stock.summary (Stock.PATCH now pid q table).1 in
  (Product.isDeleted p = false →
     Stock.totalDrugs s' = Stock.totalDrugs s ∧
     Stock.outOfStock s'
       = Stock.outOfStock s + Z.b2z (q =? 0) - Z.b2z (Product.quantity p =? 0) ∧
     Stock.inStock s'
       = Stock.inStock s - Z.b2z (q =? 0) + Z.b2z (Product.quantity p =? 0)) ∧
  (Product.isDeleted p = true → s' = s).
Proof.
  intros Hp. rewrite (patch_found _ _ _ _ _ Hp). simpl.
  set (p' := Product.set_updatedAt now (Product.set_quantity q p)).
  unfold Stock.summary, Stock.count, Stock.findMany.
  pose proof (length_filter_replace
                (λ r : string * Product.t, Product.isDeleted r.2 = false)
                table pid p p' Hp) as Htot.
  pose proof (length_filter_replace
                (λ r : string * Product.t,
                   Product.quantity r.2 = 0 ∧ Product.isDeleted r.2 = false)
                table pid p p' Hp) as Hout.
  pose proof (length_filter_replace
                (λ r : string * Product.t,
                   Product.isDeleted r.2 = false ∧ 0 < Product.quantity r.2)
                table pid p p' Hp) as Hin.
  simpl in Htot, Hout, Hin.
  split; intros Hdel.
  - rewrite Hdel in Htot, Hout. simpl.
    destruct (decide (false = false)) as [_|]; [|congruence].
    destruct (decide (Product.quantity p = 0 ∧ false = false)) as [[Ha _]|Ha];
      destruct (decide (q = 0 ∧ false = false)) as [[Hb _]|Hb];
      destruct (Z.eqb_spec q 0); destruct (Z.eqb_spec (Product.quantity p) 0);
      try tauto; simpl; lia.
  - rewrite Hdel in Htot, Hout, Hin.
    destruct (decide (true = false)) as [|_]; [congruence|].
    destruct (decide (Product.quantity p = 0 ∧ true = false)) as [[_ ?]|_];
      [congruence|].
    destruct (decide (q = 0 ∧ true = false)) as [[_ ?]|_]; [congruence|].
    destruct (decide (true = false ∧ 0 < Product.quantity p)) as [[? _]|_];
      [congruence|].
    destruct (decide (true = false ∧ 0 < q)) as [[? _]|_]; [congruence|].
    assert (Hlow : filter (λ r : string * Product.t,
                             Product.isDeleted r.2 = false ∧ 0 < Product.quantity r.2)
                          (map_to_list (<[pid := p']> table))
                   ≡ₚ filter (λ r : string * Product.t,
                             Product.isDeleted r.2 = false ∧ 0 < Product.quantity r.2)
                          (map_to_list table)).
    { rewrite <- (insert_delete_eq table).
      rewrite (map_to_list_insert _ _ _ (lookup_delete_eq table pid)).
      rewrite <- (map_to_list_delete table pid p Hp).
      rewrite !filter_cons. simpl. rewrite Hdel.
      destruct (decide (true = false ∧ 0 < q)) as [[? _]|_]; [congruence|].
      destruct (decide (true = false ∧ 0 < Product.quantity p)) as [[? _]|_];
        [congruence|].
      reflexivity. }
    f_equal; try lia.
    rewrite (Permutation_length (filter_Permutation _ _ _ Hlow)). reflexivity.
Qed.

Lemma patch_summary_witness :
  let s := Stock.summary stock_table in
  let s' := Stock.summary (Stock.PATCH 7 "p1" 0 stock_table).1 in
  Stock.totalDrugs s' = Stock.totalDrugs s ∧
  Stock.outOfStock s' = Stock.outOfStock s + 1 ∧
  Stock.inStock s' = Stock.inStock s - 1.
Proof.
  pose proof (patch_summary 7 "p1" 0 stock_table (mkProduct "Paracetamol" 5 (Some 10))
                eq_refl) as [H _].
  specialize (H eq_refl). cbv zeta in H. cbv zeta.
  destruct H as (Ht & Ho & Hi).
  split; [exact Ht|]. split; [rewrite Ho|rewrite Hi]; vm_compute; reflexivity.
Defined.

(** X14: of two adjustments of the same product the last one wins: the
    table after both is the table after the second alone, and the second
    response reports the first quantity as oldQuantity and the difference
    from it; an adjustment of a product that does not exist answers
    "Product not found" and changes nothing. *)
Theorem patch_last_write_wins now1 now2 pid q1 q2 table :
  (is_Some (table !! pid) →
   (Stock.PATCH now2 pid q2 (Stock.PATCH now1 pid q1 table).1).1
     = (Stock.PATCH now2 pid q2 table).1 ∧
   (Stock.PATCH now2 pid q2 (Stock.PATCH now1 pid q1 table).1).2
     = Stock.Adjusted {| Stock.oldQuantity := q1; Stock.newQuantity := q2;
                         Stock.difference := q2 - q1 |}) ∧
  (table !! pid = None →
   Stock.PATCH now1 pid q1 table = (table, Stock.PatchError500 "Product not found")).
Proof.
  split.
  - intros [p Hp]. rewrite (patch_found now1 _ q1 _ _ Hp). simpl.
    rewrite (patch_found now2 _ q2 _ _ (lookup_insert_eq _ _ _)).
    rewrite (patch_found now2 _ q2 _ _ Hp). simpl.
    rewrite insert_insert_eq. split; reflexivity.
  - intros Hp. unfold Stock.PATCH. rewrite Hp. reflexivity.
Qed.

Lemma patch_last_write_wins_witness :
  Product.quantity <$>
    (Stock.PATCH 2 "p1" 9 (Stock.PATCH 1 "p1" 3 stock_table).1).1 !! "p1" = Some 9 ∧
  (Stock.PATCH 2 "p1" 9 (Stock.PATCH 1 "p1" 3 stock_table).1).2
    = Stock.Adjusted {| Stock.oldQuantity := 3; Stock.newQuantity := 9;
                        Stock.difference := 6 |}.
Proof.
  destruct (patch_last_write_wins 1 2 "p1" 3 9 stock_table) as [H _].
  destruct H as [Ht Hr]; [vm_compute; eauto|].
  split; [rewrite Ht; vm_compute; reflexivity|exact Hr].
Defined.

(** ** The pending list *)

Lemma NoDup_paginate {A} skip take_ (l : list A) :
  NoDup l → NoDup (paginate skip take_ l).
Proof.
  intros H. unfold paginate. destruct (0 <=? take_).
  - eapply sublist_NoDup; [|apply sublist_take].
    eapply sublist_NoDup; [exact H|apply sublist_drop].
  - eapply sublist_NoDup; [|apply sublist_drop].
    eapply sublist_NoDup; [exact H|apply sublist_take].
Qed.

Lemma fmap_paginate {A B} (f : A → B) skip take_ (l : list A) :
  f <$> paginate skip take_ l = paginate skip take_ (f <$> l).
Proof.
  unfold paginate. destruct (0 <=? take_).
  - rewrite fmap_take, fmap_drop. reflexivity.
  - rewrite fmap_drop, !fmap_take, !length_take, !length_fmap. reflexivity.
Qed.

(** The ordered rows that match the query, before [skip] and [take]. *)
Lemma pending_sorted_ids q db :
  NoDup (merge_sort Pending.orderBy
           (filter (Pending.whereClause q) (map_to_list (prescriptions db)))).*1.
Proof.
  rewrite merge_sort_Permutation.
  eapply sublist_NoDup; [apply (NoDup_fst_map_to_list (prescriptions db))|].
  apply fmap_sublist, sublist_filter.
Qed.

Lemma pending_findMany_Some q db rows :
  Pending.findMany q db = Some rows →
  ∃ skip take_,
    Pending.offset q = Num skip ∧ Pending.limit q = Num take_ ∧ 0 ≤ skip ∧
    rows = paginate skip take_
             (merge_sort Pending.orderBy
                (filter (Pending.whereClause q) (map_to_list (prescriptions db)))).
Proof.
  unfold Pending.findMany.
  destruct (Pending.offset q) as [|skip]; [discriminate|].
  destruct (Pending.limit q) as [|take_]; [discriminate|].
  destruct (Z.ltb_spec skip 0); [discriminate|].
  intros Hr. injection Hr as <-. eauto 6.
Qed.

Lemma includeItems_ids db rows fs :
  Forall2 (λ row f, Pending.includeItems db row = Some f) rows fs →
  Pending.id <$> fs = rows.*1.
Proof.
  induction 1 as [|row f rows fs Hf _ IH]; [reflexivity|].
  apply includeItems_Some in Hf as (items & _ & ->).
  rewrite !fmap_cons, IH. reflexivity.
Qed.

Lemma pending_row_where q db rows row :
  Pending.findMany q db = Some rows → row ∈ rows →
  prescriptions db !! row.1 = Some row.2 ∧ Pending.whereClause q row.
Proof.
  intros H Hin. apply pending_findMany_Some in H as (skip & take_ & _ & _ & _ & ->).
  apply elem_of_paginate in Hin. rewrite merge_sort_Permutation in Hin.
  apply list_elem_of_filter in Hin as [Hw Hin].
  destruct row as [i rx]. apply elem_of_map_to_list in Hin. auto.
Qed.

(** X15: the prescriptions of a pending-list response are pairwise distinct;
    each is a prescription row that is pending and not deleted, shown with
    the priority and creation time of the row and with itemCount equal to
    the number of its items; when the query names a priority other than
    all, each has that priority. *)
Theorem pending_filters q db listing :
  Pending.GET q db = Pending.Ok listing →
  NoDup (Pending.id <$> Pending.prescriptions listing) ∧
  ∀ f, f ∈ Pending.prescriptions listing →
    (∃ rx, prescriptions db !! Pending.id f = Some rx ∧
           Prescription.status rx = pending ∧
           Prescription.isDeleted rx = false ∧
           Pending.formatted_priority f = Prescription.priority rx ∧
           Pending.createdAt f = Prescription.createdAt rx) ∧
    Pending.itemCount f = length (Pending.items f) ∧
    Pending.itemCount f = length (itemsOf db (Pending.id f)) ∧
    (∀ p, Pending.priority q = Some p → p ≠ "" → p ≠ "all" →
          priority_name (Pending.formatted_priority f) = p).
Proof.
  intros H. apply GET_Ok in H as (rows & Hrows & HF). split.
  - rewrite (includeItems_ids _ _ _ HF).
    apply pending_findMany_Some in Hrows as (skip & take_ & _ & _ & _ & ->).
    rewrite fmap_paginate. apply NoDup_paginate, pending_sorted_ids.
  - intros f Hf.
    destruct (Forall2_elem_of_r _ _ _ _ HF Hf) as (row & Hrow & Hinc).
    apply includeItems_Some in Hinc as (items & Hitems & ->).
    destruct (pending_row_where _ _ _ _ Hrows Hrow) as (Hlook & Hst & Hdel & Hprio & _).
    simpl. split; [eauto 10|].
    split; [rewrite length_fmap; reflexivity|].
    split; [symmetry; eapply length_mapM, Hitems|].
    intros p Hp Hne Hall. rewrite Hp in Hprio.
    destruct p as [|a p']; [contradiction|].
    change (truthy_string (Some (String a p'))) with (Some (String a p')) in Hprio.
    cbv beta iota in Hprio.
    destruct (String.eqb_spec (String a p') "all"); [contradiction|exact Hprio].
Qed.

Lemma pending_filters_witness :
  let q := {| Pending.priority := Some "emergency"; Pending.search := None;
              Pending.page := Num 1; Pending.limit := Num 10 |} in
  ∃ listing,
    Pending.GET q queue_db = Pending.Ok listing ∧
    Pending.id <$> Pending.prescriptions listing = ["rx-4"; "rx-2"] ∧
    NoDup (Pending.id <$> Pending.prescriptions listing) ∧
    Forall (λ f, Pending.formatted_priority f = emergency)
           (Pending.prescriptions listing).
Proof.
  simpl.
  destruct (Pending.GET {| Pending.priority := Some "emergency"; Pending.search := None;
              Pending.page := Num 1; Pending.limit := Num 10 |} queue_db)
    as [listing|e] eqn:H; [|vm_compute in H; discriminate H].
  exists listing. split; [reflexivity|].
  destruct (pending_filters _ queue_db listing H) as [Hnd Hall].
  split; [vm_compute in H; injection H as <-; reflexivity|].
  split; [exact Hnd|].
  apply Forall_forall. intros f Hf.
  destruct (Hall f Hf) as (_ & _ & _ & Hp).
  specialize (Hp "emergency" eq_refl). 
  destruct (Pending.formatted_priority f); try reflexivity;
    exfalso; assert (Hx := Hp ltac:(discriminate) ltac:(discriminate));
    discriminate Hx.
Defined.

Lemma countOf_sum db :
  Pending.countOf emergency db + Pending.countOf urgent db + Pending.countOf normal db
  = Z.of_nat (length (pending_rows db)).
Proof.
  unfold Pending.countOf, pending_rows.
  induction (map_to_list (prescriptions db)) as [|row l IH]; [reflexivity|].
  rewrite !filter_cons.
  repeat match goal with |- context [decide ?P] => destruct (decide P) end;
    simpl length; try lia;
    exfalso; destruct (Prescription.priority row.2) eqn:Hp; intuition congruence.
Qed.

(** X16: in a pending-list response the three priority counts add up to the
    number of prescriptions that are pending and not deleted, whatever the
    query filters; [all] is the total of the query, it is at least the
    number of prescriptions on the page and at most the sum of the three
    counts, and equals that sum when the query has neither a priority
    filter nor a search term. *)
Theorem pending_priority_counts q db listing :
  Pending.GET q db = Pending.Ok listing →
  let c := Pending.priorityCounts listing in
  Pending.count_emergency c + Pending.count_urgent c + Pending.count_normal c
    = Z.of_nat (length (pending_rows db)) ∧
  Pending.all c = Pending.total listing ∧
  Z.of_nat (length (Pending.prescriptions listing)) ≤ Pending.all c ∧
  Pending.all c
    ≤ Pending.count_emergency c + Pending.count_urgent c + Pending.count_normal c ∧
  ((truthy_string (Pending.priority q) = None ∨ Pending.priority q = Some "all") →
   truthy_string (Pending.search q) = None →
   Pending.all c
     = Pending.count_emergency c + Pending.count_urgent c + Pending.count_normal c).
Proof.
  intros H. pose proof (GET_Ok _ _ _ H) as (rows & Hrows & HF).
  apply Forall2_length in HF.
  apply pending_findMany_Some in Hrows as (skip & take_ & _ & _ & _ & ->).
  pose proof (length_paginate skip take_
                (merge_sort Pending.orderBy
                   (filter (Pending.whereClause q) (map_to_list (prescriptions db)))))
    as [_ Hlen].
  rewrite (Permutation_length (merge_sort_Permutation Pending.orderBy _)) in Hlen.
  unfold Pending.GET in H.
  destruct (Pending.findMany q db); [|discriminate].
  destruct (mapM (Pending.includeItems db) l); [|discriminate].
  injection H as <-. cbv zeta. simpl Pending.priorityCounts. simpl Pending.total.
  simpl Pending.prescriptions in HF.
  simpl Pending.all. simpl Pending.count_emergency. simpl Pending.count_urgent.
  simpl Pending.count_normal. simpl Pending.prescriptions.
  rewrite countOf_sum. unfold prescription_rows, pending_rows.
  split; [reflexivity|]. split; [reflexivity|]. split; [lia|]. split.
  - apply Nat2Z.inj_le, length_filter_le. intros row (Hs & Hd & _). auto.
  - intros Hprio Hsearch. f_equal. apply Nat.le_antisymm.
    + apply length_filter_le. intros row (Hs & Hd & _). auto.
    + apply length_filter_le. intros row [Hs Hd]. unfold Pending.whereClause.
      rewrite Hsearch. split; [exact Hs|]. split; [exact Hd|]. split; [|exact I].
      destruct Hprio as [-> | ->]; [exact I|]. simpl. exact I.
Qed.

Lemma pending_priority_counts_witness :
  let q := {| Pending.priority := Some "urgent"; Pending.search := None;
              Pending.page := Num 1; Pending.limit := Num 10 |} in
  ∃ listing,
    Pending.GET q queue_db = Pending.Ok listing ∧
    Pending.count_emergency (Pending.priorityCounts listing)
    + Pending.count_urgent (Pending.priorityCounts listing)
    + Pending.count_normal (Pending.priorityCounts listing)
    = Z.of_nat (length (pending_rows queue_db)) ∧
    Pending.all (Pending.priorityCounts listing)
    ≤ Pending.count_emergency (Pending.priorityCounts listing)
      + Pending.count_urgent (Pending.priorityCounts listing)
      + Pending.count_normal (Pending.priorityCounts listing).
Proof.
  simpl.
  destruct (Pending.GET {| Pending.priority := Some "urgent"; Pending.search := None;
              Pending.page := Num 1; Pending.limit := Num 10 |} queue_db)
    as [listing|e] eqn:H; [|vm_compute in H; discriminate H].
  exists listing. split; [reflexivity|].
  destruct (pending_priority_counts _ queue_db listing H) as (Hsum & _ & _ & Hle & _).
  split; [exact Hsum|exact Hle].
Defined.






(** ** The drugs routes *)

Lemma head_filter_None {A} (P : A → Prop) `{!∀ x, Decision (P x)} (l : list A) :
  head (filter P l) = None ↔ ∀ x, x ∈ l → ¬ P x.
Proof.
  rewrite head_None. split.
  - intros Hnil x Hin HP.
    assert (Hx : x ∈ filter P l) by (apply list_elem_of_filter; auto).
    rewrite Hnil in Hx. inversion Hx.
  - intros Hall. destruct (filter P l) as [|x l'] eqn:Hf; [reflexivity|].
    assert (Hx : x ∈ filter P l) by (rewrite Hf; left).
    apply list_elem_of_filter in Hx as [HP Hin]. destruct (Hall x Hin HP).
Qed.

Lemma handle_codes_unique r drugs :
  codes_unique drugs → codes_unique (Drugs.handle r drugs).1.
Proof.
  intros Hu. destruct r as [now data|now drugId data|now drugId]; simpl.
  - unfold Drugs.POST. destruct (Drugs.findFirst _ drugs) eqn:Hff; simpl; [exact Hu|].
    apply findFirst_None in Hff.
    intros i j d e Hi Hj Hdi Hdj Hc.
    destruct (decide (i = fresh (dom drugs))) as [->|Hni];
      destruct (decide (j = fresh (dom drugs))) as [->|Hnj]; [reflexivity| | |].
    + rewrite lookup_insert_eq in Hi. rewrite lookup_insert_ne in Hj by congruence.
      injection Hi as <-. simpl in Hc. exfalso. apply Hff. exists j, e. auto.
    + rewrite lookup_insert_eq in Hj. rewrite lookup_insert_ne in Hi by congruence.
      injection Hj as <-. simpl in Hc. exfalso. apply Hff. exists i, d. auto.
    + rewrite lookup_insert_ne in Hi, Hj by congruence. eapply Hu; eauto.
  - unfold Drugs.PUT. destruct (drugs !! drugId) as [old|] eqn:Hold; [|exact Hu].
    destruct (Drug.isDeleted old) eqn:Hlive; [exact Hu|].
    match goal with
    | |- context [match ?c with Some _ => _ | None => _ end] =>
        destruct c as [conflict|] eqn:Hconf
    end; [exact Hu|]. simpl.
    assert (Hother : ∀ k e, k ≠ drugId → drugs !! k = Some e →
                            Drug.isDeleted e = false → Drug.code e ≠ Drugs.code data).
    { intros k e Hk He Hde Hce.
      destruct (String.eqb_spec (Drugs.code data) (Drug.code old)) as [Heq|Hneq].
      - apply Hk. eapply (Hu k drugId e old); eauto. congruence.
      - rewrite head_filter_None in Hconf.
        apply (Hconf (k, e)); [apply elem_of_map_to_list, He|]. simpl. auto. }
    intros i j d e Hi Hj Hdi Hdj Hc.
    destruct (decide (i = drugId)) as [->|Hni];
      destruct (decide (j = drugId)) as [->|Hnj]; [reflexivity| | |].
    + rewrite lookup_insert_eq in Hi. rewrite lookup_insert_ne in Hj by congruence.
      injection Hi as <-. simpl in Hc. destruct (Hother j e Hnj Hj Hdj). auto.
    + rewrite lookup_insert_eq in Hj. rewrite lookup_insert_ne in Hi by congruence.
      injection Hj as <-. simpl in Hc. destruct (Hother i d Hni Hi Hdi). auto.
    + rewrite lookup_insert_ne in Hi, Hj by congruence. eapply Hu; eauto.
  - unfold Drugs.DELETE. destruct (drugs !! drugId) as [old|] eqn:Hold; [|exact Hu].
    simpl. intros i j d e Hi Hj Hdi Hdj Hc.
    destruct (decide (i = drugId)) as [->|Hni].
    { rewrite lookup_insert_eq in Hi. injection Hi as <-. discriminate Hdi. }
    destruct (decide (j = drugId)) as [->|Hnj].
    { rewrite lookup_insert_eq in Hj. injection Hj as <-. discriminate Hdj. }
    rewrite lookup_insert_ne in Hi, Hj by congruence. eapply Hu; eauto.
Qed.

Lemma NoDup_GET drugs : NoDup (Drugs.GET drugs).
Proof.
  unfold Drugs.GET. rewrite merge_sort_Permutation.
  apply NoDup_filter, NoDup_map_to_list.
Qed.

(** X18: the drugs routes keep the codes of the non-deleted drugs distinct.
    When no two non-deleted drugs share a code, then after any run of
    create, update and delete requests no two do, and the codes in the
    drug list are pairwise distinct. *)
Theorem drugs_codes_stay_unique rs drugs :
  codes_unique drugs →
  codes_unique (Drugs.run rs drugs) ∧
  NoDup ((λ row : string * Drug.t, Drug.code row.2) <$> Drugs.GET (Drugs.run rs drugs)).
Proof.
  intros Hu.
  assert (Hrun : codes_unique (Drugs.run rs drugs)).
  { revert drugs Hu. induction rs as [|r rs IH]; intros drugs Hu; [exact Hu|].
    unfold Drugs.run. simpl. apply IH, handle_codes_unique, Hu. }
  split; [exact Hrun|].
  apply NoDup_fmap_2_strong; [|apply NoDup_GET].
  intros [i d] [j e] Hi Hj Hc. simpl in Hc.
  apply elem_of_GET in Hi as [Hi Hdi]. apply elem_of_GET in Hj as [Hj Hdj].
  simpl in *. assert (i = j) as -> by (eapply Hrun; eauto).
  rewrite Hi in Hj. injection Hj as <-. reflexivity.
Qed.

Lemma drugs_codes_stay_unique_witness :
  let rs := [Drugs.Create 1 (mkDrugBody "PCM-500" "Paracetamol");
             Drugs.Create 2 (mkDrugBody "PCM-500" "Panadol");
             Drugs.Create 3 (mkDrugBody "AMX-250" "Amoxicillin")] in
  codes_unique (Drugs.run rs ∅) ∧
  (λ row : string * Drug.t, Drug.code row.2) <$> Drugs.GET (Drugs.run rs ∅)
  = ["AMX-250"; "PCM-500"].
Proof.
  split.
  - apply (drugs_codes_stay_unique _ ∅).
    intros i j d e Hi. rewrite lookup_empty in Hi. discriminate Hi.
  - vm_compute. reflexivity.
Defined.

Lemma handle_row_kept r drugs i d :
  drugs !! i = Some d →
  ∃ d', (Drugs.handle r drugs).1 !! i = Some d' ∧
        Drug.createdAt d' = Drug.createdAt d ∧
        Drug.createdBy d' = Drug.createdBy d ∧
        (Drug.isDeleted d = true → Drug.isDeleted d' = true ∧ same_data d d').
Proof.
  intros Hd.
  assert (Hsame : same_data d d) by (repeat split).
  destruct r as [now data|now drugId data|now drugId]; simpl.
  - unfold Drugs.POST. destruct (Drugs.findFirst _ drugs); simpl; [eauto 10|].
    rewrite lookup_insert_ne; [eauto 10|].
    intros Heq. pose proof (fresh_id_unused drugs) as Hf. congruence.
  - unfold Drugs.PUT. destruct (drugs !! drugId) as [old|] eqn:Hold; [|eauto 10].
    destruct (Drug.isDeleted old) eqn:Hlive; [eauto 10|].
    match goal with
    | |- context [match ?c with Some _ => _ | None => _ end] => destruct c
    end; [eauto 10|]. simpl.
    destruct (decide (i = drugId)) as [->|Hne].
    + rewrite lookup_insert_eq. rewrite Hold in Hd. injection Hd as <-.
      eexists. split; [reflexivity|]. simpl. split; [reflexivity|].
      split; [reflexivity|]. intros Hdel. congruence.
    + rewrite lookup_insert_ne by congruence. eauto 10.
  - unfold Drugs.DELETE. destruct (drugs !! drugId) as [old|] eqn:Hold; [|eauto 10].
    simpl. destruct (decide (i = drugId)) as [->|Hne].
    + rewrite lookup_insert_eq. rewrite Hold in Hd. injection Hd as <-.
      eexists. split; [reflexivity|]. simpl. split; [reflexivity|].
      split; [reflexivity|]. intros _. split; [reflexivity|]. repeat split.
    + rewrite lookup_insert_ne by congruence. eauto 10.
Qed.

(** X19: the drugs routes never remove a row and never change who created
    it or when.  After any run of create, update and delete requests a row
    is still there under its identifier with its createdAt and createdBy;
    when it was deleted it is still deleted, and the columns a request body
    sets are as they were. *)
Theorem drugs_rows_kept rs drugs i d :
  drugs !! i = Some d →
  ∃ d', Drugs.run rs drugs !! i = Some d' ∧
        Drug.createdAt d' = Drug.createdAt d ∧
        Drug.createdBy d' = Drug.createdBy d ∧
        (Drug.isDeleted d = true → Drug.isDeleted d' = true ∧ same_data d d').
Proof.
  revert drugs d. induction rs as [|r rs IH]; intros drugs d Hd.
  - exists d. split; [exact Hd|]. split; [reflexivity|]. split; [reflexivity|].
    intros Hx. split; [exact Hx|]. repeat split.
  - destruct (handle_row_kept r drugs i d Hd) as (d1 & Hd1 & Hat & Hby & Hdel).
    destruct (IH _ _ Hd1) as (d' & Hd' & Hat' & Hby' & Hdel').
    exists d'. unfold Drugs.run. simpl. split; [exact Hd'|].
    split; [congruence|]. split; [congruence|].
    intros Hx. destruct (Hdel Hx) as [Hx1 Hs1]. destruct (Hdel' Hx1) as [Hx' Hs'].
    split; [exact Hx'|].
    unfold same_data in *. intuition congruence.
Qed.

Lemma drugs_rows_kept_witness :
  let drugs := (Drugs.POST 1 (mkDrugBody "PCM-500" "Paracetamol") ∅).1 in
  let i := fresh (dom (∅ : gmap string Drug.t)) in
  ∃ d', Drugs.run [Drugs.Update 5 i (mkDrugBody "PCM-650" "Paracetamol forte");
                   Drugs.Delete 6 i;
                   Drugs.Update 7 i (mkDrugBody "PCM-999" "Other")] drugs !! i = Some d' ∧
        Drug.createdAt d' = 1 ∧ Drug.createdBy d' = "admin".
Proof.
  intros drugs i.
  eassert (Hd : drugs !! i = Some _) by (vm_compute; reflexivity).
  destruct (drugs_rows_kept
              [Drugs.Update 5 i (mkDrugBody "PCM-650" "Paracetamol forte");
               Drugs.Delete 6 i;
               Drugs.Update 7 i (mkDrugBody "PCM-999" "Other")]
              drugs i _ Hd)
    as (d' & Hd' & Hat & Hby & _).
  exists d'. split; [exact Hd'|]. split; [exact Hat|exact Hby].
Defined.

Global Instance newestFirst_transitive : Transitive Drugs.newestFirst.
Proof. intros a b c. unfold Drugs.newestFirst. lia. Qed.

Global Instance newestFirst_total : Total Drugs.newestFirst.
Proof. intros a b. unfold Drugs.newestFirst. lia. Qed.

(** X20: the drug list holds the non-deleted rows of the table and no
    others, each once, ordered by creation time with the newest first. *)
Theorem drugs_list drugs :
  StronglySorted Drugs.newestFirst (Drugs.GET drugs) ∧
  NoDup (Drugs.GET drugs).*1 ∧
  (∀ i d, (i, d) ∈ Drugs.GET drugs ↔ drugs !! i = Some d ∧ Drug.isDeleted d = false) ∧
  (length (Drugs.GET drugs) ≤ size drugs)%nat.
Proof.
  split; [apply StronglySorted_merge_sort; apply _|].
  split; [|split].
  - unfold Drugs.GET. rewrite merge_sort_Permutation.
    eapply sublist_NoDup; [apply (NoDup_fst_map_to_list drugs)|].
    apply fmap_sublist, sublist_filter.
  - intros i d. apply (elem_of_GET drugs (i, d)).
  - unfold Drugs.GET.
    rewrite (Permutation_length (merge_sort_Permutation Drugs.newestFirst _)).
    rewrite <- length_map_to_list. apply sublist_length, sublist_filter.
Qed.

(** X21: a drug created later than every row of the table heads the drug
    list.  When the code is not in use and the time of creation is after
    the createdAt of every row, the first entry of the list after the
    creation is the drug created. *)
Theorem drugs_created_listed_first now data drugs :
  ¬ code_in_use (Drugs.code data) drugs →
  (∀ j e, drugs !! j = Some e → Drug.createdAt e < now) →
  ∃ i d, (Drugs.POST now data drugs).2 = Drugs.Created201 (i, d) ∧
         head (Drugs.GET (Drugs.POST now data drugs).1) = Some (i, d).
Proof.
  intros Hfree Hnew.
  pose proof (proj2 (findFirst_None _ _) Hfree) as Hnone.
  unfold Drugs.POST. rewrite Hnone. simpl.
  eexists _, _. split; [reflexivity|].
  set (i := fresh (dom drugs)).
  match goal with
  | |- context [<[i := ?row]> drugs] => set (d := row)
  end.
  assert (Hin : (i, d) ∈ Drugs.GET (<[i := d]> drugs)).
  { apply elem_of_GET. simpl. rewrite lookup_insert_eq. auto. }
  pose proof (StronglySorted_merge_sort Drugs.newestFirst
                (filter (λ row : string * Drug.t, Drug.isDeleted row.2 = false)
                        (map_to_list (<[i := d]> drugs)))) as Hs.
  fold (Drugs.GET (<[i := d]> drugs)) in Hs.
  destruct (Drugs.GET (<[i := d]> drugs)) as [|[j e] rest] eqn:HG; [inversion Hin|].
  simpl. f_equal.
  assert (Hje : (j, e) ∈ Drugs.GET (<[i := d]> drugs)) by (rewrite HG; left).
  apply elem_of_GET in Hje as [Hje _]. simpl in Hje.
  destruct (decide (j = i)) as [->|Hne].
  - rewrite lookup_insert_eq in Hje. injection Hje as <-. reflexivity.
  - exfalso. rewrite lookup_insert_ne in Hje by congruence.
    apply Hnew in Hje.
    apply elem_of_cons in Hin as [Heq|Hin]; [congruence|].
    apply StronglySorted_inv in Hs as [_ Hall].
    rewrite Forall_forall in Hall. specialize (Hall _ Hin).
    unfold Drugs.newestFirst in Hall. simpl in Hall. lia.
Qed.

Lemma drugs_created_listed_first_witness :
  let drugs := Drugs.run [Drugs.Create 1 (mkDrugBody "PCM-500" "Paracetamol");
                          Drugs.Create 2 (mkDrugBody "AMX-250" "Amoxicillin")] ∅ in
  ∃ i d, (Drugs.POST 3 (mkDrugBody "IBU-200" "Ibuprofen") drugs).2
           = Drugs.Created201 (i, d) ∧
         head (Drugs.GET (Drugs.POST 3 (mkDrugBody "IBU-200" "Ibuprofen") drugs).1)
           = Some (i, d).
Proof.
  intros drugs. apply (drugs_created_listed_first 3 _ drugs).
  - apply findFirst_None. vm_compute. reflexivity.
  - change (map_Forall (λ _ e, Drug.createdAt e < 3) drugs).
    apply (bool_decide_unpack _). vm_compute. exact I.
Defined.

(** X22: after a drug is deleted, an update of it is answered 404 and
    changes nothing, while a second deletion is answered 200 and stamps
    the row again; and its code is free: when no other non-deleted drug
    carries the code, a creation with that code succeeds under a new
    identifier. *)
Theorem drugs_after_delete now i drugs d :
  drugs !! i = Some d →
  let drugs1 := (Drugs.DELETE now i drugs).1 in
  (∀ now' data,
     Drugs.PUT now' i data drugs1 = (drugs1, Drugs.NotFound404 "Drug does not exist")) ∧
  (∀ now', ∃ d',
     Drugs.DELETE now' i drugs1 = (<[i := d']> drugs1, Drugs.Ok200 (i, d')) ∧
     Drug.isDeleted d' = true ∧ Drug.updatedAt d' = now' ∧ same_data d d') ∧
  (∀ now' data,
     Drugs.code data = Drug.code d →
     (∀ j e, j ≠ i → drugs !! j = Some e → Drug.isDeleted e = false →
             Drug.code e ≠ Drug.code d) →
     ∃ j row,
       Drugs.POST now' data drugs1 = (<[j := row]> drugs1, Drugs.Created201 (j, row)) ∧
       j ≠ i ∧ Drug.code row = Drug.code d ∧ Drug.isDeleted row = false).
Proof.
  intros Hd. unfold Drugs.DELETE at 1. rewrite Hd. simpl.
  match goal with
  | |- context [<[i := ?row]> drugs] => set (gone := row)
  end.
  split; [|split].
  - intros now' data. unfold Drugs.PUT. rewrite lookup_insert_eq. reflexivity.
  - intros now'. unfold Drugs.DELETE. rewrite lookup_insert_eq.
    eexists. split; [reflexivity|]. simpl. repeat split.
  - intros now' data Hcode Hother.
    assert (Hfree : ¬ code_in_use (Drugs.code data) (<[i := gone]> drugs)).
    { intros (j & e & Hj & Hc & Hl).
      destruct (decide (j = i)) as [->|Hne].
      - rewrite lookup_insert_eq in Hj. injection Hj as <-. discriminate Hl.
      - rewrite lookup_insert_ne in Hj by congruence.
        apply (Hother j e Hne Hj Hl). congruence. }
    apply findFirst_None in Hfree. unfold Drugs.POST. rewrite Hfree.
    eexists _, _. split; [reflexivity|]. simpl. split; [|auto].
    intros Heq. pose proof (fresh_id_unused (<[i := gone]> drugs)) as Hf.
    rewrite Heq, lookup_insert_eq in Hf. discriminate Hf.
Qed.

Lemma drugs_after_delete_witness :
  let drugs := (Drugs.POST 1 (mkDrugBody "PCM-500" "Paracetamol") ∅).1 in
  let i := fresh (dom (∅ : gmap string Drug.t)) in
  let drugs1 := (Drugs.DELETE 2 i drugs).1 in
  Drugs.PUT 3 i (mkDrugBody "PCM-500" "Paracetamol") drugs1
    = (drugs1, Drugs.NotFound404 "Drug does not exist") ∧
  ∃ d', Drugs.DELETE 4 i drugs1 = (<[i := d']> drugs1, Drugs.Ok200 (i, d')) ∧
        Drug.updatedAt d' = 4.
Proof.
  intros drugs i drugs1.
  eassert (Hd : drugs !! i = Some _) by (vm_compute; reflexivity).
  destruct (drugs_after_delete 2 i drugs _ Hd) as (Hput & Hdel & _).
  split; [apply Hput|].
  destruct (Hdel 4) as (d' & H1 & _ & H2 & _). exists d'. split; [exact H1|exact H2].
Defined.

(** X23: the three answers of an update.  It is answered 404 exactly when
    no non-deleted drug has the identifier; 409 exactly when the drug is
    there, the body changes its code, and another non-deleted drug carries
    the new code; in both cases the table is unchanged.  Otherwise it is
    answered 200 with the row written: the code of the body, the createdAt
    and createdBy of the old row, not deleted, and no other row touched. *)
Theorem drugs_update_outcomes now i data drugs :
  let r := Drugs.PUT now i data drugs in
  ((∃ m, r.2 = Drugs.NotFound404 m) ↔
     ¬ ∃ d, drugs !! i = Some d ∧ Drug.isDeleted d = false) ∧
  ((∃ m, r.2 = Drugs.Conflict409 m) ↔
     ∃ d, drugs !! i = Some d ∧ Drug.isDeleted d = false ∧
          Drugs.code data ≠ Drug.code d ∧
          ∃ j e, j ≠ i ∧ drugs !! j = Some e ∧ Drug.isDeleted e = false ∧
                 Drug.code e = Drugs.code data) ∧
  ((∀ row, r.2 ≠ Drugs.Ok200 row) → r.1 = drugs) ∧
  (∀ row, r.2 ≠ Drugs.Created201 row) ∧
  (∀ row, r.2 = Drugs.Ok200 row →
     ∃ d, drugs !! i = Some d ∧
          row.1 = i ∧ r.1 = <[i := row.2]> drugs ∧
          Drug.code row.2 = Drugs.code data ∧
          Drug.createdAt row.2 = Drug.createdAt d ∧
          Drug.createdBy row.2 = Drug.createdBy d ∧
          Drug.updatedAt row.2 = now ∧
          Drug.isDeleted row.2 = false ∧
          ∀ k, k ≠ i → r.1 !! k = drugs !! k).
Proof.
  cbv zeta. unfold Drugs.PUT.
  destruct (drugs !! i) as [old|] eqn:Hold; simpl.
  { destruct (Drug.isDeleted old) eqn:Hlive; simpl.
    - split; [split; [intros _ (d & Hd & Hl); congruence|eauto]|].
      split; [split; [intros [m Hm]; discriminate Hm
                     |intros (d & Hd & Hl & _); congruence]|].
      split; [reflexivity|]. split; [discriminate|]. discriminate.
    - match goal with
      | |- context [match ?c with Some _ => _ | None => _ end] =>
          destruct c as [conflict|] eqn:Hconf
      end; simpl.
      + destruct (String.eqb_spec (Drugs.code data) (Drug.code old)) as [Heq|Hneq];
          [discriminate Hconf|].
        apply head_Some_elem_of, list_elem_of_filter in Hconf
          as [(Hc & Hl & Hne) Hin].
        destruct conflict as [j e]. apply elem_of_map_to_list in Hin. simpl in *.
        split; [split; [intros [m Hm]; discriminate Hm|intros Hno; destruct Hno; eauto]|].
        split; [split; [intros _; exists old; eauto 12|eauto]|].
        split; [reflexivity|]. split; [discriminate|]. discriminate.
      + split; [split; [intros [m Hm]; discriminate Hm|intros Hno; destruct Hno; eauto]|].
        split.
        { split; [intros [m Hm]; discriminate Hm|].
          intros (d & Hd & _ & Hneq & j & e & Hne & Hj & Hl & Hc). exfalso.
          injection Hd as <-.
          destruct (String.eqb_spec (Drugs.code data) (Drug.code old)) as [Heq|_];
            [contradiction|].
          rewrite head_filter_None in Hconf.
          apply (Hconf (j, e)); [apply elem_of_map_to_list, Hj|]. simpl. auto. }
        split; [intros Hno; exfalso; eapply Hno; reflexivity|].
        split; [discriminate|].
        intros row Hrow. injection Hrow as <-. exists old. simpl.
        repeat (split; [first [reflexivity|exact Hlive]|]).
        intros k Hk. rewrite lookup_insert_ne by congruence. reflexivity. }
  split; [split; [intros _ (d & Hd & _); discriminate Hd|eauto]|].
  split; [split; [intros [m Hm]; discriminate Hm|intros (d & Hd & _); discriminate Hd]|].
  split; [reflexivity|]. split; [discriminate|]. discriminate.
Qed.

(** ** The prescription detail route *)

Lemma detail_GET_Ok pid db p :
  Detail.GET pid db = Detail.Ok p →
  ∃ rx items,
    prescriptions db !! pid = Some rx ∧
    Prescription.isDeleted rx = false ∧
    mapM (include_product db) (itemsOf db pid) = Some items ∧
    p = Detail.format pid rx items.
Proof.
  unfold Detail.GET, Dispense.findUnique.
  destruct (prescriptions db !! pid) as [rx|]; [|discriminate].
  destruct (Prescription.isDeleted rx) eqn:Hdel; [discriminate|].
  destruct (mapM (include_product db) (itemsOf db pid)) as [items|]; [|discriminate].
  intros H. injection H as <-. eauto 10.
Qed.

Lemma detail_item_rows db pid (items : list ItemWithProduct.t) item :
  mapM (include_product db) (itemsOf db pid) = Some items →
  item ∈ Detail.formatItem <$> items →
  ∃ row prod,
    prescriptionItems db !! Detail.item_id item = Some row ∧
    PrescriptionItem.prescriptionId row = pid ∧
    products db !! PrescriptionItem.productId row = Some prod ∧
    Detail.product_id item = PrescriptionItem.productId row ∧
    Detail.availableStock item = Product.quantity prod ∧
    Detail.quantityPrescribed item = PrescriptionItem.quantityPrescribed row ∧
    Detail.unitPrice item = PrescriptionItem.unitPrice row ∧
    Detail.hasStock item
      = (Product.quantity prod >=? PrescriptionItem.quantityPrescribed row).
Proof.
  intros Hitems Hin. apply list_elem_of_fmap in Hin as (it & -> & Hit).
  apply include_product_rows in Hitems.
  destruct (Forall2_elem_of_r _ _ _ _ Hitems Hit) as ([i row] & Hrow & Hid & Hitem & Hprod).
  apply elem_of_itemsOf in Hrow as [Hrow Hpid]. simpl in *.
  exists row, (ItemWithProduct.product it). rewrite Hid, Hitem. auto 10.
Qed.

Lemma detail_item_ids db pid (items : list ItemWithProduct.t) :
  mapM (include_product db) (itemsOf db pid) = Some items →
  Detail.item_id <$> (Detail.formatItem <$> items) = (itemsOf db pid).*1.
Proof.
  intros Hitems. apply include_product_rows in Hitems.
  induction Hitems as [|row it rows its (Hid & _) _ IH]; [reflexivity|].
  rewrite !fmap_cons, IH. simpl. rewrite Hid. reflexivity.
Qed.

(** X24: the answers of the prescription detail route.  It answers 404
    exactly when no live prescription has the identifier, and never 500
    when every item resolves to a product.  A prescription it shows is the
    row of that identifier, with one item for each item row of the
    prescription and no others; each item carries the product and the
    quantity on hand of its row, and hasStock says that the quantity on
    hand covers the quantity prescribed. *)
Theorem detail_answers pid db :
  (Detail.GET pid db = Detail.NotFound404 "Prescription not found" ↔ not_live db pid) ∧
  (fk_integrity db → ∀ e, Detail.GET pid db ≠ Detail.Error500 e) ∧
  (∀ p, Detail.GET pid db = Detail.Ok p →
     (∃ rx, prescriptions db !! pid = Some rx ∧
            Prescription.isDeleted rx = false ∧
            Detail.id p = pid ∧
            Detail.status p = Prescription.status rx ∧
            Detail.totalCost p = Prescription.totalCost rx) ∧
     NoDup (Detail.item_id <$> Detail.items p) ∧
     (∀ i, i ∈ Detail.item_id <$> Detail.items p ↔
           ∃ row, prescriptionItems db !! i = Some row ∧
                  PrescriptionItem.prescriptionId row = pid) ∧
     (∀ item, item ∈ Detail.items p →
        ∃ row prod,
          prescriptionItems db !! Detail.item_id item = Some row ∧
          products db !! PrescriptionItem.productId row = Some prod ∧
          Detail.product_id item = PrescriptionItem.productId row ∧
          Detail.availableStock item = Product.quantity prod ∧
          Detail.quantityPrescribed item = PrescriptionItem.quantityPrescribed row ∧
          (Detail.hasStock item = true ↔
             PrescriptionItem.quantityPrescribed row ≤ Product.quantity prod))).
Proof.
  split; [|split].
  - unfold Detail.GET, Dispense.findUnique, not_live.
    destruct (prescriptions db !! pid) as [rx|]; [|tauto].
    destruct (Prescription.isDeleted rx) eqn:Hdel; [tauto|].
    destruct (mapM (include_product db) (itemsOf db pid));
      split; (discriminate || congruence).
  - intros Hfk e. unfold Detail.GET, Dispense.findUnique.
    destruct (prescriptions db !! pid) as [rx|]; [|discriminate].
    destruct (Prescription.isDeleted rx); [discriminate|].
    destruct (fk_integrity_include db pid Hfk) as [items Hitems].
    rewrite Hitems. discriminate.
  - intros p Hp. apply detail_GET_Ok in Hp as (rx & items & Hrx & Hlive & Hitems & ->).
    simpl. split; [eauto 10|].
    rewrite (detail_item_ids _ _ _ Hitems).
    split; [apply NoDup_itemsOf|]. split; [apply elem_of_itemsOf_fst|].
    intros item Hin.
    destruct (detail_item_rows _ _ _ _ Hitems Hin)
      as (row & prod & Hrow & _ & Hprod & Hpi & Hav & Hq & _ & Hhas).
    exists row, prod. repeat (split; [assumption|]).
    rewrite Hhas. rewrite Z.geb_le. reflexivity.
Qed.

(** ** The dispensing page *)

Lemma elem_of_obj_set {A} (k : string) (v : A) o e :
  e ∈ obj_set k v o → e = (k, v) ∨ e ∈ o.
Proof.
  induction o as [|x o IH]; simpl.
  - intros H. apply list_elem_of_singleton in H. auto.
  - destruct (String.eqb x.1 k); intros H; apply elem_of_cons in H as [->|H].
    + auto.
    + right. right. exact H.
    + right. left.
    + destruct (IH H) as [->|Hin]; [auto|right; right; exact Hin].
Qed.

Lemma obj_set_keys {A} (k : string) (v : A) o :
  (obj_set k v o).*1 = if decide (k ∈ o.*1) then o.*1 else (o.*1 ++ [k])%list.
Proof.
  induction o as [|x o IH].
  - simpl. destruct (decide (k ∈ [])) as [H|_]; [inversion H|reflexivity].
  - cbn [obj_set]. rewrite (fmap_cons fst x o).
    destruct (String.eqb_spec x.1 k) as [Heq|Hne].
    + rewrite fmap_cons. cbn [fst].
      rewrite decide_True by (rewrite Heq; left). rewrite Heq. reflexivity.
    + rewrite fmap_cons, IH. destruct (decide (k ∈ o.*1)) as [Hin|Hnin].
      * rewrite decide_True by (right; exact Hin). reflexivity.
      * rewrite decide_False; [reflexivity|].
        intros H. apply elem_of_cons in H as [H|H]; [congruence|contradiction].
Qed.

Lemma NoDup_obj_set {A} (k : string) (v : A) o :
  NoDup o.*1 → NoDup (obj_set k v o).*1.
Proof.
  intros Hnd. rewrite obj_set_keys. destruct (decide (k ∈ o.*1)) as [Hin|Hnin]; [exact Hnd|].
  apply NoDup_app. split; [exact Hnd|]. split; [|apply NoDup_singleton].
  intros x Hx Hk. apply list_elem_of_singleton in Hk. congruence.
Qed.

Lemma obj_delete_sublist {A} (k : string) (o : list (string * A)) :
  sublist (obj_delete k o) o.
Proof.
  induction o as [|x o IH]; simpl; [constructor|].
  destruct (negb (String.eqb x.1 k)); [apply sublist_skip|apply sublist_cons]; exact IH.
Qed.

Lemma obj_get_Some {A} (k : string) (o : list (string * A)) v :
  obj_get k o = Some v → (k, v) ∈ o.
Proof.
  unfold obj_get.
  destruct (List.find (λ e : string * A, String.eqb e.1 k) o) as [[k' v']|] eqn:Hf;
    [|discriminate].
  simpl. intros H. injection H as <-.
  apply find_some in Hf as [Hin Hk]. apply String.eqb_eq in Hk. simpl in Hk. subst k'.
  apply list_elem_of_In, Hin.
Qed.

Lemma findItem_Some i p item :
  DispensePage.findItem i p = Some item →
  item ∈ Detail.items p ∧ Detail.item_id item = i.
Proof.
  unfold DispensePage.findItem. intros Hf.
  apply find_some in Hf as [Hin Hk]. apply String.eqb_eq in Hk.
  split; [apply list_elem_of_In, Hin|exact Hk].
Qed.

Lemma entries_of_set p o k v item :
  entries_of p o →
  item ∈ Detail.items p → Detail.item_id item = k →
  DispensePage.itemId v = Some k →
  DispensePage.productId v = Some (Detail.product_id item) →
  entries_of p (obj_set k v o).
Proof.
  intros [Hnd Hall] Hin Hid Hi Hp. split; [apply NoDup_obj_set, Hnd|].
  apply Forall_forall. intros e He.
  apply elem_of_obj_set in He as [->|He].
  - exists item. simpl. auto.
  - rewrite Forall_forall in Hall. apply Hall, He.
Qed.

Lemma entries_of_delete p o k :
  entries_of p o → entries_of p (obj_delete k o).
Proof.
  intros [Hnd Hall]. split.
  - eapply sublist_NoDup; [exact Hnd|]. apply fmap_sublist, obj_delete_sublist.
  - apply Forall_forall. intros e He. rewrite Forall_forall in Hall.
    apply Hall. eapply elem_of_sublist; [exact He|apply obj_delete_sublist].
Qed.

Lemma entries_of_fetch p l : ∀ acc,
  entries_of p acc → l ⊆ Detail.items p →
  entries_of p
    (fold_left (λ acc item, obj_set (Detail.item_id item) (DispensePage.entryOf item) acc)
               l acc).
Proof.
  induction l as [|item l IH]; intros acc Hacc Hsub; [exact Hacc|].
  simpl. apply IH.
  - apply entries_of_set with item; [exact Hacc| |reflexivity..].
    apply Hsub. left.
  - intros x Hx. apply Hsub. right. exact Hx.
Qed.

(** What holds of every state the page reaches. *)
Lemma page_invariant s :
  reachable s →
  match DispensePage.prescription s with
  | Some p => (∃ pid db, Detail.GET pid db = Detail.Ok p) ∧
              entries_of p (DispensePage.dispensedItems s)
  | None => DispensePage.dispensedItems s = []
  end.
Proof.
  induction 1 as [|s e Hs IH Hr]; [reflexivity|].
  destruct e as [response|i checked|i quantity| |method|text|text|box checked];
    simpl in *; try exact IH.
  - destruct Hr as (pid & db & ->).
    unfold DispensePage.fetchPrescriptionDetails.
    destruct (Detail.GET pid db) as [data|e|e] eqn:HG; simpl; try exact IH.
    split; [eauto|]. apply entries_of_fetch; [|intros x Hx; exact Hx].
    split; [constructor|constructor].
  - unfold DispensePage.handleItemDispensed.
    destruct checked; simpl.
    + destruct (DispensePage.prescription s) as [p|] eqn:Hp; [|rewrite Hp; exact IH].
      destruct (DispensePage.findItem i p) as [item|] eqn:Hf; [|rewrite Hp; exact IH].
      simpl. rewrite Hp. destruct IH as [HG He]. split; [exact HG|].
      apply findItem_Some in Hf as [Hin Hid].
      apply entries_of_set with item; auto. simpl. rewrite Hid. reflexivity.
    + destruct (DispensePage.prescription s) as [p|].
      * destruct IH as [HG He]. split; [exact HG|]. apply entries_of_delete, He.
      * rewrite IH. reflexivity.
  - destruct Hr as [(p & Hp & _) [entry Hentry]].
    unfold DispensePage.handleQuantityChange. simpl. rewrite Hp in *.
    destruct IH as [HG He]. split; [exact HG|]. rewrite Hentry.
    apply obj_get_Some in Hentry.
    pose proof He as [_ Hall]. rewrite Forall_forall in Hall.
    destruct (Hall _ Hentry) as (item & Hin & Hid & Hi & Hprod). simpl in *.
    apply entries_of_set with item; auto.
Qed.

Lemma page_lines p o : ∀ lines,
  entries_of p o → mapM line_of o.*2 = Some lines →
  DispensedItem.itemId <$> lines = o.*1 ∧
  Forall2 (λ (e : string * DispensePage.DispenseItem) d,
             DispensedItem.itemId d = e.1 ∧
             DispensedItem.quantityDispensed d = DispensePage.quantityDispensed e.2 ∧
             ∃ item, item ∈ Detail.items p ∧ Detail.item_id item = e.1 ∧
                     DispensedItem.productId d = Detail.product_id item) o lines.
Proof.
  induction o as [|e o IH]; intros lines [Hnd Hall] Hm.
  - injection Hm as <-. split; [reflexivity|constructor].
  - rewrite fmap_cons in Hm. apply mapM_Some in Hm.
    apply Forall2_cons_inv_l in Hm as (d & rest & Hd & Hrest & ->).
    apply mapM_Some in Hrest.
    apply Forall_cons in Hall as [(item & Hin & Hid & Hi & Hp) Hall].
    rewrite fmap_cons in Hnd. apply NoDup_cons in Hnd as [_ Hnd].
    unfold line_of in Hd. rewrite Hi, Hp in Hd. injection Hd as <-.
    destruct (IH rest (conj Hnd Hall) Hrest) as [Hids HF].
    split; [rewrite !fmap_cons, Hids; reflexivity|].
    constructor; [|exact HF]. simpl. eauto 10.
Qed.

Lemma page_lines_exist p o :
  entries_of p o → is_Some (mapM line_of o.*2).
Proof.
  intros [_ Hall]. apply mapM_is_Some, Forall_fmap, Forall_forall.
  intros e He. rewrite Forall_forall in Hall.
  destruct (Hall e He) as (item & _ & _ & Hi & Hp).
  unfold compose, line_of. rewrite Hi, Hp. eauto.
Qed.

Lemma handleDispense_Some session s r :
  DispensePage.handleDispense session s = Some r →
  DispensePage.canDispense s = true ∧
  ∃ p user,
    DispensePage.prescription s = Some p ∧ session = Some user ∧
    r = {| DispensePage.request_dispensedItems := (DispensePage.dispensedItems s).*2;
           DispensePage.request_totalAmount :=
             DispensePage.total (DispensePage.calculateTotals s);
           DispensePage.request_amountPaid :=
             DispensePage.parseFloat (DispensePage.amountPaid s);
           DispensePage.request_paymentMethod := DispensePage.paymentMethod s;
           DispensePage.request_notes := DispensePage.notes s;
           DispensePage.request_dispensedBy := user |}.
Proof.
  unfold DispensePage.handleDispense.
  destruct (DispensePage.canDispense s); [|discriminate]. simpl.
  destruct (DispensePage.prescription s) as [p|]; [|discriminate].
  destruct session as [user|]; [|discriminate].
  intros H. injection H as <-. eauto 10.
Qed.

(** X25: what the dispensing page sends.  In every state the page reaches
    from its first render, a request it sends has at least one line, names
    no item twice, and each line names an item of the prescription as the
    detail route showed it, together with the product of that item. *)
Theorem page_request_lines s session r :
  reachable s →
  DispensePage.handleDispense session s = Some r →
  ∃ p pid db lines,
    DispensePage.prescription s = Some p ∧
    Detail.GET pid db = Detail.Ok p ∧
    mapM line_of (DispensePage.request_dispensedItems r) = Some lines ∧
    lines ≠ [] ∧
    NoDup (DispensedItem.itemId <$> lines) ∧
    ∀ d, d ∈ lines →
      ∃ row, prescriptionItems db !! DispensedItem.itemId d = Some row ∧
             PrescriptionItem.prescriptionId row = pid ∧
             PrescriptionItem.productId row = DispensedItem.productId d.
Proof.
  intros Hreach Hsend.
  apply handleDispense_Some in Hsend as (Hcan & p & user & Hp & -> & ->).
  pose proof (page_invariant s Hreach) as Hinv. rewrite Hp in Hinv.
  destruct Hinv as [(pid & db & HG) He].
  destruct (page_lines_exist _ _ He) as [lines Hlines].
  destruct (page_lines _ _ _ He Hlines) as [Hids HF].
  exists p, pid, db, lines. simpl.
  split; [exact Hp|]. split; [exact HG|]. split; [exact Hlines|].
  split; [|split].
  - intros ->. apply Forall2_length in HF. simpl in HF.
    unfold DispensePage.canDispense in Hcan.
    destruct (DispensePage.dispensedItems s); [|discriminate HF].
    simpl in Hcan. discriminate Hcan.
  - rewrite Hids. apply He.
  - intros d Hd.
    destruct (Forall2_elem_of_r _ _ _ _ HF Hd)
      as (e & _ & Hid & _ & item & Hin & Hitem & Hprod).
    apply detail_GET_Ok in HG as (rx & items & _ & _ & Hitems & ->).
    destruct (detail_item_rows _ _ _ _ Hitems Hin)
      as (row & prod & Hrow & Hpid & _ & Hpi & _).
    exists row. rewrite Hid, <- Hitem. split; [exact Hrow|]. split; [exact Hpid|].
    congruence.
Qed.

Lemma reachable_run es : ∀ s,
  reachable s → all_rendered es s → reachable (run_events es s).
Proof.
  induction es as [|e es IH]; intros s Hs Hr; [exact Hs|].
  destruct Hr as [He Hes]. apply (IH _ (reachable_handle s e Hs He) Hes).
Qed.

Lemma page_of_rx1_reachable : reachable page_of_rx1.
Proof.
  apply reachable_run; [constructor|].
  split; [exists "rx-1", stocked_db; reflexivity|].
  do 5 (split; [exact I|]).
  split; [|exact I]. split.
  - eexists. split; [reflexivity|].
    apply (bool_decide_unpack _). vm_compute. exact I.
  - vm_compute. eauto.
Qed.

Lemma page_request_lines_witness :
  ∃ r p pid db lines,
    DispensePage.handleDispense (Some "pharm-1") page_of_rx1 = Some r ∧
    DispensePage.prescription page_of_rx1 = Some p ∧
    Detail.GET pid db = Detail.Ok p ∧
    mapM line_of (DispensePage.request_dispensedItems r) = Some lines ∧
    lines ≠ [] ∧
    NoDup (DispensedItem.itemId <$> lines).
Proof.
  destruct (DispensePage.handleDispense (Some "pharm-1") page_of_rx1) as [r|] eqn:Hr;
    [|vm_compute in Hr; discriminate Hr].
  destruct (page_request_lines page_of_rx1 (Some "pharm-1") r page_of_rx1_reachable Hr)
    as (p & pid & db & lines & Hp & HG & Hl & Hne & Hnd & _).
  exists r, p, pid, db, lines. auto 10.
Defined.

Lemma body_of_Some r body :
  body_of r = Some body →
  mapM line_of (DispensePage.request_dispensedItems r)
    = Some (Dispense.dispensedItems body) ∧
  DispensePage.request_amountPaid r = Some (Dispense.amountPaid body) ∧
  Dispense.totalAmount body = DispensePage.request_totalAmount r ∧
  Dispense.dispensedBy body = DispensePage.request_dispensedBy r.
Proof.
  unfold body_of.
  destruct (mapM line_of (DispensePage.request_dispensedItems r)) as [lines|];
    [|discriminate].
  destruct (DispensePage.request_amountPaid r) as [paid|]; [|discriminate].
  intros H. injection H as <-. auto.
Qed.

Lemma POST_change now pid body db db' m data :
  Dispense.POST now pid body db = (db', Dispense.Ok m data) →
  Dispense.change data = (Dispense.amountPaid body - Dispense.totalAmount body)%Q.
Proof.
  unfold Dispense.POST.
  destruct (transaction (Dispense.callback now pid body) db) as [db2 [e|res]];
    [discriminate|].
  intros H. injection H as _ _ <-. reflexivity.
Qed.

(** X26: the payment the dispensing page sends.  A request goes out only
    when the amount read in the amount field covers the total of the
    selected items; the route then answers a change that is not negative
    and is the change the page shows.  With the amount field empty a
    request goes out only when that total is not positive, and carries no
    amount. *)
Theorem page_payment s session r :
  DispensePage.handleDispense session s = Some r →
  let total := DispensePage.total (DispensePage.calculateTotals s) in
  DispensePage.request_totalAmount r = total ∧
  match DispensePage.request_amountPaid r with
  | Some paid =>
      (total <= paid)%Q ∧
      (∃ c, DispensePage.change (DispensePage.calculateTotals s) = Some c ∧
            (c == paid - total)%Q) ∧
      ∀ body now pid db db' m data,
        body_of r = Some body →
        Dispense.POST now pid body db = (db', Dispense.Ok m data) →
        (0 <= Dispense.change data)%Q ∧
        ∃ c, DispensePage.change (DispensePage.calculateTotals s) = Some c ∧
             (c == Dispense.change data)%Q
  | None =>
      DispensePage.amountPaid s = DispensePage.Blank ∧ (total <= 0)%Q
  end.
Proof.
  intros Hsend.
  apply handleDispense_Some in Hsend as (Hcan & p & user & Hp & -> & ->).
  cbv zeta. simpl. split; [reflexivity|].
  unfold DispensePage.canDispense in Hcan.
  apply andb_prop in Hcan as [Hcan _]. apply andb_prop in Hcan as [_ Hpay].
  assert (Hchange : ∀ paid,
            DispensePage.parseFloat_or_zero (DispensePage.amountPaid s) = Some paid →
            DispensePage.change (DispensePage.calculateTotals s)
            = Some (Qmax 0 (paid - DispensePage.total (DispensePage.calculateTotals s)))).
  { intros paid Hpaid. unfold DispensePage.calculateTotals. rewrite Hp. simpl.
    rewrite Hpaid. reflexivity. }
  destruct (DispensePage.amountPaid s) as [|[paid|]]; simpl in *.
  - split; [reflexivity|]. apply Qle_bool_iff, Hpay.
  - apply Qle_bool_iff in Hpay.
    assert (Hmax : (Qmax 0 (paid - DispensePage.total (DispensePage.calculateTotals s))
                    == paid - DispensePage.total (DispensePage.calculateTotals s))%Q).
    { apply Q.max_r. apply (proj1 (Qle_minus_iff _ _)), Hpay. }
    split; [exact Hpay|]. split; [eauto|].
    intros body now pid db db' m data Hbody Hpost.
    apply body_of_Some in Hbody as (_ & Hamount & Htotal & _). simpl in *.
    injection Hamount as Hamount.
    rewrite (POST_change _ _ _ _ _ _ _ Hpost), <- Hamount, Htotal.
    split; [apply (proj1 (Qle_minus_iff _ _)), Hpay|]. eauto.
  - discriminate Hpay.
Qed.

Lemma page_payment_witness :
  ∃ r paid,
    DispensePage.handleDispense (Some "pharm-1") page_of_rx1 = Some r ∧
    DispensePage.request_amountPaid r = Some paid ∧
    (DispensePage.total (DispensePage.calculateTotals page_of_rx1) <= paid)%Q.
Proof.
  destruct (DispensePage.handleDispense (Some "pharm-1") page_of_rx1) as [r|] eqn:Hr;
    [|vm_compute in Hr; discriminate Hr].
  pose proof (page_payment page_of_rx1 (Some "pharm-1") r Hr) as [_ Hpay].
  destruct (DispensePage.request_amountPaid r) as [paid|] eqn:Hpaid.
  - exists r, paid. destruct Hpay as [Hle _]. auto.
  - exfalso. destruct Hpay as [Hblank _]. vm_compute in Hblank. discriminate Hblank.
Defined.












(** ** The pharmacist dashboard *)

Lemma dashboard_GET_Ok t act db data :
  Dashboard.GET t act db = Dashboard.Ok data →
  let rows := map_to_list (prescriptions db) in
  ∃ formatted activity,
    mapM (Dashboard.includeItems db)
         (take 5 (merge_sort Pending.orderBy (filter Dashboard.priorityWhere rows)))
      = Some formatted ∧
    act = Some activity ∧
    Dashboard.pendingPrescriptions (Dashboard.statistics data)
      = Z.of_nat (length (filter Dashboard.pendingWhere rows)) ∧
    Dashboard.dispensedToday (Dashboard.statistics data)
      = Z.of_nat (length (filter (Dashboard.dispensedTodayWhere t) rows)) ∧
    Dashboard.revenue (Dashboard.statistics data)
      = Dashboard.or_zero
          (Dashboard.sum_amountPaid (filter (Dashboard.dispensedTodayWhere t) rows)) ∧
    Dashboard.patientsServed (Dashboard.statistics data)
      = Z.of_nat (length (remove_dups
                            ((λ row : string * Prescription.t,
                                Prescription.studentId row.2)
                               <$> filter (Dashboard.dispensedTodayWhere t) rows))) ∧
    Dashboard.priorityPrescriptions data = formatted ∧
    Dashboard.lowStock data
      = Dashboard.lowStockAlerts
          (take 20 (merge_sort Dashboard.byQuantity (in_stock_rows db))) ∧
    Dashboard.recentActivity data = activity.
Proof.
  unfold Dashboard.GET. cbv zeta.
  destruct (mapM (Dashboard.includeItems db) _) as [formatted|]; [|discriminate].
  destruct act as [activity|]; [|discriminate].
  intros H. injection H as <-. simpl. eauto 12.
Qed.

Lemma length_remove_dups_le `{EqDecision A} (l : list A) :
  (length (remove_dups l) ≤ length l)%nat.
Proof.
  induction l as [|x l IH]; simpl; [lia|].
  destruct (decide_rel elem_of x l); simpl; lia.
Qed.

Lemma sum_not_negative (amounts : list Q) : ∀ a,
  (0 <= a)%Q → Forall (λ x, (0 <= x)%Q) amounts →
  (0 <= fold_left Qplus amounts a)%Q.
Proof.
  induction amounts as [|x amounts IH]; intros a Ha Hall; [exact Ha|].
  apply Forall_cons in Hall as [Hx Hall]. simpl. apply IH; [|exact Hall].
  rewrite <- (Qplus_0_l 0). apply Qplus_le_compat; assumption.
Qed.

Lemma or_zero_not_negative x :
  (∀ v, x = Some v → (0 <= v)%Q) → (0 <= Dashboard.or_zero x)%Q.
Proof.
  intros H. destruct x as [v|]; simpl; [|apply Qle_refl].
  destruct (Qeq_bool v 0); [apply Qle_refl|]. apply H. reflexivity.
Qed.

Lemma served_bounds (rows : list (string * Prescription.t)) :
  let served :=
    Z.of_nat (length (remove_dups
                        ((λ row : string * Prescription.t,
                            Prescription.studentId row.2) <$> rows))) in
  let n := Z.of_nat (length rows) in
  0 ≤ served ≤ n ∧ (0 < n → 0 < served) ∧
  (n = 0 → Dashboard.or_zero (Dashboard.sum_amountPaid rows) = 0%Q).
Proof.
  cbv zeta. split; [|split].
  - split; [lia|]. apply Nat2Z.inj_le. etransitivity; [apply length_remove_dups_le|].
    rewrite length_fmap. reflexivity.
  - intros Hpos. destruct rows as [|row rows']; [cbn [length] in Hpos; lia|].
    assert (Hin : Prescription.studentId row.2
                  ∈ remove_dups ((λ row : string * Prescription.t,
                                    Prescription.studentId row.2) <$> row :: rows')).
    { apply elem_of_remove_dups. rewrite fmap_cons. left. }
    destruct (remove_dups ((λ row : string * Prescription.t,
                              Prescription.studentId row.2) <$> row :: rows'))
      as [|x l]; [inversion Hin|].
    cbn [length]. lia.
  - intros Hzero. destruct rows; [reflexivity|]. cbn [length] in Hzero. lia.
Qed.

(** X28: the statistics of the dashboard.  The pending count is the number
    of prescriptions that are pending and not deleted, which is also the
    sum of the three priority counts of the pending list; the patients
    served today are at most the prescriptions dispensed today, and at
    least one when there is such a prescription; with nothing dispensed
    today the revenue is 0; and the revenue is not negative when no amount
    paid is. *)
Theorem dashboard_statistics t act db data :
  Dashboard.GET t act db = Dashboard.Ok data →
  let st := Dashboard.statistics data in
  Dashboard.pendingPrescriptions st = Z.of_nat (length (pending_rows db)) ∧
  (∀ q listing, Pending.GET q db = Pending.Ok listing →
     Dashboard.pendingPrescriptions st
     = Pending.count_emergency (Pending.priorityCounts listing)
       + Pending.count_urgent (Pending.priorityCounts listing)
       + Pending.count_normal (Pending.priorityCounts listing)) ∧
  0 ≤ Dashboard.patientsServed st ≤ Dashboard.dispensedToday st ∧
  (0 < Dashboard.dispensedToday st → 0 < Dashboard.patientsServed st) ∧
  (Dashboard.dispensedToday st = 0 → Dashboard.revenue st = 0%Q) ∧
  ((∀ i rx paid, prescriptions db !! i = Some rx →
                 Prescription.amountPaid rx = Some paid → (0 <= paid)%Q) →
   (0 <= Dashboard.revenue st)%Q).
Proof.
  intros H. cbv zeta.
  apply dashboard_GET_Ok in H
    as (formatted & activity & _ & _ & Hpend & Htoday & Hrev & Hserved & _).
  rewrite Hpend, Htoday, Hrev, Hserved. clear Hpend Htoday Hrev Hserved.
  pose proof (served_bounds (filter (Dashboard.dispensedTodayWhere t)
                                    (map_to_list (prescriptions db))))
    as (Hle & Hpos & Hzero).
  split; [reflexivity|]. split.
  - intros q listing HG. unfold Pending.GET in HG.
    destruct (Pending.findMany q db); [|discriminate].
    destruct (mapM (Pending.includeItems db) l); [|discriminate].
    injection HG as <-. simpl. rewrite countOf_sum. reflexivity.
  - split; [exact Hle|]. split; [exact Hpos|]. split; [exact Hzero|].
    intros Hpaid. apply or_zero_not_negative. intros v Hv.
    unfold Dashboard.sum_amountPaid in Hv.
    destruct (omap _ _) as [|x amounts] eqn:Ham in Hv; [discriminate|].
    injection Hv as <-. apply (sum_not_negative (x :: amounts) 0); [apply Qle_refl|].
    rewrite <- Ham. apply Forall_forall. intros paid Hin.
    apply list_elem_of_omap in Hin as ([i rx] & Hrow & Hamount).
    apply list_elem_of_filter in Hrow as [_ Hrow].
    apply elem_of_map_to_list in Hrow. eapply Hpaid; eauto.
Qed.

Lemma dashboard_statistics_witness :
  ∃ data,
    Dashboard.GET today_noon (Some []) dispensed_db = Dashboard.Ok data ∧
    Dashboard.dispensedToday (Dashboard.statistics data) = 1 ∧
    0 < Dashboard.patientsServed (Dashboard.statistics data) ∧
    Dashboard.pendingPrescriptions (Dashboard.statistics data)
      = Z.of_nat (length (pending_rows dispensed_db)).
Proof.
  destruct (Dashboard.GET today_noon (Some []) dispensed_db) as [data|e] eqn:H;
    [|vm_compute in H; discriminate H].
  exists data. split; [reflexivity|].
  destruct (dashboard_statistics _ _ _ _ H) as (Hpend & _ & _ & Hpos & _).
  assert (Htoday : Dashboard.dispensedToday (Dashboard.statistics data) = 1).
  { vm_compute in H. injection H as <-. reflexivity. }
  split; [exact Htoday|]. split; [apply Hpos; rewrite Htoday; reflexivity|exact Hpend].
Defined.

Global Instance byQuantity_transitive : Transitive Dashboard.byQuantity.
Proof. intros a b c. unfold Dashboard.byQuantity. lia. Qed.

Global Instance byQuantity_total : Total Dashboard.byQuantity.
Proof. intros a b. unfold Dashboard.byQuantity. lia. Qed.

Lemma take_all_short {A} n (l : list A) :
  (length (take n l) < n)%nat → take n l = l.
Proof.
  intros H. rewrite length_take in H. apply take_ge. lia.
Qed.

(** X29: the low-stock alerts of the dashboard.  There are at most five, in
    the order of the quantity on hand.  Each is a product in stock whose
    quantity is at most its reorder level, 10 standing for a reorder level
    that is absent or 0, and the stock list classifies that product as low
    stock.  Only the twenty products lowest in stock are examined: when at
    most twenty products are in stock and fewer than five alerts are
    shown, every such product has an alert. *)
Theorem dashboard_low_stock t act db data :
  Dashboard.GET t act db = Dashboard.Ok data →
  (length (Dashboard.lowStock data) ≤ 5)%nat ∧
  StronglySorted alert_order (Dashboard.lowStock data) ∧
  (∀ a, a ∈ Dashboard.lowStock data →
     ∃ i p, products db !! i = Some p ∧
            Product.isDeleted p = false ∧
            Dashboard.lowStock_name a = Product.name p ∧
            Dashboard.current a = Product.quantity p ∧
            Dashboard.lowStock_reorderLevel a = Stock.reorderThreshold p ∧
            0 < Dashboard.current a ≤ Dashboard.lowStock_reorderLevel a ∧
            ∀ now, Stock.stockStatus (Stock.formatProduct now (i, p)) = low_stock) ∧
  ((length (in_stock_rows db) ≤ 20)%nat →
   (length (Dashboard.lowStock data) < 5)%nat →
   ∀ i p, products db !! i = Some p →
          Product.isDeleted p = false →
          0 < Product.quantity p ≤ Stock.reorderThreshold p →
          ∃ a, a ∈ Dashboard.lowStock data ∧
               Dashboard.lowStock_name a = Product.name p ∧
               Dashboard.current a = Product.quantity p).
Proof.
  intros H.
  apply dashboard_GET_Ok in H as (formatted & activity & _ & _ & _ & _ & _ & _ & _ & Hlow & _).
  rewrite Hlow. clear Hlow. unfold Dashboard.lowStockAlerts.
  set (low := λ drug : string * Product.t,
                Product.quantity drug.2 ≤ or_default (Product.reorderLevel drug.2) 10).
  set (alert := λ drug : string * Product.t,
                  {| Dashboard.lowStock_name := Product.name drug.2;
                     Dashboard.current := Product.quantity drug.2;
                     Dashboard.lowStock_reorderLevel :=
                       or_default (Product.reorderLevel drug.2) 10 |}).
  set (sorted := merge_sort Dashboard.byQuantity (in_stock_rows db)).
  assert (Hsorted : StronglySorted Dashboard.byQuantity sorted)
    by (apply StronglySorted_merge_sort; apply _).
  split; [|split; [|split]].
  - rewrite length_fmap, length_take. lia.
  - eapply StronglySorted_fmap;
      [|apply StronglySorted_take, StronglySorted_filter, StronglySorted_take, Hsorted].
    intros x y Hxy. exact Hxy.
  - intros a Ha. apply list_elem_of_fmap in Ha as ([i p] & -> & Hin).
    eapply elem_of_sublist in Hin; [|apply sublist_take].
    apply list_elem_of_filter in Hin as [Hlow Hin].
    eapply elem_of_sublist in Hin; [|apply sublist_take].
    unfold sorted in Hin. rewrite merge_sort_Permutation in Hin.
    apply list_elem_of_filter in Hin as [[Hpos Hlive] Hrow].
    apply elem_of_map_to_list in Hrow. unfold low in Hlow. simpl in *.
    exists i, p. repeat (split; [first [assumption|reflexivity]|]).
    split; [split; assumption|].
    intros now. unfold Stock.formatProduct, Stock.reorderThreshold. simpl.
    destruct (Z.eqb_spec (Product.quantity p) 0); [lia|].
    destruct (Z.leb_spec (Product.quantity p) (or_default (Product.reorderLevel p) 10));
      [reflexivity|lia].
  - intros Hfew Hshown i p Hp Hlive [Hpos Hle].
    rewrite length_fmap in Hshown. apply take_all_short in Hshown. rewrite Hshown.
    assert (Hlen : (length sorted ≤ 20)%nat).
    { unfold sorted.
      rewrite (Permutation_length (merge_sort_Permutation Dashboard.byQuantity _)).
      exact Hfew. }
    rewrite (take_ge sorted 20) by exact Hlen.
    exists (alert (i, p)). split; [|split; reflexivity].
    apply list_elem_of_fmap. exists (i, p). split; [reflexivity|].
    apply list_elem_of_filter. split; [exact Hle|].
    unfold sorted. rewrite merge_sort_Permutation.
    apply list_elem_of_filter. split; [split; assumption|].
    apply elem_of_map_to_list, Hp.
Qed.

Lemma dashboard_low_stock_witness :
  ∃ data,
    Dashboard.GET today_noon (Some []) stocked_db = Dashboard.Ok data ∧
    Dashboard.lowStock_name <$> Dashboard.lowStock data = ["Amoxicillin"; "Paracetamol"] ∧
    StronglySorted alert_order (Dashboard.lowStock data).
Proof.
  destruct (Dashboard.GET today_noon (Some []) stocked_db) as [data|e] eqn:H;
    [|vm_compute in H; discriminate H].
  exists data. split; [reflexivity|].
  destruct (dashboard_low_stock _ _ _ _ H) as (_ & Hs & _).
  split; [|exact Hs]. vm_compute in H. injection H as <-. reflexivity.
Defined.

Lemma dashboard_includeItems_Some db row f :
  Dashboard.includeItems db row = Some f →
  ∃ items : list ItemWithProduct.t,
    mapM (include_product db) (itemsOf db row.1) = Some items ∧
    f = Dashboard.format row items.
Proof.
  unfold Dashboard.includeItems.
  destruct (mapM (include_product db) (itemsOf db row.1)) as [items|];
    [|discriminate].
  simpl. intros H. injection H as <-. eauto.
Qed.

Lemma dashboard_ids db rows fs :
  Forall2 (λ row f, Dashboard.includeItems db row = Some f) rows fs →
  Dashboard.id <$> fs = rows.*1.
Proof.
  induction 1 as [|row f rows fs Hf _ IH]; [reflexivity|].
  apply dashboard_includeItems_Some in Hf as (items & _ & ->).
  rewrite !fmap_cons, IH. reflexivity.
Qed.

(** X30: the priority prescriptions of the dashboard.  There are at most
    five, pairwise distinct, in the order of the pending list; each is a
    prescription that is pending, not deleted and of emergency or urgent
    priority; they are the first of these in that order: one that is not
    shown stands after every one shown, and only when five are shown.  With
    every item resolving to a product, the dashboard is answered whenever
    the query of the recent dispensals is. *)
Theorem dashboard_priority t act db data :
  Dashboard.GET t act db = Dashboard.Ok data →
  let shown := Dashboard.priorityPrescriptions data in
  (length shown ≤ 5)%nat ∧
  NoDup (Dashboard.id <$> shown) ∧
  StronglySorted dashboard_order shown ∧
  (∀ f, f ∈ shown →
     ∃ rx, prescriptions db !! Dashboard.id f = Some rx ∧
           Prescription.status rx = pending ∧
           Prescription.isDeleted rx = false ∧
           Dashboard.priority f = Prescription.priority rx ∧
           Dashboard.createdAt f = Prescription.createdAt rx ∧
           Dashboard.priority f ≠ normal ∧
           Dashboard.itemCount f = length (itemsOf db (Dashboard.id f))) ∧
  (∀ i rx, prescriptions db !! i = Some rx →
           Prescription.status rx = pending →
           Prescription.isDeleted rx = false →
           Prescription.priority rx ≠ normal →
           i ∉ Dashboard.id <$> shown →
           length shown = 5%nat ∧
           ∀ f, f ∈ shown →
             before (Dashboard.priority f) (Prescription.priority rx) ∨
             (Dashboard.priority f = Prescription.priority rx ∧
              Dashboard.createdAt f ≤ Prescription.createdAt rx)) ∧
  (fk_integrity db → ∀ activity,
     ∃ data', Dashboard.GET t (Some activity) db = Dashboard.Ok data').
Proof.
  intros H. cbv zeta.
  apply dashboard_GET_Ok in H
    as (formatted & activity & Hf & _ & _ & _ & _ & _ & Hshown & _).
  rewrite Hshown. clear Hshown. cbv zeta in Hf.
  set (sorted := merge_sort Pending.orderBy
                   (filter Dashboard.priorityWhere (map_to_list (prescriptions db)))) in *.
  assert (Hsorted : StronglySorted Pending.orderBy sorted)
    by (apply StronglySorted_merge_sort; apply _).
  assert (Hnd : NoDup sorted.*1).
  { unfold sorted. rewrite merge_sort_Permutation.
    eapply sublist_NoDup; [apply (NoDup_fst_map_to_list (prescriptions db))|].
    apply fmap_sublist, sublist_filter. }
  assert (Hrow : ∀ row, row ∈ sorted ↔
            prescriptions db !! row.1 = Some row.2 ∧ Dashboard.priorityWhere row).
  { intros [i rx]. unfold sorted.
    rewrite merge_sort_Permutation, list_elem_of_filter, elem_of_map_to_list. tauto. }
  apply mapM_Some in Hf. pose proof (dashboard_ids _ _ _ Hf) as Hids.
  pose proof (Forall2_length _ _ _ Hf) as Hlen.
  split; [rewrite <- Hlen, length_take; lia|].
  split; [rewrite Hids; eapply sublist_NoDup; [exact Hnd|];
          apply fmap_sublist, sublist_take|].
  split; [|split; [|split]].
  - eapply StronglySorted_Forall2; [|exact Hf|apply StronglySorted_take, Hsorted].
    intros x y x' y' Hx Hy Hxy.
    apply dashboard_includeItems_Some in Hx as (ix & _ & ->).
    apply dashboard_includeItems_Some in Hy as (iy & _ & ->).
    unfold dashboard_order, Pending.orderBy in *. simpl.
    destruct Hxy as [Hlt|[Heq Hle]].
    + left. apply priority_rank_before, Hlt.
    + right. split; [apply priority_rank_inj, Heq|exact Hle].
  - intros f Hin.
    destruct (Forall2_elem_of_r _ _ _ _ Hf Hin) as (row & Hrowin & Hinc).
    apply dashboard_includeItems_Some in Hinc as (items & Hitems & ->).
    eapply elem_of_sublist in Hrowin; [|apply sublist_take].
    apply Hrow in Hrowin as (Hlook & Hst & Hprio & Hlive). simpl.
    exists row.2. repeat (split; [first [assumption|reflexivity]|]).
    split; [destruct Hprio as [-> | ->]; discriminate|].
    symmetry. eapply length_mapM, Hitems.
  - intros i rx Hlook Hst Hlive Hprio Hout.
    assert (Hin : (i, rx) ∈ sorted).
    { apply Hrow. split; [exact Hlook|]. split; [exact Hst|]. split; [|exact Hlive].
      simpl. destruct (Prescription.priority rx); auto. contradiction. }
    rewrite Hids in Hout. rewrite <- (take_drop 5 sorted) in Hin, Hsorted.
    apply elem_of_app in Hin as [Hin|Hin].
    { exfalso. apply Hout. apply list_elem_of_fmap. exists (i, rx). auto. }
    split.
    + rewrite <- Hlen, length_take.
      assert (Hlong : (5 < length sorted)%nat).
      { destruct (decide (5 < length sorted)%nat) as [|Hshort]; [assumption|].
        rewrite drop_ge in Hin by lia. inversion Hin. }
      lia.
    + intros f Hfin.
      destruct (Forall2_elem_of_r _ _ _ _ Hf Hfin) as (row & Hrowin & Hinc).
      apply dashboard_includeItems_Some in Hinc as (items & _ & ->).
      pose proof (StronglySorted_app_1_elem_of _ _ _ _ _ Hsorted Hrowin Hin) as Hord.
      unfold Pending.orderBy in Hord. simpl in *.
      destruct Hord as [Hlt|[Heq Hle]].
      * left. apply priority_rank_before, Hlt.
      * right. split; [apply priority_rank_inj, Heq|exact Hle].
  - intros Hfk activity'. unfold Dashboard.GET. cbv zeta. fold sorted.
    assert (Hall : is_Some (mapM (Dashboard.includeItems db) (take 5 sorted))).
    { apply mapM_is_Some, Forall_forall. intros row _.
      unfold compose, Dashboard.includeItems.
      destruct (fk_integrity_include db row.1 Hfk) as [items Hitems].
      rewrite Hitems. simpl. eauto. }
    destruct Hall as [fs Hfs]. rewrite Hfs. eauto.
Qed.

Lemma dashboard_priority_witness :
  ∃ data,
    Dashboard.GET today_noon (Some []) queue_db = Dashboard.Ok data ∧
    Dashboard.id <$> Dashboard.priorityPrescriptions data = ["rx-4"; "rx-2"; "rx-3"] ∧
    StronglySorted dashboard_order (Dashboard.priorityPrescriptions data).
Proof.
  destruct (Dashboard.GET today_noon (Some []) queue_db) as [data|e] eqn:H;
    [|vm_compute in H; discriminate H].
  exists data. split; [reflexivity|].
  destruct (dashboard_priority _ _ _ _ H) as (_ & _ & Hs & _).
  split; [|exact Hs]. vm_compute in H. injection H as <-. reflexivity.
Defined.
